(** * Benchmark comparison tool (scripts/compare-benchmarks.py)

    A shallow embedding of the result parsers, the search for the result
    files, the comparator, the value formatter, the two reports and the
    exit logic of [compare-benchmarks.py], with the properties stated about
    them.

    Conventions of the embedding.
    - A Python [float] is an IEEE 754 binary64 number: [spec_float] with
      precision 53 and [emax] 1024, rounding to nearest even. Conversions
      between decimal text and floats are correctly rounded, as in CPython.
    - A Python [str] is a [string]; a character stands for the code point
      of the same number (code points below 256), so that the order on
      strings is Python's.
    - A value decoded from JSON is a [pyval]; a [dict] decoded from JSON is
      an association list in insertion order, the mappings that the program
      builds are [gmap]s.
    - Code that can raise returns a [result]; what is printed is returned
      as a list of [event]s. The exceptions that any statement can raise
      ([MemoryError], [KeyboardInterrupt]) are left out.
    - The file system is seen through what [exists], [open], [read] and
      [json.load] give for a path ([json_file], [text_file]): the content,
      or the exception that the call raises. [main] takes
      the outcome of the search for the paths, of the loading of the
      metadata, of the rendering and of the writing of the report as given;
      the search for the paths and the Markdown rendering are embedded on
      their own, over a listing of the directory and with the built-in
      [str] as a parameter. *)

From Stdlib Require Import ZArith String Ascii List Bool Lia.
From Stdlib Require Import Floats.SpecFloat.
From stdpp Require Import base option list gmap strings sorting.

Local Open Scope string_scope.
Local Open Scope list_scope.
Local Open Scope Z_scope.

(** ** Floats *)

Module Float.

Definition prec : Z := 53.
Definition emax : Z := 1024.

Definition float : Type := spec_float.

Definition zero : float := S754_zero false.
Definition sub : float -> float -> float := SFsub prec emax.
Definition mul : float -> float -> float := SFmul prec emax.
Definition div : float -> float -> float := SFdiv prec emax.
Definition neg : float -> float := SFopp.
Definition eqb : float -> float -> bool := SFeqb.
Definition ltb : float -> float -> bool := SFltb.
Definition leb : float -> float -> bool := SFleb.
(** [x > y] and [x >= y] of Python. *)
Definition gtb (x y : float) : bool := ltb y x.
Definition geb (x y : float) : bool := leb y x.

(** The float nearest to the integer [z] (ties to even; infinite when
    the magnitude is too large). *)
Definition of_Z (z : Z) : float := binary_normalize prec emax z 0 false.

Definition is_finite (x : float) : bool :=
  match x with
  | S754_zero _ | S754_finite _ _ _ => true
  | _ => false
  end.

End Float.

Abbreviation float := Float.float.

(** ** Exceptions and results *)

(** The classes of the exceptions that the program meets. [OSError]
    stands for the classes of [OSError] other than [FileNotFoundError]
    ([PermissionError], [IsADirectoryError], an error of the device), and
    [ValueError] for the class itself, not for [JSONDecodeError] and
    [UnicodeDecodeError], which inherit from it: a handler that names
    [FileNotFoundError] or [JSONDecodeError] catches neither. *)
Inductive exn : Type :=
  | FileNotFoundError
  | OSError
  | UnicodeDecodeError
  | JSONDecodeError
  | RecursionError
  | AttributeError
  | TypeError
  | ValueError
  | OverflowError
  | ZeroDivisionError
  | SystemExit (code : Z).

Inductive result (A : Type) : Type :=
  | Ok (a : A)
  | Raise (e : exn).
Arguments Ok {A} a.
Arguments Raise {A} e.

Global Instance result_ret : MRet result := fun A a => Ok a.
Global Instance result_bind : MBind result := fun A B k r =>
  match r with
  | Ok a => k a
  | Raise e => Raise e
  end.

Definition returns {A} (r : result A) : Prop := exists a, r = Ok a.

(** ** Values decoded from JSON *)

#[warnings="-register-all"]
Inductive pyval : Type :=
  | PNone
  | PBool (b : bool)
  | PInt (n : Z)
  | PFloat (x : float)
  | PStr (s : string)
  | PList (l : list pyval)
  | PDict (kvs : list (string * pyval)).

(** [d.get(key, default)] on the items of a dict. *)
Fixpoint dict_get (kvs : list (string * pyval)) (key : string) (default : pyval)
  : pyval :=
  match kvs with
  | [] => default
  | (k, v) :: rest => if String.eqb k key then v else dict_get rest key default
  end.

(** [v.get(key, default)]: only a dict has the method. *)
Definition py_get (v : pyval) (key : string) (default : pyval) : result pyval :=
  match v with
  | PDict kvs => Ok (dict_get kvs key default)
  | _ => Raise AttributeError
  end.

(** [v.items()]: only a dict has the method. *)
Definition py_items (v : pyval) : result (list (string * pyval)) :=
  match v with
  | PDict kvs => Ok kvs
  | _ => Raise AttributeError
  end.

(** ** Characters and decimal digits *)

Definition code (c : ascii) : Z := Z.of_N (N_of_ascii c).

Definition is_digit (c : ascii) : bool := (48 <=? code c) && (code c <=? 57).

Definition digit_value (c : ascii) : Z := code c - 48.

(** The value of a list of decimal digits, most significant first. *)
Definition digits_value (ds : list ascii) : Z :=
  fold_left (fun acc c => 10 * acc + digit_value c) ds 0.

Definition lower (c : ascii) : ascii :=
  if (65 <=? code c) && (code c <=? 90)
  then ascii_of_N (N_of_ascii c + 32) else c.

Fixpoint take_while {A} (p : A -> bool) (l : list A) : list A :=
  match l with
  | [] => []
  | x :: rest => if p x then x :: take_while p rest else []
  end.

Fixpoint drop_while {A} (p : A -> bool) (l : list A) : list A :=
  match l with
  | [] => []
  | x :: rest => if p x then drop_while p rest else l
  end.

(** ** Rounding a fraction to a float *)

(** [rne a b]: the integer nearest to [a / b], ties to even, for [0 <= a]
    and [0 < b]. *)
Definition rne (a b : Z) : Z :=
  let q := a / b in
  let r := a mod b in
  match Z.compare (2 * r) b with
  | Lt => q
  | Gt => q + 1
  | Eq => if Z.even q then q else q + 1
  end.

(** [(a / b) / 2 ^ e] as a fraction. *)
Definition scale2 (a b e : Z) : Z * Z :=
  if 0 <=? e then (a, b * 2 ^ e) else (a * 2 ^ (- e), b).

(** The float nearest to [num / den], ties to even, with the sign [s]:
    the exponent is the one at which the quotient has 53 bits, or the
    least exponent when the quotient is below the normal range. *)
Definition round_ratio (s : bool) (num den : positive) : float :=
  let e1 := Z.log2 (Zpos num) - Z.log2 (Zpos den) - (Float.prec - 1) in
  let '(a1, b1) := scale2 (Zpos num) (Zpos den) e1 in
  let e2 := if 2 ^ (Float.prec - 1) * b1 <=? a1 then e1 else e1 - 1 in
  let e := Z.max e2 (emin Float.prec Float.emax) in
  let '(a, b) := scale2 (Zpos num) (Zpos den) e in
  let q := rne a b in
  let '(m, e') :=
    if q =? 2 ^ Float.prec then (2 ^ (Float.prec - 1), e + 1) else (q, e) in
  match m with
  | Zpos p =>
      if Float.emax - Float.prec <? e' then S754_infinity s
      else S754_finite s p e'
  | _ => S754_zero s
  end.

(** The float nearest to [m * 10 ^ e] with the sign [s], for [0 <= m]. *)
Definition decimal_to_float (s : bool) (m e : Z) : float :=
  match m with
  | Zpos p =>
      if 0 <=? e then round_ratio s (Z.to_pos (m * 10 ^ e)) 1
      else round_ratio s p (Z.to_pos (10 ^ (- e)))
  | _ => S754_zero s
  end.

(** ** The built-in [float] *)

(** White space that [float] strips: the ASCII white space and, of the
    code points below 256, U+0085 and U+00A0. *)
Definition float_space (c : ascii) : bool :=
  ((9 <=? code c) && (code c <=? 13)) || (code c =? 32) || (code c =? 133)
  || (code c =? 160).

(** Underscores are accepted between two digits only, and removed. *)
Fixpoint strip_underscores (prev : option ascii) (l : list ascii)
  : option (list ascii) :=
  match l with
  | [] => match prev with
          | Some "_"%char => None
          | _ => Some []
          end
  | c :: rest =>
      if Ascii.eqb c "_" then
        match prev with
        | Some p => if is_digit p then strip_underscores (Some c) rest else None
        | None => None
        end
      else
        match prev with
        | Some "_"%char =>
            if is_digit c then cons c <$> strip_underscores (Some c) rest
            else None
        | _ => cons c <$> strip_underscores (Some c) rest
        end
  end.

Definition strip (l : list ascii) : list ascii :=
  rev (drop_while float_space (rev (drop_while float_space l))).

Definition split_sign (l : list ascii) : bool * list ascii :=
  match l with
  | "-"%char :: rest => (true, rest)
  | "+"%char :: rest => (false, rest)
  | _ => (false, l)
  end.

(** The exponent part: nothing, or [e] or [E], an optional sign and at
    least one digit. *)
Definition parse_exponent (l : list ascii) : option Z :=
  match l with
  | [] => Some 0
  | c :: rest =>
      if Ascii.eqb (lower c) "e" then
        let '(s, ds) := split_sign rest in
        match ds with
        | [] => None
        | _ => if forallb is_digit ds
               then Some (if s then - digits_value ds else digits_value ds)
               else None
        end
      else None
  end.

(** Digits with an optional point and an optional exponent; at least one
    digit before or after the point. *)
Definition parse_number (s : bool) (l : list ascii) : option float :=
  let ip := take_while is_digit l in
  let r1 := drop_while is_digit l in
  let '(fp, r2) :=
    match r1 with
    | "."%char :: r => (take_while is_digit r, drop_while is_digit r)
    | _ => ([], r1)
    end in
  match ip ++ fp with
  | [] => None
  | ds =>
      e ← parse_exponent r2;
      Some (decimal_to_float s (digits_value ds) (e - Z.of_nat (length fp)))
  end.

(** [float(str)], [None] standing for [ValueError]: white space around,
    an optional sign, then "inf", "infinity" or "nan" in any case, or a
    decimal number. The result is the float nearest to the number. (CPython
    caps exponents at 1100000000 in absolute value, which changes nothing
    for a string of fewer than 10 ^ 9 characters.) *)
Definition float_of_str (str : string) : option float :=
  l ← strip_underscores None (list_ascii_of_string str);
  let '(s, body) := split_sign (strip l) in
  let low := string_of_list_ascii (map lower body) in
  if String.eqb low "inf" || String.eqb low "infinity"
  then Some (S754_infinity s)
  else if String.eqb low "nan" then Some S754_nan
  else parse_number s body.

(** [float(v)] for a value decoded from JSON. *)
Definition py_float (v : pyval) : result float :=
  match v with
  | PFloat x => Ok x
  | PInt n =>
      match Float.of_Z n with
      | S754_infinity _ => Raise OverflowError
      | x => Ok x
      end
  | PBool b => Ok (Float.of_Z (if b then 1 else 0))
  | PStr s =>
      match float_of_str s with
      | Some x => Ok x
      | None => Raise ValueError
      end
  | PNone | PList _ | PDict _ => Raise TypeError
  end.

(** ** Data classes *)

(** The fields are not checked against their annotations: [unit] and
    [raw_value] hold whatever the parsed document has. *)
Module BenchmarkResult.
Record t : Type := mk {
  name : string;
  value : float;
  unit : pyval;
  raw_value : pyval
}.
End BenchmarkResult.

Module ComparisonResult.
Record t : Type := mk {
  name : string;
  baseline_value : float;
  latest_value : float;
  unit : pyval;
  change_percent : float;
  is_regression : bool;
  is_improvement : bool
}.
End ComparisonResult.

Abbreviation results := (gmap string BenchmarkResult.t).

(** ** Files and console output *)

(** How [open] and the reading fail on a file that is there: the file
    cannot be opened or read (no permission, a directory, an error of the
    device), or its bytes are not text in the encoding of the locale. *)
Inductive read_failure : Type :=
  | NoAccess
  | NotText.

Definition read_error (r : read_failure) : exn :=
  match r with
  | NoAccess => OSError
  | NotText => UnicodeDecodeError
  end.

(** How the JSON decoder fails on a text other than by rejecting it as a
    document: the document is nested deeper than the decoder recurses, or
    has an integer of more digits than [int] converts. *)
Inductive decode_failure : Type :=
  | TooDeep
  | TooLong.

Definition decode_error (d : decode_failure) : exn :=
  match d with
  | TooDeep => RecursionError
  | TooLong => ValueError
  end.

(** What [open] and [json.load] give for a path: the file is not there, it
    cannot be read, its text is not a JSON document, the decoder fails on
    the document, or it decodes to a value. *)
Inductive json_file : Type :=
  | NoSuchFile
  | Unreadable (r : read_failure)
  | NotJson
  | Undecoded (d : decode_failure)
  | Json (data : pyval).

(** What [open] and [read] give for a text file. *)
Inductive text_file : Type :=
  | NoSuchText
  | UnreadableText (r : read_failure)
  | Text (content : string).

(** [with open(path) as f: json.load(f)]. *)
Definition load (f : json_file) : result pyval :=
  match f with
  | NoSuchFile => Raise FileNotFoundError
  | Unreadable r => Raise (read_error r)
  | NotJson => Raise JSONDecodeError
  | Undecoded d => Raise (decode_error d)
  | Json data => Ok data
  end.

(** The lines that the program prints. *)
Inductive event : Type :=
  | WarnRust (e : exn)
  | WarnSwift (e : exn)
  | ErrorNoDirectory
  | ErrorNoResults
  | VerbosePaths
  | ReportGenerated
  | WarnRegressions (n : Z).

(** A computation that prints and may raise. *)
Definition io (A : Type) : Type := result A * list event.

Global Instance io_ret : MRet io := fun A a => (Ok a, []).
Global Instance io_bind : MBind io := fun A B k m =>
  match m with
  | (Ok a, out) => let '(r, out') := k a in (r, out ++ out')
  | (Raise e, out) => (Raise e, out)
  end.

Definition print (ev : event) : io Datatypes.unit := (Ok tt, [ev]).
Definition throw {A} (e : exn) : io A := (Raise e, []).

(** ** Parser of the Rust results *)

(** The loop over [benchmarks.items()]: the mapping built so far and the
    exception that stopped the loop, if any. *)
Fixpoint rust_loop (items : list (string * pyval)) (acc : results)
  : results * option exn :=
  match items with
  | [] => (acc, None)
  | (name, info) :: rest =>
      match info with
      | PDict kvs =>
          let value := dict_get kvs "mean_ns" (dict_get kvs "value" (PInt 0)) in
          let unit := dict_get kvs "unit" (PStr "ns") in
          match py_float value with
          | Raise e => (acc, Some e)
          | Ok x =>
              rust_loop rest
                (<[name := BenchmarkResult.mk name x unit
                             (dict_get kvs "value" PNone)]> acc)
          end
      | _ => rust_loop rest acc
      end
  end.

(** The body of the [try] of [parse_rust_results]. *)
Definition rust_try (f : json_file) : results * option exn :=
  match load f with
  | Raise e => (∅, Some e)
  | Ok data =>
      match py_get data "benchmarks" (PDict []) with
      | Raise e => (∅, Some e)
      | Ok benchmarks =>
          match py_items benchmarks with
          | Raise e => (∅, Some e)
          | Ok items => rust_loop items ∅
          end
      end
  end.

Definition parse_rust_results (f : json_file) : io results :=
  match rust_try f with
  | (acc, None) => (Ok acc, [])
  | (acc, Some JSONDecodeError) => (Ok acc, [WarnRust JSONDecodeError])
  | (acc, Some FileNotFoundError) => (Ok acc, [WarnRust FileNotFoundError])
  | (_, Some e) => (Raise e, [])
  end.

(** ** Parser of the Swift results *)

Definition thousand : float := Float.of_Z 1000.

Fixpoint swift_json_loop (items : list (string * pyval)) (acc : results)
  : results * option exn :=
  match items with
  | [] => (acc, None)
  | (name, info) :: rest =>
      match info with
      | PDict kvs =>
          let value := dict_get kvs "average_seconds" (PInt 0) in
          match py_float value with
          | Raise e => (acc, Some e)
          | Ok x =>
              swift_json_loop rest
                (<[name := BenchmarkResult.mk name (Float.mul x thousand)
                             (PStr "ms") PNone]> acc)
          end
      | _ => swift_json_loop rest acc
      end
  end.

(** The body of the [try] on the JSON file next to the text file. *)
Definition swift_json_try (f : json_file) : results * option exn :=
  match load f with
  | Raise e => (∅, Some e)
  | Ok data =>
      match py_get data "tests" (PDict []) with
      | Raise e => (∅, Some e)
      | Ok tests =>
          match py_items tests with
          | Raise e => (∅, Some e)
          | Ok items => swift_json_loop items ∅
          end
      end
  end.

(** White space of the regular expression [\s], for code points below 256. *)
Definition re_space (c : ascii) : bool :=
  ((9 <=? code c) && (code c <=? 13)) || ((28 <=? code c) && (code c <=? 32))
  || (code c =? 133) || (code c =? 160).

(** The class [[0-9.]]. *)
Definition re_number_char (c : ascii) : bool := is_digit c || Ascii.eqb c ".".

Definition is_quote (c : ascii) : bool := Ascii.eqb c "'".
Definition is_newline (c : ascii) : bool := Ascii.eqb c "010".

(** [re.search(r"'([^']+)'", line)]: the group of the leftmost match. *)
Fixpoint search_test (line : list ascii) : option (list ascii) :=
  match line with
  | [] => None
  | c :: rest =>
      if is_quote c then
        match take_while (fun x => negb (is_quote x)) rest,
              drop_while (fun x => negb (is_quote x)) rest with
        | (_ :: _) as body, _ :: _ => Some body
        | _, _ => search_test rest
        end
      else search_test rest
  end.

Fixpoint starts_with (p l : list ascii) : option (list ascii) :=
  match p, l with
  | [], _ => Some l
  | a :: p', b :: l' => if Ascii.eqb a b then starts_with p' l' else None
  | _ :: _, [] => None
  end.

(** [\s+([0-9.]+)] at the head of [l]: the group. *)
Definition match_number (l : list ascii) : option (list ascii) :=
  match take_while re_space l with
  | [] => None
  | _ :: _ =>
      match take_while re_number_char (drop_while re_space l) with
      | [] => None
      | g => Some g
      end
  end.

(** [average:\s+([0-9.]+)] at the head of [l]. *)
Definition match_average (l : list ascii) : option (list ascii) :=
  match starts_with (list_ascii_of_string "average:") l with
  | Some rest => match_number rest
  | None => None
  end.

(** [.*average:\s+([0-9.]+)] at the head of [l]: the star takes as many
    characters other than a newline as a match allows. *)
Fixpoint match_rest (l : list ascii) : option (list ascii) :=
  match l with
  | [] => match_average []
  | c :: rest =>
      match (if is_newline c then None else match_rest rest) with
      | Some g => Some g
      | None => match_average l
      end
  end.

(** [re.search(r"measured.*average:\s+([0-9.]+)", line)]: the group of the
    leftmost match. *)
Fixpoint search_measure (line : list ascii) : option (list ascii) :=
  match line with
  | [] => None
  | _ :: rest =>
      match
        match starts_with (list_ascii_of_string "measured") line with
        | Some tail => match_rest tail
        | None => None
        end
      with
      | Some g => Some g
      | None => search_measure rest
      end
  end.

(** [content.split("\n")]. *)
Fixpoint split_lines (l : list ascii) : list (list ascii) :=
  match l with
  | [] => [[]]
  | c :: rest =>
      if is_newline c then [] :: split_lines rest
      else
        match split_lines rest with
        | cur :: others => (c :: cur) :: others
        | [] => [[c]]
        end
  end.

(** The truth value of [current_test]. *)
Definition truthy (current_test : option string) : bool :=
  match current_test with
  | Some t => negb (String.eqb t "")
  | None => false
  end.

(** One turn of the loop over the lines. *)
Definition scan_line (line : list ascii) (st : option string * results)
  : result (option string * results) :=
  let '(current_test, acc) := st in
  let current_test :=
    match search_test line with
    | Some g => Some (string_of_list_ascii g)
    | None => current_test
    end in
  match search_measure line, current_test with
  | Some g, Some t =>
      if truthy current_test then
        match float_of_str (string_of_list_ascii g) with
        | None => Raise ValueError
        | Some value =>
            Ok (current_test,
                <[t := BenchmarkResult.mk t (Float.mul value thousand)
                         (PStr "ms") PNone]> acc)
        end
      else Ok (current_test, acc)
  | _, _ => Ok (current_test, acc)
  end.

Fixpoint scan_lines (lines : list (list ascii)) (st : option string * results)
  : result (option string * results) :=
  match lines with
  | [] => Ok st
  | line :: rest => st' ← scan_line line st; scan_lines rest st'
  end.

(** The text fall-back on the content of the file. *)
Definition parse_swift_text (content : string) (acc : results) : result results :=
  st ← scan_lines (split_lines (list_ascii_of_string content)) (None, acc);
  Ok (snd st).

(** [json_sibling] is the file with the suffix [.json], [None] when it does
    not exist; [text] is the file at [filepath], [None] when it does not
    exist. A file that exists and is gone when it is opened is
    [Some NoSuchFile], [Some NoSuchText]. The two tests [exists], which
    are outside the [try], are taken to answer. *)
Definition parse_swift_results (json_sibling : option json_file)
    (text : option text_file) : io results :=
  let text_path (acc : results) : io results :=
    match text with
    | None => (Ok acc, [])
    | Some NoSuchText => (Ok acc, [WarnSwift FileNotFoundError])
    | Some (UnreadableText r) => (Raise (read_error r), [])
    | Some (Text content) =>
        (* the scan raises [ValueError] only, which is not caught *)
        match parse_swift_text content acc with
        | Ok r => (Ok r, [])
        | Raise e => (Raise e, [])
        end
    end in
  match json_sibling with
  | None => text_path ∅
  | Some f =>
      match swift_json_try f with
      | (acc, None) => (Ok acc, [])
      | (acc, Some JSONDecodeError) => text_path acc
      | (acc, Some FileNotFoundError) => text_path acc
      | (_, Some e) => (Raise e, [])
      end
  end.

(** ** Comparator *)

(** [x / y] on floats raises when the divisor compares equal to zero. *)
Definition truediv (x y : float) : result float :=
  if Float.eqb y Float.zero then Raise ZeroDivisionError
  else Ok (Float.div x y).

(** [sorted(names)] for a set of strings. *)
Definition sorted (names : gset string) : list string :=
  merge_sort String.le (elements names).

Definition hundred : float := Float.of_Z 100.

(** The body of the loop of [compare_results] for one name that both
    mappings have. *)
Definition compare_one (name : string) (base curr : BenchmarkResult.t)
    (threshold : float) : result ComparisonResult.t :=
  change_percent ←
    (if Float.eqb (BenchmarkResult.value base) Float.zero then Ok Float.zero
     else
       q ← truediv (Float.sub (BenchmarkResult.value curr)
                      (BenchmarkResult.value base))
             (BenchmarkResult.value base);
       Ok (Float.mul q hundred));
  let is_regression := Float.gtb change_percent threshold in
  let is_improvement := Float.ltb change_percent (Float.neg threshold) in
  Ok (ComparisonResult.mk name (BenchmarkResult.value base)
        (BenchmarkResult.value curr) (BenchmarkResult.unit base)
        change_percent is_regression is_improvement).

Fixpoint compare_loop (names : list string) (baseline latest : results)
    (threshold : float) (comparisons : list ComparisonResult.t)
  : result (list ComparisonResult.t) :=
  match names with
  | [] => Ok comparisons
  | name :: rest =>
      match baseline !! name, latest !! name with
      | Some base, Some curr =>
          c ← compare_one name base curr threshold;
          compare_loop rest baseline latest threshold (comparisons ++ [c])
      | _, _ => compare_loop rest baseline latest threshold comparisons
      end
  end.

Definition compare_results (baseline latest : results) (threshold : float)
  : result (list ComparisonResult.t) :=
  let all_names := dom baseline ∪ dom latest in
  compare_loop (sorted all_names) baseline latest threshold [].

(** The status string of a record, as both renderers compute it. *)
Definition status (c : ComparisonResult.t) : string :=
  if ComparisonResult.is_regression c then "regression"
  else if ComparisonResult.is_improvement c then "improvement"
  else "unchanged".

(** ** Value formatter *)

Definition digit_char (d : Z) : ascii := ascii_of_N (Z.to_N (48 + d)).

(** The decimal digits of [n >= 0], most significant first, in front of
    [acc]; [fuel] bounds the number of digits. *)
Fixpoint digits_onto (fuel : nat) (n : Z) (acc : list ascii) : list ascii :=
  match fuel with
  | O => acc
  | S fuel' =>
      let acc' := digit_char (n mod 10) :: acc in
      if n / 10 =? 0 then acc' else digits_onto fuel' (n / 10) acc'
  end.

Definition digits_of (n : Z) : list ascii :=
  digits_onto (S (Z.to_nat (Z.log2 n))) n [].

(** [n / 10 ^ d] written with [d] decimals, for [n >= 0]. *)
Definition fixed_digits (d : nat) (n : Z) : list ascii :=
  let ds := digits_of n in
  let ds := repeat "0"%char (S d - length ds) ++ ds in
  let k := (length ds - d)%nat in
  match d with
  | O => ds
  | _ => firstn k ds ++ "."%char :: skipn k ds
  end.

(** The format [.df] of a float: the decimal number with [d] decimals
    nearest to the value (ties to even), with the sign of the float. *)
Definition format_fixed (d : nat) (x : float) : string :=
  match x with
  | S754_nan => "nan"
  | S754_infinity s => if s then "-inf" else "inf"
  | S754_zero s =>
      string_of_list_ascii
        ((if s then ["-"%char] else []) ++ fixed_digits d 0)
  | S754_finite s m e =>
      let '(a, b) := scale2 (Zpos m * 10 ^ Z.of_nat d) 1 (- e) in
      string_of_list_ascii
        ((if s then ["-"%char] else []) ++ fixed_digits d (rne a b))
  end.

(** The unit is a string, as the signature says. *)
Definition format_value (value : float) (unit : string) : string :=
  if String.eqb unit "ns" then
    if Float.geb value (Float.of_Z 1000000000) then
      format_fixed 2 (Float.div value (Float.of_Z 1000000000)) ++ "s"
    else if Float.geb value (Float.of_Z 1000000) then
      format_fixed 2 (Float.div value (Float.of_Z 1000000)) ++ "ms"
    else if Float.geb value (Float.of_Z 1000) then
      format_fixed 2 (Float.div value (Float.of_Z 1000)) ++ "us"
    else format_fixed 0 value ++ "ns"
  else if String.eqb unit "ms" then
    if Float.geb value (Float.of_Z 1000) then
      format_fixed 2 (Float.div value (Float.of_Z 1000)) ++ "s"
    else format_fixed 2 value ++ "ms"
  else if String.eqb unit "s" then format_fixed 3 value ++ "s"
  else format_fixed 2 value ++ unit.

(** ** Structured report *)

(** [sum(1 for c in cs if p(c))]. *)
Definition sum_ones (p : ComparisonResult.t -> bool)
    (cs : list ComparisonResult.t) : Z :=
  fold_left (fun acc c => if p c then acc + 1 else acc) cs 0.

Definition report_entry (c : ComparisonResult.t) : pyval :=
  PDict [("name", PStr (ComparisonResult.name c));
         ("baseline", PFloat (ComparisonResult.baseline_value c));
         ("current", PFloat (ComparisonResult.latest_value c));
         ("unit", ComparisonResult.unit c);
         ("change_percent", PFloat (ComparisonResult.change_percent c));
         ("status", PStr (status c))].

(** The report that [generate_json_report] hands to [json.dumps]; [now] is
    the time stamp that the clock gives. *)
Definition generate_json_report (now : string)
    (rust_comparisons swift_comparisons : list ComparisonResult.t)
    (metadata : pyval) : pyval :=
  PDict
    [("generated", PStr now);
     ("metadata", metadata);
     ("summary",
      PDict
        [("total",
          PInt (Z.of_nat (length rust_comparisons)
                + Z.of_nat (length swift_comparisons)));
         ("regressions",
          PInt (sum_ones ComparisonResult.is_regression
                  (rust_comparisons ++ swift_comparisons)));
         ("improvements",
          PInt (sum_ones ComparisonResult.is_improvement
                  (rust_comparisons ++ swift_comparisons)))]);
     ("rust", PList (map report_entry rust_comparisons));
     ("swift", PList (map report_entry swift_comparisons))].

(** ** The program *)

(** The files at the path of a Swift result. *)
Record swift_files : Type := {
  json_sibling : option json_file;
  text : option text_file
}.

(** What a run finds: whether the results directory exists, the options,
    the file at each of the four paths ([None] when no path was found or
    the path does not exist), and how loading the metadata, rendering the
    report and writing it ends ([None] when the report is written, the
    exception otherwise). *)
Record world : Type := {
  dir_exists : bool;
  verbose : bool;
  threshold : float;
  rust_latest_file : option json_file;
  rust_baseline_file : option json_file;
  swift_latest_files : option swift_files;
  swift_baseline_files : option swift_files;
  report_failure : option exn
}.

Definition parse_rust_at (f : option json_file) : io results :=
  match f with
  | Some f => parse_rust_results f
  | None => (Ok ∅, [])
  end.

(** The path exists when the text file at the path does. *)
Definition parse_swift_at (f : option swift_files) : io results :=
  match f with
  | Some {| json_sibling := j; text := Some t |} =>
      parse_swift_results j (Some t)
  | _ => (Ok ∅, [])
  end.

Definition lift {A} (r : result A) : io A := (r, []).

Definition is_empty (r : results) : bool := bool_decide (r = ∅).

Definition main (w : world) : io Datatypes.unit :=
  if negb (dir_exists w) then
    _ ← print ErrorNoDirectory; throw (SystemExit 1)
  else
    _ ← (if verbose w then print VerbosePaths else mret tt);
    rust_latest ← parse_rust_at (rust_latest_file w);
    rust_baseline ← parse_rust_at (rust_baseline_file w);
    swift_latest ← parse_swift_at (swift_latest_files w);
    swift_baseline ← parse_swift_at (swift_baseline_files w);
    if is_empty rust_latest && is_empty swift_latest then
      _ ← print ErrorNoResults; throw (SystemExit 1)
    else
      rust_comparisons ←
        lift (compare_results rust_baseline rust_latest (threshold w));
      swift_comparisons ←
        lift (compare_results swift_baseline swift_latest (threshold w));
      _ ← match report_failure w with
          | Some e => throw e
          | None => print ReportGenerated
          end;
      let total_regressions :=
        sum_ones ComparisonResult.is_regression
          (rust_comparisons ++ swift_comparisons) in
      if 0 <? total_regressions then
        _ ← print (WarnRegressions total_regressions); throw (SystemExit 1)
      else mret tt.

(** The exit status of the process: that of [sys.exit], 1 after an
    exception that nothing catches, 0 at the end of [main]. *)
Definition exit_status (r : io Datatypes.unit) : Z :=
  match fst r with
  | Ok _ => 0
  | Raise (SystemExit code) => code
  | Raise _ => 1
  end.
(** ** Search for the result files *)

(** An entry of the results directory that [stat] reaches: its name and
    its modification time [st_mtime]. The code only compares the times,
    which are counted here in ticks of the clock. *)
Record dir_entry : Type := {
  entry_name : string;
  st_mtime : Z
}.

(** The results directory: its entries, in the order in which the
    directory is listed. A path of the directory is given by the name of
    the entry; names compare as the strings that they are. *)
Definition directory : Type := list dir_entry.

Definition ends_with (suffix l : list ascii) : bool :=
  match starts_with (rev suffix) (rev l) with
  | Some _ => true
  | None => false
  end.

(** The name matches the pattern [f"{prefix}-*{suffix}"], for a prefix and
    a suffix without wild cards. *)
Definition glob_match (prefix suffix name : string) : bool :=
  match starts_with (list_ascii_of_string (prefix +:+ "-"))
          (list_ascii_of_string name) with
  | Some rest => ends_with (list_ascii_of_string suffix) rest
  | None => false
  end.

(** [list(results_dir.glob(f"{prefix}-*{suffix}"))]. *)
Definition glob (results_dir : directory) (prefix suffix : string)
  : list dir_entry :=
  List.filter (fun e => glob_match prefix suffix (entry_name e)) results_dir.

(** [path.exists()]. *)
Definition path_exists (results_dir : directory) (name : string) : bool :=
  existsb (fun e => String.eqb (entry_name e) name) results_dir.

(** [files.sort(key=lambda f: f.stat().st_mtime, reverse=True)]: the newest
    first; the sort is stable, so that files of the same time keep their
    order. *)
Fixpoint insert_by_mtime (e : dir_entry) (files : list dir_entry)
  : list dir_entry :=
  match files with
  | [] => [e]
  | x :: rest =>
      if st_mtime e <? st_mtime x then x :: insert_by_mtime e rest
      else e :: files
  end.

Definition sort_newest_first (files : list dir_entry) : list dir_entry :=
  foldr insert_by_mtime [] files.

Definition find_latest_results (results_dir : directory) (prefix : string)
  : option string :=
  let files := glob results_dir prefix ".json" in
  let files :=
    match files with
    | [] => glob results_dir prefix ".txt"
    | _ => files
    end in
  match files with
  | [] => None
  | _ => entry_name <$> head (sort_newest_first files)
  end.

Definition find_baseline_results (results_dir : directory) (prefix : string)
  : option string :=
  if path_exists results_dir (prefix +:+ "-baseline.json")
  then Some (prefix +:+ "-baseline.json")
  else if path_exists results_dir (prefix +:+ "-baseline.txt")
  then Some (prefix +:+ "-baseline.txt")
  else
    let files := glob results_dir prefix ".json" in
    let files :=
      match files with
      | [] => glob results_dir prefix ".txt"
      | _ => files
      end in
    if (length files <? 2)%nat then None
    else entry_name <$> sort_newest_first files !! 1%nat.

(** ** Metadata *)

(** [read] gives what [open] and [json.load] give for a path of the
    directory; [identifier] is [None] or a string, and counts as true when
    it is a string that is not empty. *)
Definition load_metadata (results_dir : directory) (read : string -> json_file)
    (identifier : option string) : result pyval :=
  let newest :=
    entry_name
      <$> head (sort_newest_first (glob results_dir "metadata" ".json")) in
  let metadata_path :=
    match identifier with
    | Some id =>
        if truthy identifier then Some ("metadata-" +:+ id +:+ ".json")
        else newest
    | None => newest
    end in
  match metadata_path with
  | None => Ok (PDict [])
  | Some path =>
      if path_exists results_dir path then
        match load (read path) with
        | Ok data => Ok data
        | Raise JSONDecodeError => Ok (PDict [])
        | Raise e => Raise e
        end
      else Ok (PDict [])
  end.

(** ** Markdown report *)

(** The truth value of a value decoded from JSON. *)
Definition py_truthy (v : pyval) : bool :=
  match v with
  | PNone => false
  | PBool b => b
  | PInt n => negb (n =? 0)
  | PFloat x => negb (Float.eqb x Float.zero)
  | PStr s => negb (String.eqb s "")
  | PList l => match l with [] => false | _ :: _ => true end
  | PDict kvs => match kvs with [] => false | _ :: _ => true end
  end.

(** [str(n)] for an integer. *)
Definition str_of_int (n : Z) : string :=
  string_of_list_ascii
    ((if n <? 0 then ["-"%char] else []) ++ digits_of (Z.abs n)).

(** The format [+.df] of a float: a plus sign in front of what has no
    minus sign. *)
Definition format_fixed_signed (d : nat) (x : float) : string :=
  match x with
  | S754_zero true | S754_infinity true | S754_finite true _ _ =>
      format_fixed d x
  | _ => "+" +:+ format_fixed d x
  end.

Definition newline : string := String "010" "".

Section Markdown.

(** The built-in [str] on the values decoded from JSON that are not
    strings. *)
Variable py_str : pyval -> string.

(** A value in an f-string. *)
Definition format_str (v : pyval) : string :=
  match v with
  | PStr s => s
  | _ => py_str v
  end.

(** [format_value] for the unit that a record holds: a unit that is not a
    string equals none of the three that the function knows. *)
Definition format_value_of (value : float) (unit : pyval) : string :=
  match unit with
  | PStr u => format_value value u
  | _ => format_fixed 2 value +:+ py_str unit
  end.

(** [metadata.get(key, 'unknown')], formatted. *)
Definition current_field (metadata : pyval) (key : string) : result string :=
  v ← py_get metadata key (PStr "unknown"); Ok (format_str v).

(** [baseline_metadata.get(key, 'unknown') if baseline_metadata else 'N/A'],
    formatted; [None] is [PNone]. *)
Definition baseline_field (baseline_metadata : pyval) (key : string)
  : result string :=
  if py_truthy baseline_metadata then
    v ← py_get baseline_metadata key (PStr "unknown"); Ok (format_str v)
  else Ok "N/A".

Definition change_str (c : ComparisonResult.t) : string :=
  if ComparisonResult.is_regression c then
    "+" +:+ format_fixed 2 (ComparisonResult.change_percent c) +:+ "%"
  else if ComparisonResult.is_improvement c then
    format_fixed 2 (ComparisonResult.change_percent c) +:+ "%"
  else format_fixed_signed 2 (ComparisonResult.change_percent c) +:+ "%".

(** The row of a record in the table of its source. *)
Definition table_row (c : ComparisonResult.t) : string :=
  let base_str :=
    format_value_of (ComparisonResult.baseline_value c)
      (ComparisonResult.unit c) in
  let curr_str :=
    format_value_of (ComparisonResult.latest_value c)
      (ComparisonResult.unit c) in
  "| " +:+ ComparisonResult.name c +:+ " | " +:+ base_str +:+ " | "
  +:+ curr_str +:+ " | " +:+ change_str c +:+ " (" +:+ status c +:+ ") |".

(** The lines of a record in the section of the regressions. *)
Definition regression_details (c : ComparisonResult.t) : list string :=
  ["### " +:+ ComparisonResult.name c;
   "";
   "- Baseline: "
   +:+ format_value_of (ComparisonResult.baseline_value c)
        (ComparisonResult.unit c);
   "- Current: "
   +:+ format_value_of (ComparisonResult.latest_value c)
        (ComparisonResult.unit c);
   "- Regression: +"
   +:+ format_fixed 2 (ComparisonResult.change_percent c) +:+ "%";
   ""].

(** The line of a record in the section of the improvements. *)
Definition improvement_line (c : ComparisonResult.t) : string :=
  "- **" +:+ ComparisonResult.name c +:+ "**: "
  +:+ format_value_of (ComparisonResult.baseline_value c)
       (ComparisonResult.unit c)
  +:+ " -> "
  +:+ format_value_of (ComparisonResult.latest_value c)
       (ComparisonResult.unit c)
  +:+ " (" +:+ format_fixed 2 (ComparisonResult.change_percent c) +:+ "%)".

(** The list [lines] of [generate_markdown_report] before it is joined;
    [now] is the time that the clock gives, formatted. *)
Definition markdown_lines (now : string)
    (rust_comparisons swift_comparisons : list ComparisonResult.t)
    (metadata baseline_metadata : pyval) : result (list string) :=
  commit ← current_field metadata "commit_hash";
  baseline_commit ← baseline_field baseline_metadata "commit_hash";
  branch ← current_field metadata "branch";
  baseline_branch ← baseline_field baseline_metadata "branch";
  date ← current_field metadata "commit_date";
  baseline_date ← baseline_field baseline_metadata "commit_date";
  let total_tests :=
    Z.of_nat (length rust_comparisons) + Z.of_nat (length swift_comparisons) in
  let regressions :=
    sum_ones ComparisonResult.is_regression
      (rust_comparisons ++ swift_comparisons) in
  let improvements :=
    sum_ones ComparisonResult.is_improvement
      (rust_comparisons ++ swift_comparisons) in
  let unchanged := total_tests - regressions - improvements in
  let regression_list :=
    List.filter ComparisonResult.is_regression
      (rust_comparisons ++ swift_comparisons) in
  let improvement_list :=
    List.filter ComparisonResult.is_improvement
      (rust_comparisons ++ swift_comparisons) in
  Ok (["# Performance Comparison Report";
       "";
       "Generated: " +:+ now;
       "";
       "## Environment";
       "";
       "| Property | Current | Baseline |";
       "|----------|---------|----------|";
       "| Commit | `" +:+ commit +:+ "` | `" +:+ baseline_commit +:+ "` |";
       "| Branch | `" +:+ branch +:+ "` | `" +:+ baseline_branch +:+ "` |";
       "| Date | " +:+ date +:+ " | " +:+ baseline_date +:+ " |";
       "";
       "## Summary";
       ""]
      ++ (if 0 <? regressions
          then ["**" +:+ str_of_int regressions +:+ " regression(s) detected**";
                ""]
          else [])
      ++ ["- Total benchmarks: " +:+ str_of_int total_tests;
          "- Improvements: " +:+ str_of_int improvements;
          "- Regressions: " +:+ str_of_int regressions;
          "- Unchanged: " +:+ str_of_int unchanged;
          ""]
      ++ match rust_comparisons with
         | [] => []
         | _ :: _ =>
             ["## Rust Benchmarks";
              "";
              "| Benchmark | Baseline | Current | Change |";
              "|-----------|----------|---------|--------|"]
             ++ map table_row rust_comparisons ++ [""]
         end
      ++ match swift_comparisons with
         | [] => []
         | _ :: _ =>
             ["## Swift Performance Tests";
              "";
              "| Test | Baseline | Current | Change |";
              "|------|----------|---------|--------|"]
             ++ map table_row swift_comparisons ++ [""]
         end
      ++ match regression_list with
         | [] => []
         | _ :: _ =>
             ["## Regressions Requiring Investigation"; ""]
             ++ flat_map regression_details regression_list
         end
      ++ match improvement_list with
         | [] => []
         | _ :: _ =>
             ["## Notable Improvements"; ""]
             ++ map improvement_line improvement_list ++ [""]
         end).

Definition generate_markdown_report (now : string)
    (rust_comparisons swift_comparisons : list ComparisonResult.t)
    (metadata baseline_metadata : pyval) : result string :=
  lines ←
    markdown_lines now rust_comparisons swift_comparisons metadata
      baseline_metadata;
  Ok (String.concat newline lines).

End Markdown.
(** * Auxiliary definitions for the statements *)

(** ** Comparator *)

(** The percentage that [compare_one] stores, written without the guard on
    the division. *)
Definition change_of (base curr : BenchmarkResult.t) : float :=
  if Float.eqb (BenchmarkResult.value base) Float.zero then Float.zero
  else
    Float.mul
      (Float.div
         (Float.sub (BenchmarkResult.value curr) (BenchmarkResult.value base))
         (BenchmarkResult.value base))
      hundred.

Definition record_of (threshold : float) (name : string)
    (base curr : BenchmarkResult.t) : ComparisonResult.t :=
  ComparisonResult.mk name (BenchmarkResult.value base)
    (BenchmarkResult.value curr) (BenchmarkResult.unit base)
    (change_of base curr)
    (Float.gtb (change_of base curr) threshold)
    (Float.ltb (change_of base curr) (Float.neg threshold)).

(** The record of a name, when both mappings have it. *)
Definition shared (baseline latest : results) (threshold : float)
    (name : string) : option ComparisonResult.t :=
  match baseline !! name, latest !! name with
  | Some base, Some curr => Some (record_of threshold name base curr)
  | _, _ => None
  end.

Definition str_lt (s1 s2 : string) : Prop := String.ltb s1 s2 = true.

(** A mapping with one measurement, in the unit "ns". *)
Definition single (name : string) (v : Z) : results :=
  {[ name := BenchmarkResult.mk name (Float.of_Z v) (PStr "ns") PNone ]}.

(** ** Structured report *)

(** The flattened records of a report, both sources. *)
Definition report_entries (report : pyval) : list pyval :=
  match report with
  | PDict kvs =>
      match dict_get kvs "rust" PNone, dict_get kvs "swift" PNone with
      | PList r, PList s => r ++ s
      | _, _ => []
      end
  | _ => []
  end.

Definition entry_status (entry : pyval) : pyval :=
  match entry with
  | PDict kvs => dict_get kvs "status" PNone
  | _ => PNone
  end.

Global Instance pystr_eq_dec (v : pyval) (s : string) : Decision (v = PStr s).
Proof.
  destruct v as [| | | |s'| |]; try (right; discriminate).
  destruct (decide (s' = s)) as [->|Hne]; [left; reflexivity|].
  right. intros [= ?]. contradiction.
Defined.

(** ** Parsers *)

(** [d.get(key)] as an option: [None] when the key is absent. *)
Fixpoint dict_lookup (kvs : list (string * pyval)) (key : string)
  : option pyval :=
  match kvs with
  | [] => None
  | (k, v) :: rest => if String.eqb k key then Some v else dict_lookup rest key
  end.

(** The field that the Rust parser converts: "mean_ns" if the entry has it,
    otherwise "value" if the entry has it, otherwise the integer 0. *)
Definition selected_value (kvs : list (string * pyval)) : pyval :=
  match dict_lookup kvs "mean_ns" with
  | Some v => v
  | None =>
      match dict_lookup kvs "value" with
      | Some v => v
      | None => PInt 0
      end
  end.


(** The document of the specification:
    [{"benchmarks": {"x": {"mean_ns": 250, "unit": "ns"}}}]. *)
Definition example_document : list (string * pyval) :=
  [("benchmarks",
    PDict [("x", PDict [("mean_ns", PInt 250); ("unit", PStr "ns")])])].

(** The exceptions that the handlers of the parsers name. *)
Definition handled (e : exn) : bool :=
  match e with
  | FileNotFoundError | JSONDecodeError => true
  | _ => false
  end.

(** The name and the number that the two patterns find in a line. *)
Definition name_of (line : list ascii) : option string :=
  string_of_list_ascii <$> search_test line.

Definition number_of (line : list ascii) : option string :=
  string_of_list_ascii <$> search_measure line.

(** The name of the last of the lines that has one. *)
Definition last_name (lines : list (list ascii)) : option string :=
  last (omap name_of lines).

(** The measurement of the Swift parser for a number of seconds. *)
Definition ms_measurement (name : string) (seconds : float)
  : BenchmarkResult.t :=
  BenchmarkResult.mk name (Float.mul seconds (Float.of_Z 1000)) (PStr "ms")
    PNone.

(** The text whose lines are [lines]: the lines, with a newline between
    two of them. *)
Fixpoint join_lines (lines : list (list ascii)) : list ascii :=
  match lines with
  | [] => []
  | line :: rest =>
      match rest with
      | [] => line
      | _ :: _ => line ++ "010"%char :: join_lines rest
      end
  end.

Definition text_of (lines : list (list ascii)) : string :=
  string_of_list_ascii (join_lines lines).

(** A line: characters other than the newline. *)
Definition one_line (line : list ascii) : Prop :=
  Forall (fun c => c ≠ "010"%char) line.

(** The name that is current when the line [i] has been searched for a
    name: the name of the last of the lines 0 to [i] that has one. *)
Definition current_at (lines : list (list ascii)) (i : nat) : option string :=
  last_name (take (S i) lines).

(** The line [i] has the number [g], and the name [t] is current. *)
Definition measures (lines : list (list ascii)) (i : nat) (t g : string)
  : Prop :=
  (exists line, lines !! i = Some line ∧ number_of line = Some g)
  ∧ current_at lines i = Some t.

(** The measurement [r] is that of the last line that measures for the
    name [t]. *)
Definition last_measure (lines : list (list ascii)) (t : string)
    (r : BenchmarkResult.t) : Prop :=
  exists i g seconds,
    measures lines i t g
    ∧ (forall j g', measures lines j t g' -> (j <= i)%nat)
    ∧ float_of_str g = Some seconds
    ∧ r = ms_measurement t seconds.

(** The text of the specification and the same text with a full stop. *)
Definition example_text : list (list ascii) :=
  [list_ascii_of_string "'foo_test'";
   list_ascii_of_string "measured [Time, seconds] average: 0.0025"].

Definition text_with_full_stop : list (list ascii) :=
  [list_ascii_of_string "'foo_test'";
   list_ascii_of_string "measured [Time, seconds] average: 0.0025."].

(** A text of four lines: a name, a line with neither pattern, and two
    measurements. *)
Definition text_of_four_lines : list (list ascii) :=
  [list_ascii_of_string "'a'";
   list_ascii_of_string "Test Case started.";
   list_ascii_of_string "measured [Time, seconds] average: 1";
   list_ascii_of_string "measured [Time, seconds] average: 2"].

(** 2.5, as a float. *)
Definition two_and_a_half : float := S754_finite false 5629499534213120 (-51).

(** ** Exit status *)

(** A Swift text report with one measurement. *)
Definition one_swift_result : swift_files :=
  {| json_sibling := None;
     text := Some (Text "'t' measured average: 1") |}.

(** A Swift text report whose number [float] rejects. *)
Definition bad_swift_result : swift_files :=
  {| json_sibling := None;
     text := Some (Text "'t' measured average: .") |}.

(** A run with a measurement in each latest file and a Swift baseline
    that cannot be converted. *)
Definition world_with_bad_baseline : world :=
  {| dir_exists := true; verbose := false; threshold := Float.of_Z 5;
     rust_latest_file :=
       Some (Json (PDict [("benchmarks",
                           PDict [("x", PDict [("mean_ns", PInt 100)])])]));
     rust_baseline_file := None;
     swift_latest_files := Some one_swift_result;
     swift_baseline_files := Some bad_swift_result;
     report_failure := None |}.

(** A run with one Rust benchmark, measured [base] before and [curr] now. *)
Definition world_with_one_benchmark (base curr : Z) : world :=
  {| dir_exists := true; verbose := false; threshold := Float.of_Z 5;
     rust_latest_file :=
       Some (Json (PDict [("benchmarks",
                           PDict [("x", PDict [("mean_ns", PInt curr)])])]));
     rust_baseline_file :=
       Some (Json (PDict [("benchmarks",
                           PDict [("x", PDict [("mean_ns", PInt base)])])]));
     swift_latest_files := None;
     swift_baseline_files := None;
     report_failure := None |}.

(** A parser call gives a mapping that is not empty. *)
Definition yields_records (r : io results) : Prop :=
  exists m out, r = (Ok m, out) /\ m ≠ ∅.

(** The three causes of a status other than 0 that the specification
    names: the directory is missing, neither latest source gives a
    measurement, a regression is reported after the report is written. *)
Definition stated_exit_causes (w : world) : Prop :=
  dir_exists w = false
  \/ (¬ yields_records (parse_rust_at (rust_latest_file w))
      /\ ¬ yields_records (parse_swift_at (swift_latest_files w)))
  \/ (ReportGenerated ∈ snd (main w)
      /\ exists n, WarnRegressions n ∈ snd (main w)).

(** ** Value formatter *)

(** The number and the unit that [format_value] prints, apart. *)
Definition rendered (value : float) (unit : string) : string * string :=
  if String.eqb unit "ns" then
    if Float.geb value (Float.of_Z 1000000000) then
      (format_fixed 2 (Float.div value (Float.of_Z 1000000000)), "s")
    else if Float.geb value (Float.of_Z 1000000) then
      (format_fixed 2 (Float.div value (Float.of_Z 1000000)), "ms")
    else if Float.geb value (Float.of_Z 1000) then
      (format_fixed 2 (Float.div value (Float.of_Z 1000)), "us")
    else (format_fixed 0 value, "ns")
  else if String.eqb unit "ms" then
    if Float.geb value (Float.of_Z 1000) then
      (format_fixed 2 (Float.div value (Float.of_Z 1000)), "s")
    else (format_fixed 2 value, "ms")
  else if String.eqb unit "s" then (format_fixed 3 value, "s")
  else (format_fixed 2 value, unit).

(** Formatting the number of the output again, at the unit of the output. *)
Definition reformat (value : float) (unit : string) : option string :=
  w ← float_of_str (fst (rendered value unit));
  Some (format_value w (snd (rendered value unit))).

(** [format_value] prints the value in seconds though the unit is not "s". *)
Definition rescaled_to_seconds (value : float) (unit : string) : bool :=
  (String.eqb unit "ns" && Float.geb value (Float.of_Z 1000000000))
  || (String.eqb unit "ms" && Float.geb value (Float.of_Z 1000)).

(** [format_value] prints the value in the unit that it is given in. *)
Definition unscaled (value : float) (unit : string) : bool :=
  if String.eqb unit "ns" then
    negb (Float.geb value (Float.of_Z 1000000000))
    && negb (Float.geb value (Float.of_Z 1000000))
    && negb (Float.geb value (Float.of_Z 1000))
  else if String.eqb unit "ms" then negb (Float.geb value (Float.of_Z 1000))
  else true.

(** The number of decimals that [format_value] prints at a unit when it
    does not rescale. *)
Definition decimals (unit : string) : nat :=
  if String.eqb unit "ns" then 0%nat
  else if String.eqb unit "ms" then 2%nat
  else if String.eqb unit "s" then 3%nat
  else 2%nat.

(** 999.6, as a float. *)
Definition nearly_thousand : float :=
  S754_finite false 8792574584999117 (-43).

(** Values are counted in units of the least positive float,
    [2 ^ lowest]. *)
Definition lowest : Z := -1074.
Definition grid : Z := 2 ^ 1074.

(** The floats with at most 53 bits and an exponent in range. *)
Definition bounded53 (x : float) : Prop :=
  match x with
  | S754_finite _ m e => Zpos m < 2 ^ 53 /\ lowest <= e <= 971
  | _ => True
  end.

(** The digits that [format_fixed d] prints for [m * 2 ^ e], as a number. *)
Definition fixed_count (d : nat) (m : positive) (e : Z) : Z :=
  rne (fst (scale2 (Zpos m * 10 ^ Z.of_nat d) 1 (- e)))
      (snd (scale2 (Zpos m * 10 ^ Z.of_nat d) 1 (- e))).

(** The characters of a printed number: digits, the point and the minus
    sign. *)
Definition plain (c : ascii) : bool :=
  is_digit c || Ascii.eqb c "." || Ascii.eqb c "-".
(** * Auxiliary definitions for the further properties *)

(** ** Parsers *)

(** A JSON file of Swift results:
    [{"tests": {"t": {"average_seconds": 2.5}}}]. *)
Definition swift_document : list (string * pyval) :=
  [("tests", PDict [("t", PDict [("average_seconds", PFloat two_and_a_half)])])].

(** ** The two patterns of the text scan *)

(** [g] is a match of the group of ['([^']+)'] in [line], the match
    starting after [pre]. *)
Definition quoted_at (line pre g : list ascii) : Prop :=
  g ≠ [] ∧ Forall (fun c => is_quote c = false) g
  ∧ exists post, line = pre ++ "'"%char :: g ++ "'"%char :: post.

(** Nothing, or a character that the class of [p] does not have. *)
Definition stops (p : ascii -> bool) (l : list ascii) : Prop :=
  match l with
  | [] => True
  | c :: _ => p c = false
  end.

(** [l] begins with a match of [\s+([0-9.]+)] with the group [g], each
    repetition taking all that it can. *)
Definition number_at (l g : list ascii) : Prop :=
  exists ws post,
    l = ws ++ g ++ post
    ∧ ws ≠ [] ∧ Forall (fun c => re_space c = true) ws
    ∧ g ≠ [] ∧ Forall (fun c => re_number_char c = true) g
    ∧ stops re_number_char post.

(** [l] begins with a match of [average:\s+([0-9.]+)]. *)
Definition average_at (l g : list ascii) : Prop :=
  exists rest, l = list_ascii_of_string "average:" ++ rest ∧ number_at rest g.

(** [l] begins with a match of [.*average:\s+([0-9.]+)] in which the star
    takes [mid]. *)
Definition rest_at (l mid g : list ascii) : Prop :=
  Forall (fun c => is_newline c = false) mid
  ∧ exists tail, l = mid ++ tail ∧ average_at tail g.

(** [g] is a match of the group of [measured.*average:\s+([0-9.]+)] in
    [line], the match starting after [pre] and the star taking [mid]. *)
Definition measured_at (line pre mid g : list ascii) : Prop :=
  exists tail,
    line = pre ++ list_ascii_of_string "measured" ++ tail ∧ rest_at tail mid g.

(** The number of points of a text, and whether it has a digit. *)
Definition is_point (c : ascii) : bool := Ascii.eqb c ".".

Definition points (g : list ascii) : nat := length (List.filter is_point g).

Definition has_digit (g : list ascii) : bool := existsb is_digit g.

(** ** Comparator *)

(** A change of zero, of either sign, or no number at all. *)
Definition zero_or_nan (x : float) : Prop :=
  match x with
  | S754_zero _ | S754_nan => True
  | _ => False
  end.

(** ** Structured report *)

(** A record with both flags set. *)
Definition both_flags (c : ComparisonResult.t) : bool :=
  ComparisonResult.is_regression c && ComparisonResult.is_improvement c.

(** A record whose status reads "improvement": the flag is set and the
    record is not a regression. *)
Definition improvement_only (c : ComparisonResult.t) : bool :=
  ComparisonResult.is_improvement c && negb (ComparisonResult.is_regression c).

(** ** Exit status *)

Definition is_exit (e : exn) : bool :=
  match e with
  | SystemExit _ => true
  | _ => false
  end.

(** A first run: one Rust benchmark and no baseline. *)
Definition world_without_baseline : world :=
  {| dir_exists := true; verbose := false; threshold := Float.of_Z 5;
     rust_latest_file :=
       Some (Json (PDict [("benchmarks",
                           PDict [("x", PDict [("mean_ns", PInt 100)])])]));
     rust_baseline_file := None;
     swift_latest_files := None;
     swift_baseline_files := None;
     report_failure := None |}.

(** What [main] does after the four parser calls, for the mappings that
    they return. *)
Definition after_parsing (w : world)
    (rust_latest rust_baseline swift_latest swift_baseline : results)
  : io Datatypes.unit :=
  if is_empty rust_latest && is_empty swift_latest then
    _ ← print ErrorNoResults; throw (SystemExit 1)
  else
    rust_comparisons ←
      lift (compare_results rust_baseline rust_latest (threshold w));
    swift_comparisons ←
      lift (compare_results swift_baseline swift_latest (threshold w));
    _ ← match report_failure w with
        | Some e => throw e
        | None => print ReportGenerated
        end;
    let total_regressions :=
      sum_ones ComparisonResult.is_regression
        (rust_comparisons ++ swift_comparisons) in
    if 0 <? total_regressions then
      _ ← print (WarnRegressions total_regressions); throw (SystemExit 1)
    else mret tt.

(** ** Search for the result files *)

(** [name] is [prefix], a hyphen, any text, and [suffix]. *)
Definition named (prefix suffix name : string) : Prop :=
  exists mid : string, name = prefix +:+ "-" +:+ mid +:+ suffix.

(** The files among which the two searches choose: those with the suffix
    ".json" when there is one, otherwise those with the suffix ".txt". *)
Definition candidates (results_dir : directory) (prefix : string)
  : list dir_entry :=
  match glob results_dir prefix ".json" with
  | [] => glob results_dir prefix ".txt"
  | _ :: _ => glob results_dir prefix ".json"
  end.

(** A directory in which the baseline is the newest file. *)
Definition directory_with_new_baseline : directory :=
  [ {| entry_name := "rust-20250101-abc.json"; st_mtime := 1 |};
    {| entry_name := "rust-baseline.json"; st_mtime := 2 |} ].

(** A directory with three runs and no baseline. *)
Definition directory_of_runs : directory :=
  [ {| entry_name := "rust-1.json"; st_mtime := 10 |};
    {| entry_name := "rust-3.json"; st_mtime := 30 |};
    {| entry_name := "rust-2.json"; st_mtime := 20 |} ].

(** ** Markdown report *)

Definition is_dict (v : pyval) : bool :=
  match v with
  | PDict _ => true
  | _ => false
  end.

(** The sign of a float; a value that is not a number has none. *)
Definition sign_bit (x : float) : bool :=
  match x with
  | S754_zero s | S754_infinity s | S754_finite s _ _ => s
  | S754_nan => false
  end.

(** A record with neither flag set. *)
Definition no_flag (c : ComparisonResult.t) : bool :=
  negb (ComparisonResult.is_regression c)
  && negb (ComparisonResult.is_improvement c).

(** [str] for the examples: the values that are not strings print as
    nothing. *)
Definition no_str (v : pyval) : string := "".

(** A record with both flags set, as the threshold -5.0 gives for no
    change. *)
Definition flagged_twice : ComparisonResult.t :=
  ComparisonResult.mk "x" (Float.of_Z 100) (Float.of_Z 100) (PStr "ns")
    Float.zero true true.

(** The parts of the list [lines], in the order in which the report has
    them. *)
Definition environment_lines (now commit baseline_commit branch
    baseline_branch date baseline_date : string) : list string :=
  ["# Performance Comparison Report";
   "";
   "Generated: " +:+ now;
   "";
   "## Environment";
   "";
   "| Property | Current | Baseline |";
   "|----------|---------|----------|";
   "| Commit | `" +:+ commit +:+ "` | `" +:+ baseline_commit +:+ "` |";
   "| Branch | `" +:+ branch +:+ "` | `" +:+ baseline_branch +:+ "` |";
   "| Date | " +:+ date +:+ " | " +:+ baseline_date +:+ " |";
   "";
   "## Summary";
   ""].

Definition banner_lines (records : list ComparisonResult.t) : list string :=
  if 0 <? sum_ones ComparisonResult.is_regression records
  then ["**" +:+ str_of_int (sum_ones ComparisonResult.is_regression records)
        +:+ " regression(s) detected**";
        ""]
  else [].

Definition count_lines (rust_comparisons swift_comparisons
    : list ComparisonResult.t) : list string :=
  let records := rust_comparisons ++ swift_comparisons in
  let total_tests :=
    Z.of_nat (length rust_comparisons) + Z.of_nat (length swift_comparisons) in
  ["- Total benchmarks: " +:+ str_of_int total_tests;
   "- Improvements: "
   +:+ str_of_int (sum_ones ComparisonResult.is_improvement records);
   "- Regressions: "
   +:+ str_of_int (sum_ones ComparisonResult.is_regression records);
   "- Unchanged: "
   +:+ str_of_int
         (total_tests - sum_ones ComparisonResult.is_regression records
          - sum_ones ComparisonResult.is_improvement records);
   ""].

Definition table_section (py_str : pyval -> string) (title header rule : string)
    (comparisons : list ComparisonResult.t) : list string :=
  match comparisons with
  | [] => []
  | _ :: _ =>
      [title; ""; header; rule] ++ map (table_row py_str) comparisons ++ [""]
  end.

Definition regression_section (py_str : pyval -> string)
    (records : list ComparisonResult.t) : list string :=
  match List.filter ComparisonResult.is_regression records with
  | [] => []
  | _ :: _ =>
      ["## Regressions Requiring Investigation"; ""]
      ++ flat_map (regression_details py_str)
           (List.filter ComparisonResult.is_regression records)
  end.

Definition improvement_section (py_str : pyval -> string)
    (records : list ComparisonResult.t) : list string :=
  match List.filter ComparisonResult.is_improvement records with
  | [] => []
  | _ :: _ =>
      ["## Notable Improvements"; ""]
      ++ map (improvement_line py_str)
           (List.filter ComparisonResult.is_improvement records)
      ++ [""]
  end.

(** The lines of a text: what is between two newlines, as
    [split("\n")] gives them. *)
Fixpoint lines_of (s : string) : list string :=
  match s with
  | EmptyString => [EmptyString]
  | String c rest =>
      if Ascii.eqb c "010" then EmptyString :: lines_of rest
      else
        match lines_of rest with
        | cur :: others => String c cur :: others
        | [] => [String c EmptyString]
        end
  end.

(** A text without a newline. *)
Fixpoint single_line (s : string) : bool :=
  match s with
  | EmptyString => true
  | String c rest => negb (Ascii.eqb c "010") && single_line rest
  end.

(** A record whose name and unit print without a newline. *)
Definition single_line_record (py_str : pyval -> string)
    (c : ComparisonResult.t) : bool :=
  single_line (ComparisonResult.name c)
  && single_line (format_str py_str (ComparisonResult.unit c)).

(** Metadata whose fields print without a newline. *)
Definition single_line_fields (py_str : pyval -> string) (metadata : pyval)
  : bool :=
  match metadata with
  | PDict kvs => forallb (fun kv => single_line (format_str py_str (snd kv))) kvs
  | _ => true
  end.

(** A regression whose name has a newline and, after it, the mark of a
    heading. *)
Definition named_on_two_lines : ComparisonResult.t :=
  ComparisonResult.mk ("a" +:+ newline +:+ "## b") (Float.of_Z 100)
    (Float.of_Z 100) (PStr "ns") Float.zero true false.

(** ** Metadata *)

(** A directory with the metadata of two runs, and what reading them
    gives: the newer one holds a list. *)
Definition directory_of_metadata : directory :=
  [ {| entry_name := "metadata-1.json"; st_mtime := 1 |};
    {| entry_name := "metadata-2.json"; st_mtime := 2 |} ].

Definition read_metadata (path : string) : json_file :=
  if String.eqb path "metadata-2.json" then Json (PList [])
  else Json (PDict [("commit_hash", PStr "abc")]).

(** What [load_metadata] makes of the file that it opens, case by case:
    the handler names [JSONDecodeError] and nothing else. *)
Definition metadata_of (f : json_file) : result pyval :=
  match f with
  | Json data => Ok data
  | NotJson => Ok (PDict [])
  | NoSuchFile => Raise FileNotFoundError
  | Unreadable NoAccess => Raise OSError
  | Unreadable NotText => Raise UnicodeDecodeError
  | Undecoded TooDeep => Raise RecursionError
  | Undecoded TooLong => Raise ValueError
  end.

(** The metadata of one run, in bytes that are not text. *)
Definition read_binary (path : string) : json_file := Unreadable NotText.

(** * Properties of the comparator *)

Section Comparator.

Variables (baseline latest : results) (threshold : float).

Lemma compare_one_ok name base curr :
  compare_one name base curr threshold
  = Ok (record_of threshold name base curr).
Proof.
  unfold compare_one, record_of, change_of, truediv.
  destruct (Float.eqb (BenchmarkResult.value base) Float.zero); reflexivity.
Qed.

Lemma compare_loop_ok names acc :
  compare_loop names baseline latest threshold acc
  = Ok (acc ++ omap (shared baseline latest threshold) names).
Proof.
  revert acc. induction names as [|n names IH]; intros acc; simpl.
  - by rewrite app_nil_r.
  - unfold shared at 1.
    destruct (baseline !! n) as [base|]; [|apply IH].
    destruct (latest !! n) as [curr|]; [|apply IH].
    rewrite compare_one_ok. simpl. rewrite IH.
    by rewrite <- app_assoc.
Qed.

Lemma compare_results_ok :
  compare_results baseline latest threshold
  = Ok (omap (shared baseline latest threshold)
          (sorted (dom baseline ∪ dom latest))).
Proof. unfold compare_results. by rewrite compare_loop_ok. Qed.

Lemma shared_name n c :
  shared baseline latest threshold n = Some c -> ComparisonResult.name c = n.
Proof.
  unfold shared. destruct (baseline !! n), (latest !! n); intros [= <-]; done.
Qed.

Lemma elem_of_records c :
  c ∈ omap (shared baseline latest threshold)
        (sorted (dom baseline ∪ dom latest))
  <-> exists n base curr,
      baseline !! n = Some base ∧ latest !! n = Some curr
      ∧ c = record_of threshold n base curr.
Proof.
  rewrite list_elem_of_omap. split.
  - intros (n & _ & Hn). unfold shared in Hn.
    destruct (baseline !! n) as [base|] eqn:Hb; [|done].
    destruct (latest !! n) as [curr|] eqn:Hl; [|done].
    injection Hn as <-. eauto 6.
  - intros (n & base & curr & Hb & Hl & ->). exists n. split.
    + unfold sorted. rewrite merge_sort_Permutation.
      apply elem_of_elements, elem_of_union_l, elem_of_dom. eauto.
    + unfold shared. by rewrite Hb, Hl.
Qed.

End Comparator.

(** Strings in non-strict order without repetition are in strict order. *)
Lemma str_le_ne_lt s1 s2 : String.le s1 s2 -> s1 ≠ s2 -> str_lt s1 s2.
Proof.
  unfold String.le, str_lt, String.leb, String.ltb. intros Hle Hne.
  destruct (String.compare s1 s2) eqn:Hc; try done.
  by apply String.compare_eq_iff in Hc.
Qed.

Lemma StronglySorted_strict {A} (R S : relation A) (l : list A) :
  (forall x y, R x y -> x ≠ y -> S x y) ->
  StronglySorted R l -> NoDup l -> StronglySorted S l.
Proof.
  intros HRS Hs. induction Hs as [|x l Hs IH Hall]; intros Hnd.
  - constructor.
  - apply NoDup_cons in Hnd as [Hx Hnd]. constructor; [by apply IH|].
    rewrite Forall_forall in Hall |- *. intros y Hy. apply HRS.
    + by apply Hall.
    + intros ->. by apply Hx.
Qed.

Lemma sorted_strict (names : gset string) :
  StronglySorted str_lt (sorted names).
Proof.
  apply StronglySorted_strict with (R := String.le).
  - apply str_le_ne_lt.
  - apply StronglySorted_merge_sort; apply _.
  - unfold sorted. rewrite merge_sort_Permutation. apply NoDup_elements.
Qed.

(** Dropping elements and renaming along a map that gives each kept element
    its own image keeps a list strongly sorted. *)
Lemma StronglySorted_omap_name {A B} (R : relation A) (f : A -> option B)
    (g : B -> A) (l : list A) :
  (forall a b, f a = Some b -> g b = a) ->
  StronglySorted R l -> StronglySorted R (g <$> omap f l).
Proof.
  intros Hfg Hs. induction Hs as [|x l Hs IH Hall]; simpl; [constructor|].
  destruct (f x) as [b|] eqn:Hb; [|done].
  rewrite fmap_cons. constructor; [done|].
  rewrite (Hfg _ _ Hb). rewrite Forall_forall in Hall |- *.
  intros y Hy. apply list_elem_of_fmap in Hy as (b' & -> & Hb').
  apply list_elem_of_omap in Hb' as (a & Ha & Hfa).
  rewrite (Hfg _ _ Hfa). by apply Hall.
Qed.

Lemma str_lt_irrefl s : ¬ str_lt s s.
Proof.
  unfold str_lt, String.ltb. intros H.
  destruct (String.compare s s) eqn:Hc; try done.
  pose proof (String.compare_antisym s s) as Ha. rewrite Hc in Ha. done.
Qed.

Lemma StronglySorted_irrefl_NoDup {A} (R : relation A) (l : list A) :
  (forall x, ¬ R x x) -> StronglySorted R l -> NoDup l.
Proof.
  intros Hirr Hs. induction Hs as [|x l Hs IH Hall]; constructor; [|done].
  intros Hx. rewrite Forall_forall in Hall. by apply (Hirr x), Hall.
Qed.

(** ** Comparisons of a percentage with a threshold and its opposite *)

Section Thresholds.

Variables (x t : float).
Hypothesis Ht : Float.geb t Float.zero = true.

Local Ltac by_signs :=
  revert Ht; unfold Float.geb, Float.gtb, Float.ltb, Float.leb, Float.eqb,
    Float.neg, Float.zero, SFleb, SFltb, SFeqb;
  destruct t as [[]|[]| |[] ? ?], x as [[]|[]| |[] ? ?]; simpl;
  try discriminate; try tauto; try congruence.

(** Above a non-negative threshold excludes below its opposite. *)
Lemma above_not_below :
  Float.gtb x t = true -> Float.ltb x (Float.neg t) = true -> False.
Proof. by_signs. Qed.

Lemma equal_not_above : Float.eqb x t = true -> Float.gtb x t = false.
Proof.
  clear Ht. unfold Float.gtb, Float.ltb, Float.eqb, SFltb, SFeqb.
  destruct t as [[]|[]| |[] mt et], x as [[]|[]| |[] mx ex]; simpl;
    try discriminate; try reflexivity.
  all: rewrite (Z.compare_antisym et ex);
    destruct (Z.compare et ex) eqn:He; simpl; try discriminate;
    change (Pos.compare_cont Eq mt mx)
      with (Pos.compare_cont (CompOpp Eq) mt mx);
    rewrite <- (Pos.compare_cont_antisym mx mt Eq);
    destruct (Pos.compare_cont Eq mx mt); simpl; try discriminate;
    reflexivity.
Qed.

Lemma equal_not_below :
  Float.eqb x t = true -> Float.ltb x (Float.neg t) = false.
Proof. by_signs. Qed.

Lemma equal_opp_not_above :
  Float.eqb x (Float.neg t) = true -> Float.gtb x t = false.
Proof. by_signs. Qed.

End Thresholds.

Lemma equal_opp_not_below (x t : float) :
  Float.eqb x (Float.neg t) = true -> Float.ltb x (Float.neg t) = false.
Proof.
  unfold Float.eqb, Float.ltb, SFeqb, SFltb.
  destruct (SFcompare x (Float.neg t)) as [[]|]; done.
Qed.

(** * The claims about the comparator *)

(** C1. For a threshold [T >= 0], every record that [compare_results]
    produces has the status "regression" (flag [is_regression]) exactly
    when its [change_percent] is strictly above [T], the status
    "improvement" (flag [is_improvement]) exactly when it is strictly below
    [-T], and the status "unchanged" (both flags false) exactly when it is
    neither; the two flags are never both set, and a change equal to [T] or
    to [-T] is "unchanged". *)
Theorem compare_results_classification (T : float) (baseline latest : results) :
  Float.geb T Float.zero = true ->
  exists recs,
    compare_results baseline latest T = Ok recs
    ∧ forall c, c ∈ recs ->
        let cp := ComparisonResult.change_percent c in
        (ComparisonResult.is_regression c = true <-> Float.gtb cp T = true)
        ∧ (ComparisonResult.is_improvement c = true
           <-> Float.ltb cp (Float.neg T) = true)
        ∧ (status c = "regression" <-> Float.gtb cp T = true)
        ∧ (status c = "improvement" <-> Float.ltb cp (Float.neg T) = true)
        ∧ (status c = "unchanged"
           <-> Float.gtb cp T = false ∧ Float.ltb cp (Float.neg T) = false)
        ∧ (status c = "unchanged"
           <-> ComparisonResult.is_regression c = false
               ∧ ComparisonResult.is_improvement c = false)
        ∧ ¬ (ComparisonResult.is_regression c = true
             ∧ ComparisonResult.is_improvement c = true)
        ∧ (Float.eqb cp T = true ∨ Float.eqb cp (Float.neg T) = true ->
           status c = "unchanged").
Proof.
  intros HT. eexists. split; [apply compare_results_ok|].
  intros c Hc. apply elem_of_records in Hc as (n & base & curr & _ & _ & ->).
  unfold status, record_of; simpl.
  set (cp := change_of base curr).
  pose proof (above_not_below cp T HT) as Hexcl.
  pose proof (equal_not_above cp T) as Hea.
  pose proof (equal_not_below cp T HT) as Heb.
  pose proof (equal_opp_not_above cp T HT) as Hoa.
  pose proof (equal_opp_not_below cp T) as Hob.
  destruct (Float.gtb cp T) eqn:Hg, (Float.ltb cp (Float.neg T)) eqn:Hl;
    repeat split; try done; try tauto; try (intros [? ?]; done);
    try (intros [He|He]; [specialize (Hea He) | specialize (Hoa He)]; done);
    try (intros [He|He]; [specialize (Heb He) | specialize (Hob He)]; done).
Qed.

Lemma compare_results_classification_witness :
  exists recs,
    compare_results (single "a" 100) (single "a" 106) (Float.of_Z 5) = Ok recs
    ∧ forall c, c ∈ recs ->
        let cp := ComparisonResult.change_percent c in
        (ComparisonResult.is_regression c = true
         <-> Float.gtb cp (Float.of_Z 5) = true)
        ∧ (ComparisonResult.is_improvement c = true
           <-> Float.ltb cp (Float.neg (Float.of_Z 5)) = true)
        ∧ (status c = "regression" <-> Float.gtb cp (Float.of_Z 5) = true)
        ∧ (status c = "improvement"
           <-> Float.ltb cp (Float.neg (Float.of_Z 5)) = true)
        ∧ (status c = "unchanged"
           <-> Float.gtb cp (Float.of_Z 5) = false
               ∧ Float.ltb cp (Float.neg (Float.of_Z 5)) = false)
        ∧ (status c = "unchanged"
           <-> ComparisonResult.is_regression c = false
               ∧ ComparisonResult.is_improvement c = false)
        ∧ ¬ (ComparisonResult.is_regression c = true
             ∧ ComparisonResult.is_improvement c = true)
        ∧ (Float.eqb cp (Float.of_Z 5) = true
           ∨ Float.eqb cp (Float.neg (Float.of_Z 5)) = true ->
           status c = "unchanged").
Proof.
  apply (compare_results_classification (Float.of_Z 5)
           (single "a" 100) (single "a" 106)).
  vm_compute. reflexivity.
Defined.

(** The examples of the specification: 100 ns against 106 ns at threshold 5
    is a change of 6 percent and a regression; 100 ns against 96 ns is a
    change of -4 percent and unchanged. *)
Example compare_106 :
  compare_results (single "a" 100) (single "a" 106) (Float.of_Z 5)
  = Ok [ComparisonResult.mk "a" (Float.of_Z 100) (Float.of_Z 106) (PStr "ns")
          (Float.of_Z 6) true false].
Proof. vm_compute. reflexivity. Qed.

Example compare_96 :
  compare_results (single "a" 100) (single "a" 96) (Float.of_Z 5)
  = Ok [ComparisonResult.mk "a" (Float.of_Z 100) (Float.of_Z 96) (PStr "ns")
          (Float.of_Z (-4)) false false].
Proof. vm_compute. reflexivity. Qed.

(** C2. [compare_results] never raises (the division is reached only with
    a baseline value that does not compare equal to zero), and for every
    name that both mappings have, the records of that name (there is one)
    carry the percentage 0.0 when the baseline value compares equal to
    zero, whatever the latest value is, and
    [((latest - baseline) / baseline) * 100] otherwise. *)
Theorem compare_results_change_percent (baseline latest : results)
    (threshold : float) (n : string) (base curr : BenchmarkResult.t) :
  baseline !! n = Some base ->
  latest !! n = Some curr ->
  exists recs,
    compare_results baseline latest threshold = Ok recs
    ∧ (exists c, c ∈ recs ∧ ComparisonResult.name c = n)
    ∧ forall c, c ∈ recs -> ComparisonResult.name c = n ->
        ComparisonResult.change_percent c
        = if Float.eqb (BenchmarkResult.value base) Float.zero
          then S754_zero false
          else Float.mul
                 (Float.div
                    (Float.sub (BenchmarkResult.value curr)
                       (BenchmarkResult.value base))
                    (BenchmarkResult.value base))
                 (Float.of_Z 100).
Proof.
  intros Hb Hl. eexists. split; [apply compare_results_ok|]. split.
  - exists (record_of threshold n base curr). split; [|done].
    apply elem_of_records. eauto 6.
  - intros c Hc Hn.
    apply elem_of_records in Hc as (n' & base' & curr' & Hb' & Hl' & ->).
    simpl in Hn. subst n'. by simplify_eq.
Qed.

Lemma compare_results_change_percent_witness :
  exists recs,
    compare_results (single "a" 0) (single "a" 7) (Float.of_Z 5) = Ok recs
    ∧ (exists c, c ∈ recs ∧ ComparisonResult.name c = "a")
    ∧ forall c, c ∈ recs -> ComparisonResult.name c = "a" ->
        ComparisonResult.change_percent c = S754_zero false.
Proof.
  apply (compare_results_change_percent (single "a" 0) (single "a" 7)
           (Float.of_Z 5) "a"
           (BenchmarkResult.mk "a" (Float.of_Z 0) (PStr "ns") PNone)
           (BenchmarkResult.mk "a" (Float.of_Z 7) (PStr "ns") PNone));
    reflexivity.
Defined.

(** The guard covers both zeros: a baseline of -0.0 gives 0.0 as well. *)
Example compare_negative_zero :
  compare_results
    {[ "a" := BenchmarkResult.mk "a" (S754_zero true) (PStr "ns") PNone ]}
    (single "a" 7) (Float.of_Z 5)
  = Ok [ComparisonResult.mk "a" (S754_zero true) (Float.of_Z 7) (PStr "ns")
          (S754_zero false) false false].
Proof. vm_compute. reflexivity. Qed.

(** C3. The names of the records that [compare_results] returns are the
    names that both mappings have, each once, in strictly ascending
    lexicographic order; a name that only one mapping has does not
    occur. *)
Theorem compare_results_names (baseline latest : results) (threshold : float) :
  exists recs,
    compare_results baseline latest threshold = Ok recs
    ∧ StronglySorted str_lt (ComparisonResult.name <$> recs)
    ∧ NoDup (ComparisonResult.name <$> recs)
    ∧ forall n, n ∈ ComparisonResult.name <$> recs
                <-> is_Some (baseline !! n) ∧ is_Some (latest !! n).
Proof.
  eexists. split; [apply compare_results_ok|].
  assert (StronglySorted str_lt
            (ComparisonResult.name
               <$> omap (shared baseline latest threshold)
                     (sorted (dom baseline ∪ dom latest)))) as Hs.
  { apply StronglySorted_omap_name.
    - intros a c. apply shared_name.
    - apply sorted_strict. }
  split; [done|]. split.
  - eapply StronglySorted_irrefl_NoDup; [apply str_lt_irrefl | done].
  - intros n. rewrite list_elem_of_fmap. split.
    + intros (c & -> & Hc).
      apply elem_of_records in Hc as (n' & base & curr & Hb & Hl & ->).
      simpl. eauto.
    + intros [[base Hb] [curr Hl]].
      exists (record_of threshold n base curr). split; [done|].
      apply elem_of_records. eauto 6.
Qed.

(** No overlap between the two mappings gives no record at all. *)
Example compare_disjoint :
  compare_results (single "a" 100) (single "b" 100) (Float.of_Z 5) = Ok [].
Proof. vm_compute. reflexivity. Qed.

(** C10. With a threshold [T >= 0] no record has both flags set; with the
    threshold -5.0 a record whose change is 0.0 has both flags set. *)
Theorem flags_exclusive_iff_threshold_sign :
  (forall (T : float) (baseline latest : results) recs,
      Float.geb T Float.zero = true ->
      compare_results baseline latest T = Ok recs ->
      forall c, c ∈ recs ->
        ¬ (ComparisonResult.is_regression c = true
           ∧ ComparisonResult.is_improvement c = true))
  ∧ (exists (baseline latest : results) c,
        compare_results baseline latest (Float.of_Z (-5)) = Ok [c]
        ∧ ComparisonResult.change_percent c = S754_zero false
        ∧ ComparisonResult.is_regression c = true
        ∧ ComparisonResult.is_improvement c = true).
Proof.
  split.
  - intros T baseline latest recs HT Hrecs c Hc.
    rewrite compare_results_ok in Hrecs. injection Hrecs as <-.
    apply elem_of_records in Hc as (n & base & curr & _ & _ & ->). simpl.
    intros [Hg Hl]. exact (above_not_below _ _ HT Hg Hl).
  - exists (single "a" 0), (single "a" 7). eexists.
    split; [vm_compute; reflexivity|]. simpl. done.
Qed.

Lemma flags_exclusive_iff_threshold_sign_witness :
  ¬ (ComparisonResult.is_regression
       (ComparisonResult.mk "a" (Float.of_Z 100) (Float.of_Z 106)
          (PStr "ns") (Float.of_Z 6) true false) = true
     ∧ ComparisonResult.is_improvement
         (ComparisonResult.mk "a" (Float.of_Z 100) (Float.of_Z 106)
            (PStr "ns") (Float.of_Z 6) true false) = true).
Proof.
  apply (proj1 flags_exclusive_iff_threshold_sign (Float.of_Z 5)
           (single "a" 100) (single "a" 106)
           [ComparisonResult.mk "a" (Float.of_Z 100) (Float.of_Z 106)
              (PStr "ns") (Float.of_Z 6) true false]).
  - vm_compute. reflexivity.
  - vm_compute. reflexivity.
  - apply list_elem_of_here.
Defined.

(** * The structured report *)

Lemma sum_ones_from (p : ComparisonResult.t -> bool) cs (k : Z) :
  fold_left (fun acc c => if p c then acc + 1 else acc) cs k
  = k + Z.of_nat (length (filter (fun c => p c = true) cs)).
Proof.
  revert k. induction cs as [|c cs IH]; intros k; simpl; [lia|].
  rewrite IH, filter_cons. destruct (p c) eqn:Hp.
  - rewrite decide_True by done. simpl length. lia.
  - rewrite decide_False by done. lia.
Qed.

Lemma sum_ones_count (p : ComparisonResult.t -> bool) cs :
  sum_ones p cs = Z.of_nat (length (filter (fun c => p c = true) cs)).
Proof. unfold sum_ones. rewrite sum_ones_from. lia. Qed.

Lemma entry_status_regression c :
  entry_status (report_entry c) = PStr "regression"
  <-> ComparisonResult.is_regression c = true.
Proof.
  unfold entry_status, report_entry, status. simpl.
  destruct (ComparisonResult.is_regression c),
    (ComparisonResult.is_improvement c); split; intros H; done.
Qed.

Lemma regression_entries cs :
  length (filter (fun e => entry_status e = PStr "regression")
            (map report_entry cs))
  = length (filter (fun c => ComparisonResult.is_regression c = true) cs).
Proof.
  induction cs as [|c cs IH]; [done|].
  simpl map. rewrite !filter_cons.
  pose proof (entry_status_regression c) as Hc.
  destruct (decide (entry_status (report_entry c) = PStr "regression")),
    (decide (ComparisonResult.is_regression c = true));
    simpl; try (by rewrite IH); tauto.
Qed.

(** C8. In the report of [generate_json_report], the summary has [total]
    equal to the combined length of the two sequences, [regressions] equal
    to the number of records whose flag [is_regression] is set and
    [improvements] equal to the number of records whose flag
    [is_improvement] is set; read back from the report itself, [total] is
    the number of flattened records and [regressions] the number of those
    whose status is "regression". *)
Theorem summary_counts (now : string)
    (rust_comparisons swift_comparisons : list ComparisonResult.t)
    (metadata : pyval) :
  let report :=
    generate_json_report now rust_comparisons swift_comparisons metadata in
  let records := rust_comparisons ++ swift_comparisons in
  exists summary,
    py_get report "summary" PNone = Ok (PDict summary)
    ∧ dict_get summary "total" PNone
      = PInt (Z.of_nat (length rust_comparisons + length swift_comparisons))
    ∧ dict_get summary "regressions" PNone
      = PInt (Z.of_nat (length (filter
                (fun c => ComparisonResult.is_regression c = true) records)))
    ∧ dict_get summary "improvements" PNone
      = PInt (Z.of_nat (length (filter
                (fun c => ComparisonResult.is_improvement c = true) records)))
    ∧ dict_get summary "total" PNone
      = PInt (Z.of_nat (length (report_entries report)))
    ∧ dict_get summary "regressions" PNone
      = PInt (Z.of_nat (length (filter
                (fun e => entry_status e = PStr "regression")
                (report_entries report)))).
Proof.
  intros report records. eexists. split; [reflexivity|].
  simpl dict_get. rewrite !sum_ones_count. repeat split.
  - f_equal. lia.
  - unfold report, report_entries, generate_json_report. simpl dict_get.
    cbv iota. rewrite length_app, !length_map. f_equal. lia.
  - unfold report, report_entries, generate_json_report. simpl dict_get.
    cbv iota. rewrite <- map_app, regression_entries. reflexivity.
Qed.

(** No shared name: no record, and all the counts are zero. *)
Example summary_of_nothing :
  generate_json_report "t" [] [] (PDict [])
  = PDict [("generated", PStr "t"); ("metadata", PDict []);
           ("summary", PDict [("total", PInt 0); ("regressions", PInt 0);
                              ("improvements", PInt 0)]);
           ("rust", PList []); ("swift", PList [])].
Proof. reflexivity. Qed.

(** * The parser of the Rust results *)

Lemma dict_get_lookup kvs key d :
  dict_get kvs key d = default d (dict_lookup kvs key).
Proof.
  induction kvs as [|[k v] kvs IH]; simpl; [done|].
  destruct (String.eqb k key); done.
Qed.

Lemma selected_value_get kvs :
  dict_get kvs "mean_ns" (dict_get kvs "value" (PInt 0)) = selected_value kvs.
Proof.
  unfold selected_value. rewrite !dict_get_lookup.
  destruct (dict_lookup kvs "mean_ns"), (dict_lookup kvs "value"); done.
Qed.

Lemma dict_lookup_None items n : n ∉ items.*1 -> dict_lookup items n = None.
Proof.
  induction items as [|[k v] items IH]; simpl; [done|]. intros Hn.
  apply not_elem_of_cons in Hn as [Hne Hn].
  destruct (String.eqb_spec k n); [congruence|]. by apply IH.
Qed.

Lemma dict_lookup_elem items n v :
  NoDup items.*1 -> (n, v) ∈ items -> dict_lookup items n = Some v.
Proof.
  induction items as [|[k w] items IH]; simpl; intros Hnd Hin.
  - by apply elem_of_nil in Hin.
  - apply NoDup_cons in Hnd as [Hk Hnd].
    apply elem_of_cons in Hin as [[= -> ->]|Hin].
    + by rewrite String.eqb_refl.
    + destruct (String.eqb_spec k n) as [->|Hne]; [|by apply IH].
      exfalso. apply Hk. apply list_elem_of_fmap. by exists (n, v).
Qed.

Lemma dict_lookup_Some items n v :
  dict_lookup items n = Some v -> (n, v) ∈ items.
Proof.
  induction items as [|[k w] items IH]; simpl; [done|].
  destruct (String.eqb_spec k n) as [->|Hne].
  - intros [= ->]. apply list_elem_of_here.
  - intros H. apply list_elem_of_further. by apply IH.
Qed.

Lemma py_float_unhandled v e : py_float v = Raise e -> handled e = false.
Proof.
  destruct v as [| |n| |s| |]; simpl; try (intros [= <-]; done).
  - destruct (Float.of_Z n); intros [= <-]; done.
  - destruct (float_of_str s); intros [= <-]; done.
Qed.

Lemma rust_loop_unhandled items acc res e :
  rust_loop items acc = (res, Some e) -> handled e = false.
Proof.
  revert acc. induction items as [|[n info] items IH]; intros acc; simpl.
  - intros H. discriminate H.
  - destruct info as [| | | | | |kvs]; try apply IH.
    destruct (py_float _) as [x|e'] eqn:Hx; [apply IH|].
    intros [= _ <-]. by eapply py_float_unhandled.
Qed.




Example parse_rust_example :
  parse_rust_results (Json (PDict example_document))
  = (Ok {[ "x" := BenchmarkResult.mk "x" (Float.of_Z 250) (PStr "ns") PNone ]},
     []).
Proof. vm_compute. reflexivity. Qed.

(** * The parser of the Swift results *)

Lemma swift_json_loop_unhandled items acc res e :
  swift_json_loop items acc = (res, Some e) -> handled e = false.
Proof.
  revert acc. induction items as [|[n info] items IH]; intros acc; simpl.
  - intros H. discriminate H.
  - destruct info as [| | | | | |kvs]; try apply IH.
    destruct (py_float _) as [x|e'] eqn:Hx; [apply IH|].
    intros [= _ <-]. by eapply py_float_unhandled.
Qed.

Lemma scan_line_raises line st e : scan_line line st = Raise e -> e = ValueError.
Proof.
  destruct st as [cur acc]. unfold scan_line.
  destruct (search_measure line); [|done].
  destruct (match search_test line with Some _ => _ | None => _ end); [|done].
  destruct (truthy _); [|done].
  destruct (float_of_str _); [done|]. by intros [= <-].
Qed.

Lemma scan_lines_raises lines st e :
  scan_lines lines st = Raise e -> e = ValueError.
Proof.
  revert st. induction lines as [|line lines IH]; intros st; simpl; [done|].
  destruct (scan_line line st) as [st'|e'] eqn:Hl; simpl.
  - apply IH.
  - intros [= <-]. by eapply scan_line_raises.
Qed.

Lemma parse_swift_text_raises content acc e :
  parse_swift_text content acc = Raise e -> e = ValueError.
Proof.
  unfold parse_swift_text.
  destruct (scan_lines _ _) as [st|e'] eqn:Hs; simpl; [done|].
  intros [= <-]. by eapply scan_lines_raises.
Qed.

Lemma swift_text_unhandled (text : option text_file) acc e :
  fst (match text with
       | None => (Ok acc, [])
       | Some NoSuchText => (Ok acc, [WarnSwift FileNotFoundError])
       | Some (UnreadableText r) => (Raise (read_error r), [])
       | Some (Text content) =>
           match parse_swift_text content acc with
           | Ok r => (Ok r, [])
           | Raise e => (Raise e, [])
           end
       end : io results) = Raise e ->
  handled e = false.
Proof.
  destruct text as [[|r|content]|]; simpl; try done.
  - intros [= <-]. by destruct r.
  - destruct (parse_swift_text content acc) eqn:Hp; simpl; [done|].
    intros [= <-]. by rewrite (parse_swift_text_raises _ _ _ Hp).
Qed.

Lemma load_raises f e :
  load f = Raise e ->
  rust_try f = (∅, Some e) ∧ swift_json_try f = (∅, Some e).
Proof. unfold rust_try, swift_json_try. by intros ->. Qed.

(** C4, as the code has it. Neither parser lets a [FileNotFoundError] or a
    [JSONDecodeError] through, and neither catches any other exception.
    When [open] raises [FileNotFoundError] or [json.load] raises
    [JSONDecodeError], [parse_rust_results] returns the empty mapping and
    prints one warning; [parse_swift_results] treats such a JSON file as
    absent, without a warning, and goes on with the text file; without a
    text file it returns the empty mapping, and prints a warning only when
    the file is gone between the test and the opening. Every other
    exception of [open], of the reading and of [json.load] (a file that
    cannot be read, bytes that are not text, a document that the decoder
    gives up on) comes out of the parser, from the JSON file as from the
    text file, and nothing is printed. *)
Theorem parsers_recover :
  (forall f e, load f = Raise e ->
     parse_rust_results f
     = if handled e then (Ok ∅, [WarnRust e]) else (Raise e, []))
  ∧ (forall f e, fst (parse_rust_results f) = Raise e -> handled e = false)
  ∧ (forall f e text, load f = Raise e ->
       parse_swift_results (Some f) text
       = if handled e then parse_swift_results None text else (Raise e, []))
  ∧ parse_swift_results None None = (Ok ∅, [])
  ∧ parse_swift_results None (Some NoSuchText)
    = (Ok ∅, [WarnSwift FileNotFoundError])
  ∧ (forall r,
       parse_swift_results None (Some (UnreadableText r))
       = (Raise (read_error r), []))
  ∧ (forall j text e,
       fst (parse_swift_results j text) = Raise e -> handled e = false).
Proof.
  repeat split.
  - intros f e Hload. unfold parse_rust_results.
    rewrite (proj1 (load_raises f e Hload)). by destruct e.
  - intros f e. unfold parse_rust_results.
    destruct (rust_try f) as [acc [e'|]] eqn:Htry; [|done].
    destruct e'; simpl; try done; intros [= <-]; done.
  - intros f e text Hload. unfold parse_swift_results.
    rewrite (proj2 (load_raises f e Hload)). by destruct e.
  - intros j text e. unfold parse_swift_results.
    destruct j as [f|]; [|apply swift_text_unhandled].
    destruct (swift_json_try f) as [acc [e'|]] eqn:Htry; [|done].
    destruct e'; try (simpl; intros [= <-]; done);
      apply swift_text_unhandled.
Qed.

Lemma parsers_recover_witness :
  parse_rust_results NotJson = (Ok ∅, [WarnRust JSONDecodeError])
  ∧ parse_rust_results (Unreadable NotText) = (Raise UnicodeDecodeError, [])
  ∧ parse_swift_results (Some NoSuchFile) None = parse_swift_results None None.
Proof.
  split; [|split].
  - apply (proj1 parsers_recover NotJson JSONDecodeError). reflexivity.
  - apply (proj1 parsers_recover (Unreadable NotText) UnicodeDecodeError).
    reflexivity.
  - apply (proj1 (proj2 (proj2 parsers_recover)) NoSuchFile FileNotFoundError
             None).
    reflexivity.
Defined.

(** C4 as stated fails: a JSON document that is a list makes
    [parse_rust_results] raise, and so does a file whose bytes are not
    text; a number that [float] rejects makes the text scan of
    [parse_swift_results] raise, and so does a text file, or a JSON file
    next to it, that cannot be read; and a JSON file that does not decode
    next to a text file gives a mapping that is not empty and no
    warning. *)
Lemma parsers_not_total :
  parse_rust_results (Json (PList [])) = (Raise AttributeError, [])
  /\ parse_rust_results (Unreadable NotText) = (Raise UnicodeDecodeError, [])
  /\ parse_swift_results None (Some (Text "'t' measured average: ."))
     = (Raise ValueError, [])
  /\ parse_swift_results None (Some (UnreadableText NotText))
     = (Raise UnicodeDecodeError, [])
  /\ parse_swift_results (Some (Unreadable NoAccess))
       (Some (Text "'t' measured average: 1"))
     = (Raise OSError, [])
  /\ parse_swift_results (Some NotJson) (Some (Text "'t' measured average: 1"))
     = (Ok {[ "t" := ms_measurement "t" (Float.of_Z 1) ]}, [])
  /\ ¬ (forall f, exists r out, parse_rust_results f = (Ok r, out))
  /\ ¬ (forall j text, exists r out, parse_swift_results j text = (Ok r, out)).
Proof.
  split; [vm_compute; reflexivity|].
  split; [vm_compute; reflexivity|].
  split; [vm_compute; reflexivity|].
  split; [vm_compute; reflexivity|].
  split; [vm_compute; reflexivity|].
  split; [vm_compute; reflexivity|].
  split.
  - intros H. destruct (H (Unreadable NotText)) as (r & out & Heq).
    vm_compute in Heq. discriminate Heq.
  - intros H.
    destruct (H None (Some (Text "'t' measured average: .")))
      as (r & out & Heq).
    vm_compute in Heq. discriminate Heq.
Qed.

(** ** The scan of the text report *)

Lemma scan_lines_app l1 l2 st :
  scan_lines (l1 ++ l2) st = (st' ← scan_lines l1 st; scan_lines l2 st').
Proof.
  revert st. induction l1 as [|line l1 IH]; intros st; simpl; [done|].
  destruct (scan_line line st) as [st'|e]; simpl; [apply IH|done].
Qed.

Lemma string_of_list_ascii_nonempty (l : list ascii) :
  l ≠ [] -> string_of_list_ascii l ≠ "".
Proof. destruct l; [done|]. simpl. discriminate. Qed.

Lemma search_test_nonempty line g : search_test line = Some g -> g ≠ [].
Proof.
  induction line as [|c line IH]; simpl; [done|].
  destruct (is_quote c); [|exact IH].
  destruct (take_while _ line) as [|b body]; [exact IH|].
  destruct (drop_while _ line); [exact IH|].
  intros [= <-]. done.
Qed.

Lemma name_of_truthy line t : name_of line = Some t -> truthy (Some t) = true.
Proof.
  unfold name_of. destruct (search_test line) as [g|] eqn:Hg; [|done].
  intros [= <-]. simpl.
  destruct (String.eqb_spec (string_of_list_ascii g) ""); [|done].
  exfalso. eapply string_of_list_ascii_nonempty; [|done].
  by eapply search_test_nonempty.
Qed.

Lemma last_name_snoc lines line :
  last_name (lines ++ [line])
  = match name_of line with
    | Some t => Some t
    | None => last_name lines
    end.
Proof.
  unfold last_name. rewrite omap_app. simpl.
  destruct (name_of line); simpl; [apply last_snoc|by rewrite app_nil_r].
Qed.

Lemma last_name_cons line lines :
  last_name (line :: lines)
  = match last_name lines with
    | Some t => Some t
    | None => name_of line
    end.
Proof.
  unfold last_name. change (line :: lines) with ([line] ++ lines).
  rewrite omap_app, last_app.
  destruct (last (omap name_of lines)); [done|].
  simpl. by destruct (name_of line).
Qed.

Lemma last_name_truthy lines t : last_name lines = Some t -> truthy (Some t) = true.
Proof.
  induction lines as [|line lines IH] using rev_ind; [done|].
  rewrite last_name_snoc. destruct (name_of line) as [t'|] eqn:Hn; [|exact IH].
  intros [= <-]. by eapply name_of_truthy.
Qed.

(** The step of the loop, in terms of the name and the number of the line. *)
Lemma scan_line_spec line cur acc :
  (forall t, cur = Some t -> truthy cur = true) ->
  let cur' := match name_of line with Some t => Some t | None => cur end in
  scan_line line (cur, acc)
  = match number_of line, cur' with
    | Some g, Some t =>
        match float_of_str g with
        | Some v => Ok (Some t, <[t := ms_measurement t v]> acc)
        | None => Raise ValueError
        end
    | _, _ => Ok (cur', acc)
    end.
Proof.
  intros Hcur. unfold scan_line, name_of, number_of. simpl.
  destruct (search_measure line) as [g|]; simpl.
  - destruct (search_test line) as [n|] eqn:Hn; simpl.
    + assert (truthy (Some (string_of_list_ascii n)) = true) as Ht.
      { apply (name_of_truthy line). unfold name_of. by rewrite Hn. }
      simpl in Ht. rewrite Ht. by destruct (float_of_str _).
    + destruct cur as [t|]; [|done].
      pose proof (Hcur t eq_refl) as Ht. rewrite Ht.
      by destruct (float_of_str _).
  - by destruct (search_test line).
Qed.

Lemma scan_lines_cons line lines st :
  scan_lines (line :: lines) st = (st' ← scan_line line st; scan_lines lines st').
Proof. reflexivity. Qed.

Lemma scan_line_current line cur0 acc0 cur acc :
  scan_line line (cur0, acc0) = Ok (cur, acc) ->
  cur = match name_of line with Some t => Some t | None => cur0 end.
Proof.
  unfold scan_line, name_of.
  destruct (search_test line); simpl;
    repeat (match goal with
            | |- context [match ?x with _ => _ end] => destruct x
            end; simpl);
    intros H; try discriminate H; injection H as H1 H2; by subst.
Qed.

Lemma scan_lines_current lines cur0 acc0 cur acc :
  scan_lines lines (cur0, acc0) = Ok (cur, acc) ->
  cur = match last_name lines with Some t => Some t | None => cur0 end.
Proof.
  revert cur0 acc0. induction lines as [|line lines IH]; intros cur0 acc0.
  - simpl. intros H. injection H as H1 H2. by subst.
  - rewrite scan_lines_cons.
    destruct (scan_line line (cur0, acc0)) as [[cur1 acc1]|e] eqn:Hl;
      [|intros H; discriminate H].
    intros Hrest. apply IH in Hrest. rewrite last_name_cons.
    destruct (last_name lines) as [t|]; [done|]. subst cur.
    by eapply scan_line_current.
Qed.

Lemma scan_lines_single line st : scan_lines [line] st = scan_line line st.
Proof. simpl. by destruct (scan_line line st). Qed.

Lemma scan_lines_returns lines st :
  (forall t, fst st = Some t -> truthy (fst st) = true) ->
  (forall line g, line ∈ lines -> number_of line = Some g ->
     is_Some (float_of_str g)) ->
  returns (scan_lines lines st).
Proof.
  revert st. induction lines as [|line lines IH]; intros [cur acc] Hcur Hnum.
  - by exists (cur, acc).
  - rewrite scan_lines_cons, scan_line_spec by exact Hcur.
    assert (forall t, match name_of line with Some t => Some t | None => cur end
                      = Some t ->
              truthy (match name_of line with Some t => Some t | None => cur end)
              = true) as Hcur'.
    { intros t. destruct (name_of line) as [t'|] eqn:Hn; [|apply Hcur].
      intros _. by eapply name_of_truthy. }
    assert (forall l g, l ∈ lines -> number_of l = Some g ->
              is_Some (float_of_str g)) as Hnum'.
    { intros l g Hl. apply Hnum. by apply list_elem_of_further. }
    destruct (number_of line) as [g|] eqn:Hg; [|by apply IH].
    destruct (match name_of line with Some t => Some t | None => cur end)
      as [t|] eqn:Hc; [|apply IH; [intros ? [=] | done]].
    destruct (Hnum line g) as [v Hv]; [apply list_elem_of_here|done|].
    rewrite Hv. apply IH; [|done]. intros t' _. simpl fst.
    by apply (Hcur' t).
Qed.

Lemma scan_lines_no_name lines :
  last_name lines = None -> scan_lines lines (None, ∅) = Ok (None, ∅).
Proof.
  induction lines as [|line lines IH]; [done|].
  rewrite last_name_cons.
  destruct (last_name lines) eqn:Hlast; [done|]. intros Hname.
  rewrite scan_lines_cons, scan_line_spec by done. rewrite Hname.
  destruct (number_of line); by apply IH.
Qed.

(** ** The lines of a text *)

Lemma is_newline_spec c : is_newline c = true <-> c = "010"%char.
Proof. unfold is_newline. apply Ascii.eqb_eq. Qed.

Lemma split_lines_nonempty l : split_lines l ≠ [].
Proof.
  induction l as [|c l IH]; simpl; [done|].
  destruct (is_newline c); [done|]. by destruct (split_lines l).
Qed.

Lemma split_lines_one_line line : one_line line -> split_lines line = [line].
Proof.
  induction 1 as [|c line Hc _ IH]; simpl; [done|].
  destruct (is_newline c) eqn:Hn; [by apply is_newline_spec in Hn|].
  by rewrite IH.
Qed.

Lemma split_lines_app line tail :
  one_line line ->
  split_lines (line ++ "010"%char :: tail) = line :: split_lines tail.
Proof.
  induction 1 as [|c line Hc _ IH]; simpl; [done|].
  destruct (is_newline c) eqn:Hn; [by apply is_newline_spec in Hn|].
  by rewrite IH.
Qed.

(** Splitting the text of the lines gives the lines. *)
Lemma split_lines_join lines :
  lines ≠ [] -> Forall one_line lines -> split_lines (join_lines lines) = lines.
Proof.
  intros Hne Hall. induction Hall as [|line rest Hl Hrest IH]; [done|].
  destruct rest as [|l2 rest].
  - simpl. by apply split_lines_one_line.
  - change (join_lines (line :: l2 :: rest))
      with (line ++ "010"%char :: join_lines (l2 :: rest)).
    rewrite split_lines_app by done. by rewrite IH.
Qed.

(** Every text is the text of its lines. *)
Lemma join_split_lines l :
  join_lines (split_lines l) = l ∧ Forall one_line (split_lines l).
Proof.
  induction l as [|c l [IHj IHa]]; simpl.
  - split; [done|]. repeat constructor.
  - pose proof (split_lines_nonempty l) as Hne.
    destruct (is_newline c) eqn:Hn.
    + apply is_newline_spec in Hn as ->. split.
      * destruct (split_lines l) as [|cur others] eqn:Hs; [done|].
        change (join_lines ([] :: cur :: others))
          with ("010"%char :: join_lines (cur :: others)).
        by rewrite IHj.
      * constructor; [constructor|done].
    + destruct (split_lines l) as [|cur others] eqn:Hs; [done|]. split.
      * rewrite <- IHj. by destruct others.
      * apply Forall_cons in IHa as [Hcur Hothers].
        constructor; [|done]. constructor; [|done].
        intros ->. discriminate Hn.
Qed.

Lemma parse_swift_text_of lines :
  lines ≠ [] -> Forall one_line lines ->
  parse_swift_results None (Some (Text (text_of lines)))
  = match scan_lines lines (None, ∅) with
    | Ok st => (Ok (snd st), [])
    | Raise e => (Raise e, [])
    end.
Proof.
  intros Hne Hall. unfold parse_swift_results, parse_swift_text, text_of.
  rewrite list_ascii_of_string_of_list_ascii, split_lines_join by done.
  by destruct (scan_lines lines (None, ∅)).
Qed.

(** ** The measurements of the lines *)

Lemma measures_snoc pre line i t g :
  measures (pre ++ [line]) i t g
  <-> measures pre i t g
      ∨ (i = length pre ∧ number_of line = Some g
         ∧ last_name (pre ++ [line]) = Some t).
Proof.
  unfold measures, current_at.
  destruct (decide (i < length pre)%nat) as [Hlt|Hge].
  - rewrite lookup_app_l by done. rewrite take_app_le by lia.
    split; [by left|]. intros [H|[-> _]]; [done|lia].
  - destruct (decide (i = length pre)) as [->|Hne].
    + rewrite list_lookup_middle by done.
      rewrite take_ge by (rewrite length_app; simpl; lia).
      split.
      * intros [(l & [= <-] & Hn) Hc]. by right.
      * intros [[(l & Hl & _) _]|(_ & Hn & Hc)].
        -- apply lookup_lt_Some in Hl. lia.
        -- split; [by exists line|done].
    + split.
      * intros [(l & Hl & _) _]. apply lookup_lt_Some in Hl.
        rewrite length_app in Hl. simpl in Hl. lia.
      * intros [[(l & Hl & _) _]|(-> & _)]; [|done].
        apply lookup_lt_Some in Hl. lia.
Qed.

Lemma last_measure_same lines lines' t :
  (forall i g, measures lines' i t g <-> measures lines i t g) ->
  forall r, last_measure lines' t r <-> last_measure lines t r.
Proof.
  intros Hsame r. unfold last_measure. split.
  - intros (i & g & s & Hm & Hmax & Hs & Hr). exists i, g, s.
    split; [by apply Hsame|]. split; [|done].
    intros j g' Hj. apply (Hmax j g'). by apply Hsame.
  - intros (i & g & s & Hm & Hmax & Hs & Hr). exists i, g, s.
    split; [by apply Hsame|]. split; [|done].
    intros j g' Hj. apply (Hmax j g'). by apply Hsame.
Qed.

(** The outcome of the loop over the lines: the current name, and the
    measurement of the last line that measures for each name; or
    [ValueError], when [float] rejects a number that a line measures. *)
Lemma scan_lines_measures lines :
  match scan_lines lines (None, ∅) with
  | Ok (cur, acc) =>
      cur = last_name lines
      ∧ (forall i t g, measures lines i t g -> is_Some (float_of_str g))
      ∧ (forall t r, acc !! t = Some r <-> last_measure lines t r)
  | Raise e =>
      e = ValueError
      ∧ exists i t g, measures lines i t g ∧ float_of_str g = None
  end.
Proof.
  induction lines as [|line pre IH] using rev_ind.
  - simpl. split; [done|]. split.
    + by intros i t g [(l & Hl & _) _].
    + intros t r. rewrite lookup_empty. split; [done|].
      by intros (i & g & s & [(l & Hl & _) _] & _).
  - rewrite scan_lines_app.
    destruct (scan_lines pre (None, ∅)) as [[cur acc]|e].
    2:{ simpl. destruct IH as [-> (i & t & g & Hm & Hf)]. split; [done|].
        exists i, t, g. split; [|done]. apply measures_snoc. by left. }
    destruct IH as (-> & Hconv & Hacc).
    change (match scan_lines [line] (last_name pre, acc) with
            | Ok (cur, acc') =>
                cur = last_name (pre ++ [line])
                ∧ (forall i t g, measures (pre ++ [line]) i t g ->
                     is_Some (float_of_str g))
                ∧ (forall t r, acc' !! t = Some r
                               <-> last_measure (pre ++ [line]) t r)
            | Raise e =>
                e = ValueError
                ∧ exists i t g,
                    measures (pre ++ [line]) i t g ∧ float_of_str g = None
            end).
    rewrite scan_lines_single, scan_line_spec
      by (intros t Ht; rewrite Ht; by eapply last_name_truthy).
    rewrite <- last_name_snoc.
    assert (number_of line = None ∨ last_name (pre ++ [line]) = None ->
            last_name (pre ++ [line]) = last_name (pre ++ [line])
            ∧ (forall i t g, measures (pre ++ [line]) i t g ->
                 is_Some (float_of_str g))
            ∧ (forall t r, acc !! t = Some r
                           <-> last_measure (pre ++ [line]) t r)) as Hskip.
    { intros Hno.
      assert (forall i t g, measures (pre ++ [line]) i t g
                            <-> measures pre i t g) as Hsame.
      { intros i t g. rewrite measures_snoc. split; [|by left].
        intros [H|(_ & Hn & Hc)]; [done|]. destruct Hno; congruence. }
      split; [done|]. split.
      - intros i t g Hm. apply Hsame in Hm. by eapply Hconv.
      - intros t r. rewrite Hacc. symmetry. apply last_measure_same.
        intros i g. apply Hsame. }
    destruct (number_of line) as [g|] eqn:Hg; [|apply Hskip; by left].
    destruct (last_name (pre ++ [line])) as [t|] eqn:Ht;
      [|apply Hskip; by right].
    clear Hskip.
    assert (measures (pre ++ [line]) (length pre) t g) as Hnew.
    { apply measures_snoc. by right. }
    destruct (float_of_str g) as [v|] eqn:Hv.
    2:{ split; [done|]. by exists (length pre), t, g. }
    split; [done|]. split.
    + intros i t' g' Hm.
      apply measures_snoc in Hm as [Hm|(_ & Hg' & _)]; [by eapply Hconv|].
      rewrite Hg in Hg'. injection Hg' as <-. by rewrite Hv.
    + intros t' r. destruct (decide (t' = t)) as [->|Hne].
      * rewrite lookup_insert_eq. split.
        -- intros [= <-]. exists (length pre), g, v.
           split; [done|]. split; [|done].
           intros j g' [(l & Hl & _) _]. apply lookup_lt_Some in Hl.
           rewrite length_app in Hl. simpl in Hl. lia.
        -- intros (i & g' & s & Hm & Hmax & Hs & ->).
           pose proof (Hmax _ _ Hnew) as Hle.
           apply measures_snoc in Hm as [[(l & Hl & _) _]|(-> & Hg' & _)].
           ++ apply lookup_lt_Some in Hl. lia.
           ++ rewrite Hg in Hg'. injection Hg' as <-. rewrite Hv in Hs.
              by injection Hs as <-.
      * rewrite lookup_insert_ne by done. rewrite Hacc. symmetry.
        apply last_measure_same. intros i g'. rewrite measures_snoc.
        split; [|by left]. intros [H|(_ & _ & Hc)]; [done|]. congruence.
Qed.

(** C5, as the code has it. Every text is the text of its lines, and on
    the text of the lines [lines] the text path does what follows. The
    lines are taken in the order of the file: the name that is current at a
    line is the quoted name of the last line up to this one, the line
    itself included, that has one. A line that has a "measured ... average:
    number" match while a name is current stores for this name the number
    times 1000 in the unit "ms", and a later line replaces what an earlier
    one stored for the name: the mapping returned has, for each name, the
    measurement of the last line that measures for it, and nothing else, so
    that a measurement before any name is dropped. This holds when [float]
    accepts the text of every such match; when it rejects one, the parser
    raises [ValueError]. The text of the example gives "foo_test" the value
    2.5 ms. *)
Theorem text_scan_in_order :
  (forall content : string,
     exists lines,
       lines ≠ [] ∧ Forall one_line lines ∧ content = text_of lines)
  ∧ (forall lines : list (list ascii),
       lines ≠ [] -> Forall one_line lines ->
       ((forall i t g, measures lines i t g -> is_Some (float_of_str g)) ->
        exists res,
          parse_swift_results None (Some (Text (text_of lines))) = (Ok res, [])
          ∧ forall t r,
              res !! t = Some r
              <-> exists i g seconds,
                    measures lines i t g
                    ∧ (forall j g', measures lines j t g' -> (j <= i)%nat)
                    ∧ float_of_str g = Some seconds
                    ∧ r = BenchmarkResult.mk t
                            (Float.mul seconds (Float.of_Z 1000))
                            (PStr "ms") PNone)
       ∧ (forall i t g, measures lines i t g -> float_of_str g = None ->
            parse_swift_results None (Some (Text (text_of lines)))
            = (Raise ValueError, []))
       ∧ (last_name lines = None ->
          parse_swift_results None (Some (Text (text_of lines)))
          = (Ok ∅, [])))
  ∧ parse_swift_results None
      (Some (Text ("'foo_test'" ++ String "010" ""
                   ++ "measured [Time, seconds] average: 0.0025")%string))
    = (Ok {[ "foo_test" := BenchmarkResult.mk "foo_test" two_and_a_half
                             (PStr "ms") PNone ]}, []).
Proof.
  split; [|split].
  - intros content.
    destruct (join_split_lines (list_ascii_of_string content)) as [Hj Ha].
    exists (split_lines (list_ascii_of_string content)).
    split; [apply split_lines_nonempty|]. split; [done|].
    unfold text_of. by rewrite Hj, string_of_list_ascii_of_string.
  - intros lines Hne Hall. rewrite parse_swift_text_of by done.
    pose proof (scan_lines_measures lines) as Hscan.
    destruct (scan_lines lines (None, ∅)) as [[cur acc]|e] eqn:Hs.
    + destruct Hscan as (_ & Hconv & Hacc). split; [|split].
      * intros _. exists acc. split; [done|]. exact Hacc.
      * intros i t g Hm Hf. destruct (Hconv i t g Hm) as [v Hv]. congruence.
      * intros Hno. rewrite (scan_lines_no_name lines Hno) in Hs.
        by injection Hs as _ <-.
    + destruct Hscan as (-> & i & t & g & Hm & Hf). split; [|split].
      * intros Hconv. destruct (Hconv i t g Hm) as [v Hv]. congruence.
      * done.
      * intros Hno. rewrite (scan_lines_no_name lines Hno) in Hs. done.
  - vm_compute. reflexivity.
Qed.

Lemma text_scan_in_order_witness :
  exists res,
    parse_swift_results None (Some (Text (text_of text_of_four_lines)))
    = (Ok res, [])
    ∧ res !! "a" = Some (ms_measurement "a" (Float.of_Z 2)).
Proof.
  destruct (proj1 (proj1 (proj2 text_scan_in_order) text_of_four_lines
                     ltac:(done) ltac:(repeat constructor; done)))
    as (res & Hres & Hlook).
  - intros i t g [(l & Hl & Hn) _].
    destruct i as [|[|[|[|i]]]]; simpl in Hl; try done;
      injection Hl as <-; vm_compute in Hn; try done;
      injection Hn as <-; by eexists.
  - exists res. split; [exact Hres|]. apply Hlook.
    exists 3%nat, "2", (Float.of_Z 2).
    split; [|split; [|split]].
    + split; [by eexists|]. vm_compute. reflexivity.
    + intros j g' [(l & Hl & _) _]. apply lookup_lt_Some in Hl.
      simpl in Hl. lia.
    + vm_compute. reflexivity.
    + reflexivity.
Defined.

(** C5 as stated fails for a line that matches the pattern of the
    measurements while a name is current and stores nothing: in the text of
    the example with a full stop after the number, the pattern takes the
    full stop with the number, [float] rejects the text, and the parser
    raises. *)
Lemma text_scan_rejects_number :
  measures text_with_full_stop 1 "foo_test" "0.0025."
  /\ float_of_str "0.0025." = None
  /\ parse_swift_results None
       (Some (Text ("'foo_test'" ++ String "010" ""
                    ++ "measured [Time, seconds] average: 0.0025.")%string))
     = (Raise ValueError, [])
  /\ ¬ (forall lines i t g,
          lines ≠ [] -> Forall one_line lines -> measures lines i t g ->
          exists res out,
            parse_swift_results None (Some (Text (text_of lines)))
            = (Ok res, out)
            ∧ is_Some (res !! t)).
Proof.
  assert (measures text_with_full_stop 1 "foo_test" "0.0025.") as Hm.
  { split; [eexists; split; [reflexivity|]|]; vm_compute; reflexivity. }
  split; [exact Hm|]. split; [vm_compute; reflexivity|].
  split; [vm_compute; reflexivity|].
  intros H.
  destruct (H text_with_full_stop 1%nat "foo_test" "0.0025." ltac:(done)
              ltac:(repeat constructor; done) Hm) as (res & out & Heq & _).
  vm_compute in Heq. discriminate Heq.
Qed.

(** * The exit status *)

Lemma sum_ones_pos (p : ComparisonResult.t -> bool) cs :
  (0 <? sum_ones p cs) = true <-> exists c, c ∈ cs ∧ p c = true.
Proof.
  rewrite sum_ones_count, Z.ltb_lt. split.
  - intros Hpos.
    destruct (filter (fun c => p c = true) cs) as [|c l] eqn:Hf;
      [simpl in Hpos; lia|].
    assert (c ∈ filter (fun c => p c = true) cs) as Hin
        by (rewrite Hf; apply list_elem_of_here).
    apply list_elem_of_filter in Hin as [Hp Hc]. by exists c.
  - intros (c & Hc & Hp).
    assert (c ∈ filter (fun c => p c = true) cs) as Hin
        by (by apply list_elem_of_filter).
    destruct (filter (fun c => p c = true) cs); [by apply elem_of_nil in Hin|].
    simpl length. lia.
Qed.

Lemma is_empty_true (r : results) : is_empty r = true <-> r = ∅.
Proof. unfold is_empty. apply bool_decide_eq_true. Qed.

(** C7, as the code has it. [main] exits with status 1 when the results
    directory is missing. When the directory is there and the four parser
    calls return: it exits with status 1 when both latest mappings are
    empty; otherwise, when the report is written, it exits with status 1 if
    some record is a regression and with status 0 if none is. *)
Theorem exit_contract (w : world) :
  (dir_exists w = false -> exit_status (main w) = 1)
  ∧ forall rust_latest rust_baseline swift_latest swift_baseline o1 o2 o3 o4,
      dir_exists w = true ->
      parse_rust_at (rust_latest_file w) = (Ok rust_latest, o1) ->
      parse_rust_at (rust_baseline_file w) = (Ok rust_baseline, o2) ->
      parse_swift_at (swift_latest_files w) = (Ok swift_latest, o3) ->
      parse_swift_at (swift_baseline_files w) = (Ok swift_baseline, o4) ->
      (rust_latest = ∅ ∧ swift_latest = ∅ -> exit_status (main w) = 1)
      ∧ (¬ (rust_latest = ∅ ∧ swift_latest = ∅) ->
         report_failure w = None ->
         forall rust_comparisons swift_comparisons,
           compare_results rust_baseline rust_latest (threshold w)
           = Ok rust_comparisons ->
           compare_results swift_baseline swift_latest (threshold w)
           = Ok swift_comparisons ->
           ((exists c, c ∈ rust_comparisons ++ swift_comparisons
                       ∧ ComparisonResult.is_regression c = true) ->
            exit_status (main w) = 1)
           ∧ ((forall c, c ∈ rust_comparisons ++ swift_comparisons ->
                 ComparisonResult.is_regression c = false) ->
              exit_status (main w) = 0)).
Proof.
  split.
  - intros Hdir. unfold main. rewrite Hdir. reflexivity.
  - intros rl rb sl sb o1 o2 o3 o4 Hdir H1 H2 H3 H4.
    unfold main. rewrite Hdir, H1, H2, H3, H4. simpl negb. cbv iota.
    split.
    + intros [-> ->].
      destruct (verbose w); reflexivity.
    + intros Hne Hrep rc sc Hrc Hsc.
      assert (is_empty rl && is_empty sl = false) as Hemp.
      { apply andb_false_iff.
        destruct (is_empty rl) eqn:E1; [|by left].
        destruct (is_empty sl) eqn:E2; [|by right].
        exfalso. apply Hne. split; by apply is_empty_true. }
      split.
      * intros Hreg. apply sum_ones_pos in Hreg.
        destruct (verbose w); unfold exit_status; simpl;
          rewrite Hemp, Hrc, Hsc, Hrep; simpl; rewrite Hreg; reflexivity.
      * intros Hnone.
        assert ((0 <? sum_ones ComparisonResult.is_regression (rc ++ sc))
                = false) as Hzero.
        { destruct (0 <? sum_ones _ _) eqn:E; [|done].
          apply sum_ones_pos in E as (c & Hc & Hr).
          rewrite (Hnone c Hc) in Hr. done. }
        destruct (verbose w); unfold exit_status; simpl;
          rewrite Hemp, Hrc, Hsc, Hrep; simpl; rewrite Hzero; reflexivity.
Qed.

Lemma exit_contract_witness :
  exit_status (main (world_with_one_benchmark 100 106)) = 1.
Proof.
  pose (rl := {[ "x" := BenchmarkResult.mk "x" (Float.of_Z 106) (PStr "ns")
                          PNone ]} : results).
  pose (rb := {[ "x" := BenchmarkResult.mk "x" (Float.of_Z 100) (PStr "ns")
                          PNone ]} : results).
  pose (c := ComparisonResult.mk "x" (Float.of_Z 100) (Float.of_Z 106)
               (PStr "ns") (Float.of_Z 6) true false).
  assert (¬ (rl = ∅ ∧ (∅ : results) = ∅)) as Hne.
  { intros [Hrl _]. apply (f_equal (fun m : results => m !! "x")) in Hrl.
    vm_compute in Hrl. discriminate Hrl. }
  assert (exists c', c' ∈ [c] ++ [] ∧ ComparisonResult.is_regression c' = true)
    as Hreg.
  { exists c. split; [apply list_elem_of_here|reflexivity]. }
  refine (proj1 (proj2 (proj2 (exit_contract (world_with_one_benchmark 100 106))
                          rl rb ∅ ∅ [] [] [] [] _ _ _ _ _)
                   Hne _ [c] [] _ _) Hreg);
    vm_compute; reflexivity.
Defined.

(** C7 as stated fails: the results directory is there, both latest
    sources give a measurement, no report is written and no regression is
    reported, and yet the status is 1, because the Swift baseline has a
    number that [float] rejects and [parse_swift_results] raises. *)
Lemma exit_nonzero_on_escaping_exception :
  dir_exists world_with_bad_baseline = true
  /\ parse_rust_at (rust_latest_file world_with_bad_baseline)
     = (Ok {[ "x" := BenchmarkResult.mk "x" (Float.of_Z 100) (PStr "ns")
                       PNone ]}, [])
  /\ parse_swift_at (swift_latest_files world_with_bad_baseline)
     = (Ok {[ "t" := ms_measurement "t" (Float.of_Z 1) ]}, [])
  /\ main world_with_bad_baseline = (Raise ValueError, [])
  /\ exit_status (main world_with_bad_baseline) = 1
  /\ ¬ (forall w, exit_status (main w) ≠ 0 <-> stated_exit_causes w).
Proof.
  repeat (split; [vm_compute; reflexivity|]).
  intros H.
  destruct (proj1 (H world_with_bad_baseline)) as [Hdir|[[_ Hswift]|[Hrep _]]].
  - vm_compute. discriminate.
  - discriminate Hdir.
  - apply Hswift. eexists _, _. split; [vm_compute; reflexivity|].
    intros Hempty.
    apply (f_equal (fun m : results => m !! "t")) in Hempty.
    vm_compute in Hempty. discriminate Hempty.
  - vm_compute in Hrep. by apply elem_of_nil in Hrep.
Qed.

(** The same benchmark with no change gives the status 0. *)
Example exit_zero :
  main (world_with_one_benchmark 100 100) = (Ok tt, [ReportGenerated]).
Proof. vm_compute. reflexivity. Qed.

Example exit_regression :
  main (world_with_one_benchmark 100 106)
  = (Raise (SystemExit 1), [ReportGenerated; WarnRegressions 1]).
Proof. vm_compute. reflexivity. Qed.

(** * The value formatter *)

(** ** Rounding to the nearest integer, ties to even *)

Section Rne.

Variables a b : Z.
Hypothesis Ha : 0 <= a.
Hypothesis Hb : 0 < b.

Lemma rne_cases :
  let k := rne a b in
  (Z.abs (2 * k * b - 2 * a) < b)
  \/ (Z.abs (2 * k * b - 2 * a) = b /\ Z.even k = true).
Proof.
  unfold rne.
  pose proof (Z.div_mod a b ltac:(lia)) as Hdm.
  pose proof (Z.mod_pos_bound a b Hb) as Hr.
  set (q := a / b) in *. set (r := a mod b) in *.
  destruct (Z.compare_spec (2 * r) b) as [He|Hl|Hg].
  - right. destruct (Z.even q) eqn:Hq.
    + split; [nia|done].
    + split; [nia|]. rewrite Z.even_add, Hq. reflexivity.
  - left. nia.
  - left. nia.
Qed.

Lemma rne_unique (k : Z) :
  Z.abs (2 * k * b - 2 * a) < b
  \/ (Z.abs (2 * k * b - 2 * a) = b /\ Z.even k = true) ->
  rne a b = k.
Proof.
  intros Hk. pose proof rne_cases as Hr. simpl in Hr.
  set (r := rne a b) in *.
  destruct (Z.eq_dec r k) as [|Hne]; [assumption|exfalso].
  assert (Z.abs (r - k) >= 1) as Hd by lia.
  destruct Hk as [Hk|[Hk Hke]], Hr as [Hr|[Hr Hre]]; try nia.
  assert (Z.abs (r - k) = 1) as H1 by nia.
  assert (Z.even (r - k) = true) as He.
  { rewrite Z.even_sub, Hre, Hke. reflexivity. }
  destruct (Z.abs_spec (r - k)) as [[_ Habs]|[_ Habs]].
  - rewrite Habs in H1. rewrite H1 in He. discriminate.
  - assert (r - k = -1) as H2 by lia. rewrite H2 in He. discriminate.
Qed.

Lemma rne_nearest (k : Z) :
  Z.abs (rne a b * b - a) <= Z.abs (k * b - a).
Proof.
  pose proof rne_cases as Hr. simpl in Hr. set (r := rne a b) in *.
  destruct (Z.eq_dec r k) as [->|Hne]; [lia|].
  assert (Z.abs (r - k) >= 1) as Hd by lia.
  destruct Hr as [Hr|[Hr _]]; nia.
Qed.

Lemma rne_nonneg : 0 <= rne a b.
Proof.
  unfold rne. pose proof (Z.div_pos a b Ha Hb).
  destruct (Z.compare _ _); [destruct (Z.even _)| |]; lia.
Qed.

Lemma rne_lower (k : Z) : k * b <= a -> k <= rne a b.
Proof.
  intros Hk. unfold rne.
  assert (k <= a / b) by (apply Z.div_le_lower_bound; lia).
  destruct (Z.compare _ _); [destruct (Z.even _)| |]; lia.
Qed.

End Rne.

Lemma rne_ratio (a b a' b' : Z) :
  0 <= a -> 0 < b -> 0 <= a' -> 0 < b' -> a * b' = a' * b ->
  rne a b = rne a' b'.
Proof.
  intros Ha Hb Ha' Hb' Heq. apply rne_unique; try assumption.
  pose proof (rne_cases a' b' Hb') as Hr. simpl in Hr.
  set (k := rne a' b') in *.
  assert (Z.abs (2 * k * b - 2 * a) * b' = b * Z.abs (2 * k * b' - 2 * a'))
    as Hscale.
  { rewrite <- (Z.abs_eq b') at 1 by lia. rewrite <- (Z.abs_eq b) at 2 by lia.
    rewrite <- !Z.abs_mul. f_equal. nia. }
  destruct Hr as [Hr|[Hr He]].
  - left. nia.
  - right. split; [nia|assumption].
Qed.

(** Printing [X / P] with the decimals that [T] stands for, reading the
    decimal number back as the nearest multiple of [TE / P] and printing it
    again. The multiples of [TE / P] include [X / P], or all of them up to
    one that is at most the decimal number and at least [X / P]. *)
Section Reprint.

Variables P T X TE : Z.
Hypothesis HP : 0 < P.
Hypothesis HT : 0 < T.
Hypothesis HX : 0 <= X.
Hypothesis HTE : 0 < TE.
Hypothesis Hgrid :
  (exists k, X = k * TE)
  \/ (exists k, k * TE * T <= rne (X * T) P * P /\ X <= k * TE).

Lemma reprint_facts :
  let N := rne (X * T) P in
  let q := rne (N * P) (T * TE) in
  rne (q * TE * T) P = N /\ q * TE <= X + P /\ (0 < N -> 0 < q).
Proof.
  intros N q. fold N in Hgrid.
  assert (0 <= N) as HN by (apply rne_nonneg; nia).
  assert (0 <= q) as Hq by (apply rne_nonneg; nia).
  pose proof (rne_cases (X * T) P HP) as Hx. simpl in Hx. fold N in Hx.
  assert (Z.abs (q * TE * T - N * P) <= Z.abs (X * T - N * P)) as Hc.
  { pose proof (rne_nearest (N * P) (T * TE) ltac:(nia)) as Hnear.
    fold q in Hnear.
    replace (q * TE * T - N * P) with (q * (T * TE) - N * P) by ring.
    destruct Hgrid as [[k Hk]|[k [Hk1 Hk2]]]; specialize (Hnear k).
    - rewrite Hk.
      replace (k * TE * T - N * P) with (k * (T * TE) - N * P) by ring.
      exact Hnear.
    - nia. }
  split; [|split].
  - apply rne_unique; [assumption|].
    replace (2 * N * P - 2 * (q * TE * T)) with (- (2 * (q * TE * T - N * P)))
      by ring.
    replace (2 * N * P - 2 * (X * T)) with (- (2 * (X * T - N * P))) in Hx
      by ring.
    rewrite Z.abs_opp in *. rewrite Z.abs_mul in *.
    change (Z.abs 2) with 2 in *.
    destruct Hx as [Hx|[Hx He]].
    + left. lia.
    + destruct (Z.eq_dec (2 * Z.abs (q * TE * T - N * P)) P) as [Heq|Hne].
      * right. split; assumption.
      * left. lia.
  - nia.
  - intros HNpos. destruct (Z.eq_dec q 0) as [Hz|]; [|lia]. exfalso.
    rewrite Hz in Hc. nia.
Qed.

End Reprint.

(** ** The exponent range of binary64 *)

Lemma grid_pos : 0 < grid.
Proof. unfold grid. apply Z.pow_pos_nonneg; lia. Qed.

Lemma pow2_pos (e : Z) : 0 <= e -> 0 < 2 ^ e.
Proof. intros. apply Z.pow_pos_nonneg; lia. Qed.

Lemma pow2_grid (e : Z) : 0 <= e -> 2 ^ (e + 1074) = 2 ^ e * grid.
Proof. intros. unfold grid. rewrite Z.pow_add_r by lia. reflexivity. Qed.

Lemma pow2_grid_neg (e : Z) :
  lowest <= e -> e < 0 -> 2 ^ (- e) * 2 ^ (e + 1074) = grid.
Proof.
  unfold lowest, grid. intros. rewrite <- Z.pow_add_r by lia. f_equal. lia.
Qed.

(** [scale2 a b e] is the fraction [a * grid / (b * 2 ^ (e + 1074))]. *)
Lemma scale2_grid (a b e : Z) :
  lowest <= e ->
  fst (scale2 a b e) * (b * 2 ^ (e + 1074)) = a * grid * snd (scale2 a b e).
Proof.
  intros He. unfold scale2. destruct (Z.leb_spec 0 e) as [H0|H0]; simpl.
  - rewrite pow2_grid by lia. ring.
  - rewrite <- (pow2_grid_neg e) by lia. ring.
Qed.

Lemma scale2_nonneg (a b e : Z) : 0 <= a -> 0 <= fst (scale2 a b e).
Proof.
  intros Ha. unfold scale2. destruct (Z.leb_spec 0 e); simpl; [lia|].
  pose proof (pow2_pos (- e) ltac:(lia)). nia.
Qed.

Lemma scale2_pos (a b e : Z) : 0 < b -> 0 < snd (scale2 a b e).
Proof.
  intros Hb. unfold scale2. destruct (Z.leb_spec 0 e); simpl; [|lia].
  pose proof (pow2_pos e ltac:(lia)). nia.
Qed.

Lemma rne_scale2 (a b e : Z) :
  0 <= a -> 0 < b -> lowest <= e ->
  rne (fst (scale2 a b e)) (snd (scale2 a b e))
  = rne (a * grid) (b * 2 ^ (e + 1074)).
Proof.
  intros Ha Hb He. pose proof grid_pos.
  pose proof (pow2_pos (e + 1074) ltac:(unfold lowest in He; lia)).
  apply rne_ratio.
  - by apply scale2_nonneg.
  - by apply scale2_pos.
  - nia.
  - nia.
  - rewrite scale2_grid by done. ring.
Qed.

(** [scale2 a 1 (- e)] is the fraction [a * 2 ^ (e + 1074) / grid]. *)
Lemma rne_scale2_opp (a e : Z) :
  0 <= a -> lowest <= e ->
  rne (fst (scale2 a 1 (- e))) (snd (scale2 a 1 (- e)))
  = rne (a * 2 ^ (e + 1074)) grid.
Proof.
  intros Ha He. pose proof grid_pos.
  pose proof (pow2_pos (e + 1074) ltac:(unfold lowest in He; lia)).
  apply rne_ratio.
  - by apply scale2_nonneg.
  - by apply scale2_pos.
  - nia.
  - done.
  - unfold scale2. destruct (Z.leb_spec 0 (- e)); simpl.
    + replace (- e) with (- e + 0) at 1 by lia.
      assert (2 ^ (- e) * 2 ^ (e + 1074) = grid) as <-.
      { unfold grid. rewrite <- Z.pow_add_r by (unfold lowest in He; lia).
        f_equal. lia. }
      replace (- e + 0) with (- e) by lia. ring.
    + rewrite Z.opp_involutive. rewrite pow2_grid by lia. ring.
Qed.

(** The exponent that [round_ratio] chooses keeps at least 53 bits of the
    quotient, unless it is the lowest one. *)
Lemma log2_bounds (n : positive) :
  2 ^ Z.log2 (Zpos n) <= Zpos n < 2 ^ (Z.log2 (Zpos n) + 1).
Proof.
  pose proof (Z.log2_spec (Zpos n) ltac:(lia)) as H.
  replace (Z.succ (Z.log2 (Zpos n))) with (Z.log2 (Zpos n) + 1) in H by lia.
  exact H.
Qed.

Lemma enough_bits (num den : positive) (e : Z) :
  e = Z.log2 (Zpos num) - Z.log2 (Zpos den) - 53 ->
  2 ^ 52 * snd (scale2 (Zpos num) (Zpos den) e)
  <= fst (scale2 (Zpos num) (Zpos den) e).
Proof.
  intros He. pose proof (log2_bounds num) as Hn.
  pose proof (log2_bounds den) as Hd.
  pose proof (Z.log2_nonneg (Zpos num)) as Hln.
  pose proof (Z.log2_nonneg (Zpos den)) as Hld.
  set (ln := Z.log2 (Zpos num)) in *. set (ld := Z.log2 (Zpos den)) in *.
  unfold scale2. destruct (Z.leb_spec 0 e) as [H0|H0]; simpl.
  - (* den * 2 ^ (52 + e) < 2 ^ ln *)
    assert (2 ^ 52 * 2 ^ e * 2 ^ (ld + 1) = 2 ^ ln) as Hpow.
    { rewrite <- !Z.pow_add_r by lia. f_equal. lia. }
    pose proof (pow2_pos e H0). pose proof (pow2_pos (ld + 1) ltac:(lia)).
    assert (0 < 2 ^ 52) by (apply pow2_pos; lia).
    nia.
  - assert (2 ^ ln * 2 ^ (- e) = 2 ^ 52 * 2 ^ (ld + 1)) as Hpow.
    { rewrite <- !Z.pow_add_r by lia. f_equal. lia. }
    pose proof (pow2_pos (- e) ltac:(lia)).
    assert (0 < 2 ^ 52) by (apply pow2_pos; lia).
    nia.
Qed.

(** What [round_ratio] computes, in units of the least positive float. *)
Lemma round_ratio_spec (s : bool) (num den : positive) :
  exists E q,
    0 <= E
    /\ q = rne (Zpos num * grid) (Zpos den * 2 ^ E)
    /\ (0 < E -> 2 ^ 52 * (Zpos den * 2 ^ E) <= Zpos num * grid)
    /\ round_ratio s num den
       = match (if q =? 2 ^ 53 then 2 ^ 52 else q) with
         | Zpos p =>
             if 971 <? (if q =? 2 ^ 53 then E + 1 else E) - 1074
             then S754_infinity s
             else S754_finite s p ((if q =? 2 ^ 53 then E + 1 else E) - 1074)
         | _ => S754_zero s
         end.
Proof.
  unfold round_ratio.
  change (Float.prec - 1) with 52. change Float.prec with 53.
  change (emin 53 Float.emax) with lowest. change (Float.emax - 53) with 971.
  set (e1 := Z.log2 (Zpos num) - Z.log2 (Zpos den) - 52).
  pose proof (enough_bits num den (e1 - 1) ltac:(unfold e1; lia)) as Hbits.
  destruct (scale2 (Zpos num) (Zpos den) e1) as [a1 b1] eqn:Hs1.
  set (e2 := if 2 ^ 52 * b1 <=? a1 then e1 else e1 - 1).
  assert (2 ^ 52 * snd (scale2 (Zpos num) (Zpos den) e2)
          <= fst (scale2 (Zpos num) (Zpos den) e2)) as Hbits2.
  { unfold e2. destruct (Z.leb_spec (2 ^ 52 * b1) a1) as [Hle|Hgt].
    - rewrite Hs1. exact Hle.
    - exact Hbits. }
  clearbody e2. clear Hbits Hs1.
  set (e := Z.max e2 lowest).
  assert (lowest <= e) as He by (unfold e; lia).
  pose proof (rne_scale2 (Zpos num) (Zpos den) e ltac:(lia) ltac:(lia) He)
    as Hq.
  pose proof (scale2_grid (Zpos num) (Zpos den) e He) as Hgrid.
  pose proof (scale2_pos (Zpos num) (Zpos den) e ltac:(lia)) as Hpos.
  assert (lowest < e -> e = e2) as Hnormal by (unfold e; lia).
  destruct (scale2 (Zpos num) (Zpos den) e) as [a b] eqn:Hs. simpl in *.
  exists (e + 1074), (rne a b).
  pose proof (pow2_pos (e + 1074) ltac:(unfold lowest in He; lia)) as HE.
  split; [unfold lowest in He; lia|]. split; [exact Hq|]. split.
  - intros Hlow. rewrite (Hnormal ltac:(unfold lowest; lia)) in Hs.
    rewrite Hs in Hbits2. simpl in Hbits2.
    assert (0 < 2 ^ 52) by (apply pow2_pos; lia).
    nia.
  - destruct (rne a b =? 2 ^ 53).
    + replace (e + 1074 + 1 - 1074) with (e + 1) by lia. reflexivity.
    + replace (e + 1074 - 1074) with e by lia. reflexivity.
Qed.

(** ** Printing a float and reading it back *)

Lemma pow10_pos (d : nat) : 0 < 10 ^ Z.of_nat d.
Proof. apply Z.pow_pos_nonneg; lia. Qed.

Lemma fixed_count_grid (d : nat) (m : positive) (e : Z) :
  lowest <= e ->
  fixed_count d m e = rne (Zpos m * 2 ^ (e + 1074) * 10 ^ Z.of_nat d) grid.
Proof.
  intros He. unfold fixed_count. pose proof (pow10_pos d).
  rewrite rne_scale2_opp by (try done; nia). f_equal. ring.
Qed.

Lemma decimal_to_float_ratio (s : bool) (n : positive) (d : nat) :
  decimal_to_float s (Zpos n) (- Z.of_nat d)
  = round_ratio s n (Z.to_pos (10 ^ Z.of_nat d)).
Proof.
  unfold decimal_to_float. destruct d as [|d'].
  - simpl. rewrite Pos.mul_1_r. reflexivity.
  - destruct (Z.leb_spec 0 (- Z.of_nat (S d'))) as [H|H]; [lia|].
    rewrite Z.opp_involutive. reflexivity.
Qed.

(** The arithmetic of the range, with [B] for [2 ^ 52], [A] for the weight
    of the greatest exponent, [G] for [grid], [PX] and [TE] for the weights
    of the exponents of the float and of the float read back. *)
Section Range.

Variables B A G m PX q TE : Z.
Hypothesis HB : 0 < B.
Hypothesis HG : 0 < G < A.
Hypothesis HPX : 0 < PX <= A.
Hypothesis Hm : 0 < m < 2 * B.
Hypothesis HTE : 0 < TE.
Hypothesis Hbound : q * TE <= m * PX + G.

Lemma below_top : m * PX + G < 2 * B * A.
Proof using HB HG HPX Hm.
  assert (m * PX <= (2 * B - 1) * A) as H by (apply Z.mul_le_mono_nonneg; lia).
  replace ((2 * B - 1) * A) with (2 * B * A - A) in H by ring. lia.
Qed.

Lemma carry_in_range : q = 2 * B -> TE < A.
Proof using HB HG HPX Hm HTE Hbound.
  intros Hq. destruct (Z.lt_ge_cases TE A) as [|Hbig]; [done|exfalso].
  pose proof below_top as Htop.
  assert (2 * B * A <= q * TE) as H.
  { rewrite Hq. apply Z.mul_le_mono_nonneg_l; lia. }
  lia.
Qed.

Lemma no_carry_in_range : B <= q -> TE < 2 * A.
Proof using HB HG HPX Hm HTE Hbound.
  intros Hq. destruct (Z.lt_ge_cases TE (2 * A)) as [|Hbig]; [done|exfalso].
  pose proof below_top as Htop.
  assert (B * (2 * A) <= q * TE) as H
      by (apply Z.mul_le_mono_nonneg; lia).
  replace (B * (2 * A)) with (2 * B * A) in H by ring. lia.
Qed.

(** A float below [B * TE], when its exponent is below that of [TE]. *)
Lemma below_grid_point : 2 * PX <= TE -> m * PX <= B * TE.
Proof using HB HPX Hm HTE.
  intros Hpow.
  assert (m * PX <= 2 * B * PX) as H1
      by (apply Z.mul_le_mono_nonneg_r; lia).
  assert (B * (2 * PX) <= B * TE) as H2
      by (apply Z.mul_le_mono_nonneg_l; lia).
  replace (B * (2 * PX)) with (2 * B * PX) in H2 by ring. lia.
Qed.

End Range.

Lemma pow2_53 : 2 ^ 53 = 2 * 2 ^ 52.
Proof. exact (Z.pow_succ_r 2 52 ltac:(lia)). Qed.

Lemma pow2_lt (a b : Z) : 0 <= b -> 2 ^ a < 2 ^ b -> a < b.
Proof. intros Hb H. apply (Z.pow_lt_mono_r_iff 2); lia. Qed.

Lemma pow2_double (a : Z) : 0 <= a -> 2 * 2 ^ a = 2 ^ (a + 1).
Proof. intros Ha. rewrite Z.pow_add_r by lia. change (2 ^ 1) with 2. ring. Qed.

Lemma reread_finite (s : bool) (m : positive) (e : Z) (d : nat) (n : positive) :
  Zpos m < 2 ^ 53 -> lowest <= e <= 971 ->
  fixed_count d m e = Zpos n ->
  exists mw ew,
    decimal_to_float s (Zpos n) (- Z.of_nat d) = S754_finite s mw ew
    /\ lowest <= ew
    /\ fixed_count d mw ew = Zpos n.
Proof.
  intros Hm He Hn. rewrite decimal_to_float_ratio.
  pose proof (pow10_pos d) as HT. set (T := 10 ^ Z.of_nat d) in *.
  destruct (round_ratio_spec s n (Z.to_pos T)) as (E & q & HE & Hq & Hlow & ->).
  rewrite Z2Pos.id in Hq, Hlow by done.
  rewrite fixed_count_grid in Hn by lia. fold T in Hn.
  assert (0 <= e + 1074 <= 2045) as HEX by (unfold lowest in He; lia).
  pose proof grid_pos as HP.
  pose proof (pow2_pos E HE) as HTE.
  pose proof (pow2_pos (e + 1074) ltac:(lia)) as HPX.
  pose proof (pow2_pos 52 ltac:(lia)) as HB.
  assert (grid < 2 ^ 2045) as HPA by (apply Z.pow_lt_mono_r; lia).
  assert (2 ^ (e + 1074) <= 2 ^ 2045) as HXA by (apply Z.pow_le_mono_r; lia).
  rewrite pow2_53 in Hm.
  assert (0 < Zpos m) as Hmpos by lia.
  pose proof (below_grid_point (2 ^ 52) (2 ^ 2045) (Zpos m) (2 ^ (e + 1074))
                (2 ^ E) HB (conj HPX HXA) (conj Hmpos Hm) HTE) as Hbelow.
  assert ((exists k, Zpos m * 2 ^ (e + 1074) = k * 2 ^ E)
          \/ (exists k, k * 2 ^ E * T
                        <= rne (Zpos m * 2 ^ (e + 1074) * T) grid * grid
                        /\ Zpos m * 2 ^ (e + 1074) <= k * 2 ^ E)) as Hgrid.
  { destruct (Z.le_gt_cases E (e + 1074)) as [Hle|Hgt].
    - left. exists (Zpos m * 2 ^ (e + 1074 - E)).
      rewrite <- Z.mul_assoc, <- Z.pow_add_r by lia. do 2 f_equal. lia.
    - right. exists (2 ^ 52). rewrite Hn. split.
      + specialize (Hlow ltac:(lia)).
        replace (2 ^ 52 * 2 ^ E * T) with (2 ^ 52 * (T * 2 ^ E)) by ring.
        exact Hlow.
      + apply Hbelow. rewrite pow2_double by lia.
        apply Z.pow_le_mono_r; lia. }
  assert (0 <= Zpos m * 2 ^ (e + 1074)) as HX
      by (apply Z.mul_nonneg_nonneg; lia).
  destruct (reprint_facts grid T (Zpos m * 2 ^ (e + 1074)) (2 ^ E)
              HP HT HX HTE Hgrid) as (Hsame & Hbound & Hqpos).
  rewrite Hn in Hsame, Hbound, Hqpos. rewrite <- Hq in Hsame, Hbound, Hqpos.
  specialize (Hqpos ltac:(lia)).
  rewrite pow2_53.
  destruct (Z.eqb_spec q (2 * 2 ^ 52)) as [Hcarry|Hnocarry].
  - (* the rounded quotient has 54 bits *)
    pose proof (carry_in_range (2 ^ 52) (2 ^ 2045) grid (Zpos m)
                  (2 ^ (e + 1074)) q (2 ^ E) HB (conj HP HPA) (conj HPX HXA)
                  (conj Hmpos Hm) HTE Hbound Hcarry) as Hfit.
    apply pow2_lt in Hfit; [|lia].
    destruct (2 ^ 52) as [|b|b] eqn:Hb52; [lia| |lia].
    destruct (Z.ltb_spec 971 (E + 1 - 1074)) as [|_]; [lia|].
    eexists _, _. split; [reflexivity|]. split; [unfold lowest; lia|].
    rewrite fixed_count_grid by (unfold lowest; lia).
    rewrite <- Hsame. f_equal. rewrite Hcarry.
    replace (E + 1 - 1074 + 1074) with (E + 1) by lia.
    rewrite <- pow2_double by done. unfold T. ring.
  - destruct q as [|p|p]; [lia| |lia].
    assert (2 ^ 2045 * 2 <= 2 ^ E -> 2 ^ 52 <= Zpos p) as Hbits.
    { intros Hbig. rewrite Hq. apply rne_lower.
      - apply Z.mul_pos_pos; lia.
      - assert (0 < E) as HEpos.
        { destruct (Z.eq_dec E 0) as [->|]; [|lia]. exfalso.
          change (2 ^ 0) with 1 in Hbig.
          pose proof (pow2_pos 2045 ltac:(lia)). lia. }
        exact (Hlow HEpos). }
    assert (E <= 2045) as HE'.
    { destruct (Z.le_gt_cases E 2045) as [|Hbig]; [done|exfalso].
      assert (2 ^ 2045 * 2 <= 2 ^ E) as Hpow.
      { rewrite Z.mul_comm, pow2_double by lia. apply Z.pow_le_mono_r; lia. }
      pose proof (no_carry_in_range (2 ^ 52) (2 ^ 2045) grid (Zpos m)
                    (2 ^ (e + 1074)) (Zpos p) (2 ^ E) HB (conj HP HPA)
                    (conj HPX HXA) (conj Hmpos Hm) HTE Hbound (Hbits Hpow))
        as Hfit.
      lia. }
    destruct (Z.ltb_spec 971 (E - 1074)) as [|_]; [lia|].
    eexists _, _. split; [reflexivity|]. split; [unfold lowest; lia|].
    rewrite fixed_count_grid by (unfold lowest; lia).
    rewrite <- Hsame. f_equal.
    replace (E - 1074 + 1074) with E by lia. reflexivity.
Qed.

(** ** Floats that the arithmetic produces are bounded *)

Lemma digits2_pos_bound (m : positive) : Zpos m < 2 ^ Zpos (digits2_pos m).
Proof.
  induction m as [p IH|p IH|]; simpl digits2_pos.
  - rewrite Pos2Z.inj_succ, Z.pow_succ_r by lia. lia.
  - rewrite Pos2Z.inj_succ, Z.pow_succ_r by lia. lia.
  - reflexivity.
Qed.

Lemma Zdigits2_bound (m : Z) : 0 <= m -> m < 2 ^ Zdigits2 m.
Proof.
  destruct m as [|p|p]; simpl; intros H; [reflexivity| |lia].
  apply digits2_pos_bound.
Qed.

Lemma Zdigits2_nonneg (m : Z) : 0 <= Zdigits2 m.
Proof. destruct m; simpl; lia. Qed.

Lemma valid_bounded53 (x : float) :
  valid_binary Float.prec Float.emax x = true -> bounded53 x.
Proof.
  destruct x as [| | |s m e]; simpl; try done.
  unfold bounded, canonical_mantissa, fexp, SpecFloat.emin.
  change Float.prec with 53. change Float.emax with 1024.
  intros H. apply andb_true_iff in H as [Hc He].
  apply Z.eqb_eq in Hc. apply Z.leb_le in He.
  pose proof (digits2_pos_bound m) as Hm.
  assert (Zpos (digits2_pos m) <= 53) as Hd by lia.
  split; [|unfold lowest; lia].
  eapply Z.lt_le_trans; [exact Hm|]. apply Z.pow_le_mono_r; lia.
Qed.

Lemma shr_1_m (mrs : shr_record) :
  0 <= shr_m mrs -> shr_m (shr_1 mrs) = shr_m mrs / 2.
Proof.
  destruct mrs as [m r s]. simpl. intros Hm.
  destruct m as [|[p|p|]|p]; simpl; try lia; try reflexivity.
  - rewrite Pos2Z.inj_xI. apply Z.div_unique with 1; lia.
  - rewrite Pos2Z.inj_xO. apply Z.div_unique with 0; lia.
Qed.

Lemma pow2_xO (p : positive) : 2 ^ Zpos p~0 = 2 ^ Zpos p * 2 ^ Zpos p.
Proof. rewrite <- Z.pow_add_r by lia. f_equal. lia. Qed.

Lemma pow2_xI (p : positive) : 2 ^ Zpos p~1 = 2 * (2 ^ Zpos p * 2 ^ Zpos p).
Proof.
  replace (Zpos p~1) with (1 + (Zpos p + Zpos p)) by lia.
  rewrite !Z.pow_add_r by lia. reflexivity.
Qed.

Lemma iter_pos_shr_1_m (p : positive) (mrs : shr_record) :
  0 <= shr_m mrs ->
  shr_m (SpecFloat.iter_pos shr_1 p mrs) = shr_m mrs / 2 ^ Zpos p.
Proof.
  revert mrs. induction p as [p IH|p IH|]; intros mrs Hm;
    simpl SpecFloat.iter_pos.
  - assert (0 <= shr_m (shr_1 mrs)) as H1
        by (rewrite shr_1_m by done; apply Z.div_pos; lia).
    assert (0 <= shr_m (SpecFloat.iter_pos shr_1 p (shr_1 mrs))) as H2
        by (rewrite IH by done; apply Z.div_pos; [done|by apply pow2_pos]).
    rewrite IH, IH, shr_1_m by done.
    rewrite !Z.div_div by (try apply pow2_pos; lia).
    by rewrite pow2_xI.
  - assert (0 <= shr_m (SpecFloat.iter_pos shr_1 p mrs)) as H2
        by (rewrite IH by done; apply Z.div_pos; [done|by apply pow2_pos]).
    rewrite IH, IH by done.
    rewrite !Z.div_div by (try apply pow2_pos; lia).
    by rewrite pow2_xO.
  - rewrite shr_1_m by done. reflexivity.
Qed.

Lemma shr_record_of_loc_m (m : Z) (l : location) :
  shr_m (shr_record_of_loc m l) = m.
Proof. destruct l as [|[]]; reflexivity. Qed.

Lemma shr_fexp_bounded (m e : Z) (l : location) :
  0 <= m ->
  0 <= shr_m (fst (shr_fexp Float.prec Float.emax m e l)) < 2 ^ 53
  /\ lowest <= snd (shr_fexp Float.prec Float.emax m e l).
Proof.
  intros Hm. unfold shr_fexp, shr, fexp, SpecFloat.emin.
  change Float.prec with 53. change Float.emax with 1024.
  pose proof (Zdigits2_bound m Hm) as Hd.
  pose proof (Zdigits2_nonneg m) as Hd0.
  set (n := Z.max (Zdigits2 m + e - 53) (3 - 1024 - 53) - e).
  assert (Zdigits2 m <= n + 53) as Hn by (unfold n; lia).
  destruct n as [|p|p] eqn:Hp; simpl; rewrite ?shr_record_of_loc_m.
  - split; [|unfold lowest; lia]. split; [done|].
    eapply Z.lt_le_trans; [exact Hd|]. apply Z.pow_le_mono_r; lia.
  - rewrite iter_pos_shr_1_m by (by rewrite shr_record_of_loc_m).
    rewrite shr_record_of_loc_m. split; [|unfold lowest; lia]. split.
    + apply Z.div_pos; [done|by apply pow2_pos].
    + apply Z.div_lt_upper_bound; [by apply pow2_pos|].
      rewrite <- Z.pow_add_r by lia.
      eapply Z.lt_le_trans; [exact Hd|]. apply Z.pow_le_mono_r; lia.
  - split; [|unfold lowest; lia]. split; [done|].
    eapply Z.lt_le_trans; [exact Hd|]. apply Z.pow_le_mono_r; lia.
Qed.

Lemma round_nearest_even_nonneg (m : Z) (l : location) :
  0 <= m -> 0 <= round_nearest_even m l.
Proof.
  intros Hm. destruct l as [|[]]; simpl; try lia.
  destruct (Z.even m); lia.
Qed.

Lemma binary_round_aux_bounded (s : bool) (m e : Z) (l : location) :
  0 <= m -> bounded53 (binary_round_aux Float.prec Float.emax s m e l).
Proof.
  intros Hm. unfold binary_round_aux.
  pose proof (shr_fexp_bounded m e l Hm) as [[H1 _] _].
  destruct (shr_fexp Float.prec Float.emax m e l) as [mrs' e']. simpl in H1.
  pose proof (shr_fexp_bounded
                (round_nearest_even (shr_m mrs') (loc_of_shr_record mrs'))
                e' loc_Exact
                (round_nearest_even_nonneg _ _ H1)) as [[_ H2] H3].
  destruct (shr_fexp Float.prec Float.emax _ e' loc_Exact) as [mrs'' e''].
  simpl in H2, H3.
  destruct (shr_m mrs'') as [|p|p]; simpl; try done.
  change (Float.emax - Float.prec) with 971.
  destruct (Z.leb_spec e'' 971); simpl; [|done]. lia.
Qed.

Lemma div_bounded (x y : float) : bounded53 (Float.div x y).
Proof.
  unfold Float.div.
  destruct x as [sx|sx| |sx mx ex], y as [sy|sy| |sy my ey]; simpl; try done.
  unfold SFdiv_core_binary.
  set (m' := match _ with Z0 => _ | Zpos _ => _ | Zneg _ => _ end).
  assert (0 <= m') as Hm'.
  { unfold m'. destruct (_ - _ - _) as [|p|p]; try lia.
    rewrite Z.shiftl_mul_pow2 by lia. pose proof (pow2_pos (Zpos p)). nia. }
  pose proof (Z_div_mod m' (Zpos my) ltac:(lia)) as Hdiv.
  destruct (Z.div_eucl m' (Zpos my)) as [q r].
  apply binary_round_aux_bounded. nia.
Qed.

(** ** Decimal digits *)

Lemma digit_char_digit (v : Z) :
  0 <= v <= 9 -> is_digit (digit_char v) = true /\ digit_value (digit_char v) = v.
Proof.
  intros Hv.
  assert (v = 0 \/ v = 1 \/ v = 2 \/ v = 3 \/ v = 4 \/ v = 5 \/ v = 6
          \/ v = 7 \/ v = 8 \/ v = 9) as Hcases by lia.
  repeat (destruct Hcases as [->|Hcases]; [split; reflexivity|]).
  subst v. split; reflexivity.
Qed.

Lemma digits_value_from (ds : list ascii) (k : Z) :
  fold_left (fun acc c => 10 * acc + digit_value c) ds k
  = k * 10 ^ Z.of_nat (length ds) + digits_value ds.
Proof.
  unfold digits_value. revert k. induction ds as [|c ds IH]; intros k.
  - simpl. lia.
  - simpl fold_left. rewrite (IH (10 * k + digit_value c)), (IH (10 * 0 + _)).
    simpl length. rewrite Nat2Z.inj_succ, Z.pow_succ_r by lia. ring.
Qed.

Lemma digits_value_app (l1 l2 : list ascii) :
  digits_value (l1 ++ l2)
  = digits_value l1 * 10 ^ Z.of_nat (length l2) + digits_value l2.
Proof.
  unfold digits_value at 1. rewrite fold_left_app.
  rewrite digits_value_from. reflexivity.
Qed.

Lemma digits_value_zeros (k : nat) (l : list ascii) :
  digits_value (repeat "0"%char k ++ l) = digits_value l.
Proof.
  induction k as [|k IH]; [done|].
  simpl repeat. change (("0"%char :: repeat "0"%char k) ++ l)
    with (["0"%char] ++ (repeat "0"%char k ++ l)).
  rewrite digits_value_app, IH. reflexivity.
Qed.

Lemma digits_onto_spec (fuel : nat) (n : Z) (acc : list ascii) :
  0 <= n < 2 ^ Z.of_nat fuel -> (0 < fuel)%nat ->
  exists ds,
    digits_onto fuel n acc = ds ++ acc
    /\ Forall (fun c => is_digit c = true) ds
    /\ ds ≠ []
    /\ digits_value ds = n.
Proof.
  revert n acc. induction fuel as [|fuel IH]; intros n acc Hn Hfuel; [lia|].
  simpl digits_onto.
  pose proof (Z.mod_pos_bound n 10 ltac:(lia)) as Hmod.
  pose proof (Z.div_mod n 10 ltac:(lia)) as Hdiv.
  destruct (digit_char_digit (n mod 10) ltac:(lia)) as [Hd Hv].
  destruct (Z.eqb_spec (n / 10) 0) as [Hz|Hnz].
  - exists [digit_char (n mod 10)]. split; [done|]. split; [by constructor|].
    split; [done|]. unfold digits_value. simpl. lia.
  - assert (0 < n / 10) as Hq by (pose proof (Z.div_pos n 10); lia).
    rewrite Nat2Z.inj_succ, Z.pow_succ_r in Hn by lia.
    assert (n / 10 < 2 ^ Z.of_nat fuel) as Hlt
        by (apply Z.div_lt_upper_bound; lia).
    assert (0 < fuel)%nat as Hfuel'.
    { destruct fuel; [|lia]. simpl in Hlt. lia. }
    destruct (IH (n / 10) (digit_char (n mod 10) :: acc) ltac:(lia) Hfuel')
      as (ds & Heq & Hall & Hne & Hval).
    exists (ds ++ [digit_char (n mod 10)]). split; [|split; [|split]].
    + rewrite Heq, <- app_assoc. reflexivity.
    + apply Forall_app. split; [done|by constructor].
    + by destruct ds.
    + rewrite digits_value_app, Hval. unfold digits_value at 1. simpl.
      lia.
Qed.

Lemma digits_of_spec (n : Z) :
  0 <= n ->
  Forall (fun c => is_digit c = true) (digits_of n)
  /\ digits_of n ≠ [] /\ digits_value (digits_of n) = n.
Proof.
  intros Hn. unfold digits_of.
  destruct (digits_onto_spec (S (Z.to_nat (Z.log2 n))) n []) as
    (ds & Heq & Hall & Hne & Hval); [|lia|].
  - split; [done|]. rewrite Nat2Z.inj_succ, Z2Nat.id by apply Z.log2_nonneg.
    destruct (Z.eq_dec n 0) as [->|Hpos]; [done|].
    apply Z.log2_spec. lia.
  - rewrite Heq, app_nil_r. done.
Qed.

(** The digits of [fixed_digits]: an integer part that is not empty and,
    after a point, [d] decimals. *)
Lemma fixed_digits_spec (d : nat) (n : Z) :
  0 <= n ->
  exists ip fp,
    fixed_digits d n
    = ip ++ (match d with O => [] | S _ => "."%char :: fp end)
    /\ Forall (fun c => is_digit c = true) ip
    /\ Forall (fun c => is_digit c = true) fp
    /\ ip ≠ [] /\ length fp = d /\ digits_value (ip ++ fp) = n.
Proof.
  intros Hn. unfold fixed_digits.
  destruct (digits_of_spec n Hn) as (Hall & Hne & Hval).
  set (ds := repeat "0"%char (S d - length (digits_of n)) ++ digits_of n).
  assert (Forall (fun c => is_digit c = true) ds) as Hds.
  { apply Forall_app. split; [|done]. apply Forall_forall.
    intros c Hc. apply list_elem_of_In, repeat_spec in Hc. by subst c. }
  assert (digits_value ds = n) as Hdv by (unfold ds; by rewrite digits_value_zeros).
  assert (S d <= length ds)%nat as Hlen.
  { unfold ds. rewrite length_app, repeat_length. lia. }
  exists (firstn (length ds - d) ds), (skipn (length ds - d) ds).
  split; [|split; [|split; [|split; [|split]]]].
  - destruct d as [|d']; [|reflexivity].
    rewrite Nat.sub_0_r, firstn_all, app_nil_r. reflexivity.
  - by apply Forall_take.
  - by apply Forall_drop.
  - intros Hnil. apply (f_equal (@length ascii)) in Hnil.
    rewrite length_firstn in Hnil. simpl in Hnil. lia.
  - rewrite length_skipn. lia.
  - rewrite firstn_skipn. exact Hdv.
Qed.

(** ** Reading back what [format_fixed] prints *)

Lemma plain_facts (c : ascii) :
  plain c = true ->
  Ascii.eqb c "_" = false /\ float_space c = false /\ lower c = c.
Proof.
  destruct c as [[] [] [] [] [] [] [] []]; vm_compute; intros H;
    try discriminate H; repeat split.
Qed.

Lemma digit_facts (c : ascii) :
  is_digit c = true ->
  plain c = true
  /\ Ascii.eqb c "." = false /\ Ascii.eqb c "i" = false
  /\ Ascii.eqb c "n" = false
  /\ forall l, split_sign (c :: l) = (false, c :: l).
Proof.
  destruct c as [[] [] [] [] [] [] [] []]; vm_compute; intros H;
    try discriminate H; repeat split.
Qed.

Lemma strip_underscores_plain (l : list ascii) (prev : option ascii) :
  Forall (fun c => plain c = true) l ->
  prev ≠ Some "_"%char ->
  strip_underscores prev l = Some l.
Proof.
  intros Hall. revert prev. induction Hall as [|c l Hc Hall IH]; intros prev Hp.
  - simpl. destruct prev as [p|]; [|done].
    destruct p as [[] [] [] [] [] [] [] []]; try done.
  - simpl. destruct (plain_facts c Hc) as (Hu & _ & _). rewrite Hu.
    assert (strip_underscores (Some c) l = Some l) as ->.
    { apply IH. intros [= ->]. done. }
    destruct prev as [p|]; [|done].
    destruct p as [[] [] [] [] [] [] [] []]; try done.
Qed.

Lemma drop_while_plain (l : list ascii) :
  Forall (fun c => plain c = true) l -> drop_while float_space l = l.
Proof.
  destruct 1 as [|c l Hc _]; [done|]. simpl.
  destruct (plain_facts c Hc) as (_ & -> & _). done.
Qed.

Lemma strip_plain (l : list ascii) :
  Forall (fun c => plain c = true) l -> strip l = l.
Proof.
  intros Hall. unfold strip. rewrite (drop_while_plain l Hall).
  rewrite drop_while_plain by (by apply Forall_rev).
  apply rev_involutive.
Qed.

Lemma map_lower_plain (l : list ascii) :
  Forall (fun c => plain c = true) l -> map lower l = l.
Proof.
  induction 1 as [|c l Hc _ IH]; [done|]. simpl.
  destruct (plain_facts c Hc) as (_ & _ & ->). by rewrite IH.
Qed.

Lemma take_while_digits (ds rest : list ascii) :
  Forall (fun c => is_digit c = true) ds ->
  match rest with [] => True | c :: _ => is_digit c = false end ->
  take_while is_digit (ds ++ rest) = ds
  /\ drop_while is_digit (ds ++ rest) = rest.
Proof.
  intros Hall Hrest. induction Hall as [|c ds Hc _ IH]; simpl.
  - destruct rest as [|c rest]; [done|]. simpl. by rewrite Hrest.
  - rewrite Hc. destruct IH as [-> ->]. done.
Qed.

Lemma digits_plain (ds : list ascii) :
  Forall (fun c => is_digit c = true) ds -> Forall (fun c => plain c = true) ds.
Proof.
  intros H. eapply Forall_impl; [exact H|].
  intros c Hc. by destruct (digit_facts c Hc).
Qed.

(** A printed number reads back as the decimal number that it shows. *)
Lemma float_of_str_fixed (s : bool) (d : nat) (n : Z) :
  0 <= n ->
  float_of_str
    (string_of_list_ascii
       ((if s then ["-"%char] else []) ++ fixed_digits d n))
  = Some (decimal_to_float s n (- Z.of_nat d)).
Proof.
  intros Hn.
  destruct (fixed_digits_spec d n Hn) as
    (ip & fp & -> & Hip & Hfp & Hne & Hlen & Hval).
  destruct ip as [|c ip]; [done|].
  assert (is_digit c = true) as Hc by (by inversion Hip).
  destruct (digit_facts c Hc) as (Hcp & Hdot & Hi & Hnn & Hsign).
  set (rest := match d with O => [] | S _ => "."%char :: fp end).
  set (body := (c :: ip) ++ rest).
  assert (Forall (fun c => plain c = true) body) as Hbody.
  { unfold body, rest. apply Forall_app. split; [by apply digits_plain|].
    destruct d; [done|]. constructor; [done|by apply digits_plain]. }
  assert (Forall (fun c => plain c = true)
            ((if s then ["-"%char] else []) ++ body)) as Hall.
  { apply Forall_app. split; [|done]. destruct s; [|done]. by constructor. }
  unfold float_of_str. rewrite list_ascii_of_string_of_list_ascii.
  rewrite strip_underscores_plain by done. simpl mbind.
  rewrite strip_plain by done.
  assert (split_sign ((if s then ["-"%char] else []) ++ body) = (s, body))
    as ->.
  { destruct s; [reflexivity|]. apply Hsign. }
  rewrite map_lower_plain by done.
  unfold body at 1 2 3. simpl string_of_list_ascii.
  assert (forall t, String.eqb (String c t) "inf" = false) as Hinf.
  { intros t. simpl. by rewrite Hi. }
  assert (forall t, String.eqb (String c t) "infinity" = false) as Hinfinity.
  { intros t. simpl. by rewrite Hi. }
  assert (forall t, String.eqb (String c t) "nan" = false) as Hnan.
  { intros t. simpl. by rewrite Hnn. }
  rewrite Hinf, Hinfinity, Hnan. simpl orb. cbv iota.
  unfold parse_number.
  destruct (take_while_digits (c :: ip) rest Hip) as [Htake Hdrop].
  { unfold rest. by destruct d. }
  change ((c :: ip) ++ rest) with body in Htake, Hdrop.
  rewrite Htake, Hdrop.
  unfold rest. destruct d as [|d'].
  - simpl in Hlen. destruct fp; [|done]. simpl app. cbv iota.
    simpl parse_exponent. simpl mbind.
    change (c :: ip ++ []) with ((c :: ip) ++ []). rewrite Hval.
    reflexivity.
  - destruct (take_while_digits fp [] Hfp I) as [Htake' Hdrop'].
    rewrite app_nil_r in Htake', Hdrop'. rewrite Htake', Hdrop'.
    simpl app. simpl parse_exponent. simpl mbind.
    cbv iota. change (c :: ip ++ fp) with ((c :: ip) ++ fp).
    rewrite Hval, Hlen. reflexivity.
Qed.

Lemma format_fixed_finite (d : nat) (s : bool) (m : positive) (e : Z) :
  format_fixed d (S754_finite s m e)
  = string_of_list_ascii
      ((if s then ["-"%char] else []) ++ fixed_digits d (fixed_count d m e)).
Proof.
  unfold format_fixed, fixed_count.
  by destruct (scale2 (Zpos m * 10 ^ Z.of_nat d) 1 (- e)).
Qed.

Lemma fixed_count_nonneg (d : nat) (m : positive) (e : Z) :
  0 <= fixed_count d m e.
Proof.
  unfold fixed_count. pose proof (pow10_pos d). apply rne_nonneg.
  - apply scale2_nonneg. nia.
  - apply scale2_pos. lia.
Qed.

(** A bounded float, printed with [d] decimals and read back, prints the
    same again. *)
Lemma format_fixed_reread (d : nat) (x : float) :
  bounded53 x ->
  exists w,
    float_of_str (format_fixed d x) = Some w
    /\ format_fixed d w = format_fixed d x.
Proof.
  intros Hx. destruct x as [s|s| |s m e].
  - exists (S754_zero s). split; [|done]. simpl format_fixed.
    by rewrite float_of_str_fixed.
  - exists (S754_infinity s). split; [|done]. by destruct s.
  - exists S754_nan. done.
  - destruct Hx as [Hm He]. rewrite format_fixed_finite.
    pose proof (fixed_count_nonneg d m e) as Hn.
    rewrite float_of_str_fixed by done.
    destruct (fixed_count d m e) as [|n|n] eqn:Hcount; [| |lia].
    + exists (S754_zero s). done.
    + destruct (reread_finite s m e d n Hm He Hcount)
        as (mw & ew & -> & _ & Hcount').
      eexists. split; [reflexivity|].
      by rewrite format_fixed_finite, Hcount'.
Qed.

Lemma format_value_rendered (value : float) (unit : string) :
  format_value value unit
  = (fst (rendered value unit) ++ snd (rendered value unit))%string.
Proof.
  unfold format_value, rendered.
  repeat (match goal with
          | |- context [if ?b then _ else _] => destruct b
          end); reflexivity.
Qed.

Lemma format_value_unscaled (w : float) (unit : string) :
  unscaled w unit = true ->
  format_value w unit = (format_fixed (decimals unit) w ++ unit)%string.
Proof.
  unfold unscaled, format_value, decimals.
  destruct (String.eqb_spec unit "ns") as [->|_].
  { intros H. apply andb_true_iff in H as [H H3].
    apply andb_true_iff in H as [H1 H2].
    apply negb_true_iff in H1, H2, H3. by rewrite H1, H2, H3. }
  destruct (String.eqb_spec unit "ms") as [->|_].
  { intros H. apply negb_true_iff in H. by rewrite H. }
  by destruct (String.eqb_spec unit "s") as [->|_].
Qed.

(** Unless it rescales to seconds, [format_value] prints a bounded float
    with the decimals of the unit that it prints. *)
Lemma rendered_shape (value : float) (unit : string) :
  bounded53 value ->
  rescaled_to_seconds value unit = false ->
  exists x,
    bounded53 x
    /\ fst (rendered value unit)
       = format_fixed (decimals (snd (rendered value unit))) x.
Proof.
  intros Hv. unfold rescaled_to_seconds, rendered.
  destruct (String.eqb_spec unit "ns") as [->|Hns].
  { destruct (Float.geb value (Float.of_Z 1000000000));
      cbn [andb orb fst snd]; [done|]. intros _.
    destruct (Float.geb value (Float.of_Z 1000000)); cbn [fst snd].
    { eexists. split; [apply div_bounded|reflexivity]. }
    destruct (Float.geb value (Float.of_Z 1000)); cbn [fst snd].
    { eexists. split; [apply div_bounded|reflexivity]. }
    exists value. split; [done|reflexivity]. }
  destruct (String.eqb_spec unit "ms") as [->|Hms].
  { destruct (Float.geb value (Float.of_Z 1000));
      cbn [andb orb fst snd]; [done|]. intros _.
    exists value. split; [done|reflexivity]. }
  intros _. destruct (String.eqb_spec unit "s") as [->|Hs].
  { exists value. split; [done|reflexivity]. }
  exists value. split; [done|]. cbn [fst snd]. unfold decimals.
  destruct (String.eqb_spec unit "ns"); [done|].
  destruct (String.eqb_spec unit "ms"); [done|].
  destruct (String.eqb_spec unit "s"); done.
Qed.

(** C9, as the code has it. When [format_value] does not rescale a value
    to seconds, the number that it prints reads back as a float, and
    formatting that float at the unit of the output gives the output again
    provided that this second formatting does not rescale. *)
Theorem reformat_stable (value : float) (unit : string) :
  valid_binary Float.prec Float.emax value = true ->
  rescaled_to_seconds value unit = false ->
  exists w,
    float_of_str (fst (rendered value unit)) = Some w
    /\ (unscaled w (snd (rendered value unit)) = true ->
        reformat value unit = Some (format_value value unit)).
Proof.
  intros Hvalid Hseconds.
  destruct (rendered_shape value unit (valid_bounded53 value Hvalid) Hseconds)
    as (x & Hx & Hshape).
  destruct (format_fixed_reread (decimals (snd (rendered value unit))) x Hx)
    as (w & Hread & Hsame).
  exists w. rewrite Hshape. split; [exact Hread|].
  intros Hw. unfold reformat. rewrite Hshape, Hread. simpl. f_equal.
  rewrite (format_value_unscaled w _ Hw), Hsame, <- Hshape.
  symmetry. apply format_value_rendered.
Qed.

Lemma reformat_stable_witness :
  exists w,
    float_of_str "1.50" = Some w
    /\ (unscaled w "us" = true ->
        reformat (Float.of_Z 1500) "ns"
        = Some (format_value (Float.of_Z 1500) "ns")).
Proof.
  apply (reformat_stable (Float.of_Z 1500) "ns"); vm_compute; reflexivity.
Defined.

(** C9 as stated fails. 1500 ms is printed as "1.50s", and 1.5 s is printed
    as "1.500s"; 999.6 ns is printed as "1000ns", and 1000 ns is printed as
    "1.00us". *)
Lemma reformat_drifts :
  Float.is_finite (Float.of_Z 1500) = true
  /\ format_value (Float.of_Z 1500) "ms" = "1.50s"
  /\ reformat (Float.of_Z 1500) "ms" = Some "1.500s"
  /\ Float.is_finite nearly_thousand = true
  /\ format_value nearly_thousand "ns" = "1000ns"
  /\ reformat nearly_thousand "ns" = Some "1.00us"
  /\ ¬ (forall value unit,
          Float.is_finite value = true ->
          reformat value unit = Some (format_value value unit)).
Proof.
  repeat (split; [vm_compute; reflexivity|]).
  intros H. specialize (H (Float.of_Z 1500) "ms" eq_refl).
  vm_compute in H. discriminate H.
Qed.
(** * Further properties of the parsers *)

(** ** The JSON file of the Swift results *)

Lemma swift_json_loop_spec items acc :
  NoDup items.*1 ->
  (forall n kvs, (n, PDict kvs) ∈ items ->
     returns (py_float (dict_get kvs "average_seconds" (PInt 0)))) ->
  exists res,
    swift_json_loop items acc = (res, None)
    ∧ forall n,
        res !! n
        = match dict_lookup items n with
          | Some (PDict kvs) =>
              match py_float (dict_get kvs "average_seconds" (PInt 0)) with
              | Ok x => Some (ms_measurement n x)
              | Raise _ => None
              end
          | _ => acc !! n
          end.
Proof.
  revert acc. induction items as [|[k info] items IH]; intros acc Hnd Hret.
  - exists acc. done.
  - apply NoDup_cons in Hnd as [Hk Hnd]. simpl.
    assert (forall n kvs, (n, PDict kvs) ∈ items ->
              returns (py_float (dict_get kvs "average_seconds" (PInt 0))))
      as Hret'.
    { intros n kvs Hin. apply (Hret n). by apply list_elem_of_further. }
    assert (forall acc' : results,
              (forall n, n ≠ k -> acc' !! n = acc !! n) ->
              (acc' !! k
               = match info with
                 | PDict kvs =>
                     match py_float
                             (dict_get kvs "average_seconds" (PInt 0)) with
                     | Ok x => Some (ms_measurement k x)
                     | Raise _ => None
                     end
                 | _ => acc !! k
                 end) ->
              exists res, swift_json_loop items acc' = (res, None)
                ∧ forall n,
                    res !! n
                    = match (if String.eqb k n then Some info
                             else dict_lookup items n) with
                      | Some (PDict kvs) =>
                          match py_float
                                  (dict_get kvs "average_seconds" (PInt 0)) with
                          | Ok x => Some (ms_measurement n x)
                          | Raise _ => None
                          end
                      | _ => acc !! n
                      end) as Hstep.
    { intros acc' Hother Hk'.
      destruct (IH acc' Hnd Hret') as (res & Hres & Hlook).
      exists res. split; [done|]. intros n. rewrite Hlook.
      destruct (String.eqb_spec k n) as [<-|Hne].
      - rewrite (dict_lookup_None items k Hk). rewrite Hk'.
        destruct info; done.
      - rewrite Hother by done. done. }
    destruct info as [| | | | | |kvs]; try (apply Hstep; done).
    destruct (Hret k kvs) as [x Hx]; [apply list_elem_of_here|].
    rewrite Hx. apply Hstep.
    + intros n Hne. by rewrite lookup_insert_ne.
    + rewrite lookup_insert_eq, Hx. reflexivity.
Qed.

(** X1. For a JSON file next to the text file whose "tests" is a dict,
    every entry that is a dict gives the measurement of its name with the
    value converted from the field "average_seconds" (0 when the entry has
    none) times 1000, in the unit "ms"; no other name gets a measurement,
    nothing is printed, and the text file plays no part. (The converted
    fields are supposed to convert.) *)
Theorem parse_swift_results_json_entries (top items : list (string * pyval))
    (text : option text_file) :
  dict_lookup top "tests" = Some (PDict items) ->
  NoDup items.*1 ->
  (forall name kvs, (name, PDict kvs) ∈ items ->
     returns (py_float (default (PInt 0) (dict_lookup kvs "average_seconds")))) ->
  exists res,
    parse_swift_results (Some (Json (PDict top))) text = (Ok res, [])
    ∧ (forall name kvs, (name, PDict kvs) ∈ items ->
         exists x,
           py_float (default (PInt 0) (dict_lookup kvs "average_seconds"))
           = Ok x
           ∧ res !! name
             = Some (BenchmarkResult.mk name (Float.mul x (Float.of_Z 1000))
                       (PStr "ms") PNone))
    ∧ (forall name, is_Some (res !! name) ->
         exists kvs, (name, PDict kvs) ∈ items).
Proof.
  intros Htop Hnd Hret.
  assert (forall n kvs, (n, PDict kvs) ∈ items ->
            returns (py_float (dict_get kvs "average_seconds" (PInt 0))))
    as Hret'.
  { intros n kvs Hin. rewrite dict_get_lookup. by apply (Hret n). }
  destruct (swift_json_loop_spec items ∅ Hnd Hret') as (res & Hres & Hlook).
  exists res. split; [|split].
  - unfold parse_swift_results, swift_json_try. simpl.
    rewrite dict_get_lookup, Htop. simpl. by rewrite Hres.
  - intros name kvs Hin. destruct (Hret name kvs Hin) as [x Hx].
    exists x. split; [exact Hx|].
    rewrite Hlook, (dict_lookup_elem items name _ Hnd Hin).
    rewrite dict_get_lookup, Hx. done.
  - intros name [r Hr]. rewrite Hlook in Hr.
    destruct (dict_lookup items name) as [info|] eqn:Hinfo.
    + destruct info as [| | | | | |kvs]; try (by rewrite lookup_empty in Hr).
      exists kvs. by apply dict_lookup_Some.
    + by rewrite lookup_empty in Hr.
Qed.

Lemma parse_swift_results_json_entries_witness :
  exists res,
    parse_swift_results (Some (Json (PDict swift_document)))
      (Some (Text "'t' measured average: 1"))
    = (Ok res, [])
    ∧ res !! "t"
      = Some (BenchmarkResult.mk "t"
                (Float.mul two_and_a_half (Float.of_Z 1000)) (PStr "ms") PNone).
Proof.
  destruct (parse_swift_results_json_entries swift_document
              [("t", PDict [("average_seconds", PFloat two_and_a_half)])]
              (Some (Text "'t' measured average: 1")))
    as (res & Hres & Hentries & _).
  - reflexivity.
  - apply NoDup_singleton.
  - intros name kvs Hin. apply list_elem_of_singleton in Hin as [= -> ->].
    eexists. reflexivity.
  - exists res. split; [exact Hres|].
    destruct (Hentries "t" [("average_seconds", PFloat two_and_a_half)])
      as (x & Hx & Hlook); [apply list_elem_of_here|].
    injection Hx as <-. exact Hlook.
Defined.

Lemma swift_json_try_unhandled data acc e :
  swift_json_try (Json data) = (acc, Some e) -> handled e = false.
Proof.
  unfold swift_json_try. simpl.
  destruct data as [| | | | | |top]; simpl; try (intros [= <- <-]; done).
  destruct (dict_get top "tests" (PDict [])) as [| | | | | |items]; simpl;
    try (intros [= <- <-]; done).
  apply swift_json_loop_unhandled.
Qed.

(** X2. When the JSON file next to the text file decodes, whatever it
    holds, [parse_swift_results] does not look at the text file and prints
    nothing: the outcome is the same with any text file or none, and a
    document without "tests" gives the empty mapping. *)
Theorem swift_json_hides_text (data : pyval) (text text' : option text_file) :
  parse_swift_results (Some (Json data)) text
  = parse_swift_results (Some (Json data)) text'
  ∧ snd (parse_swift_results (Some (Json data)) text) = []
  ∧ (forall top, data = PDict top -> dict_lookup top "tests" = None ->
       parse_swift_results (Some (Json data)) text = (Ok ∅, [])).
Proof.
  split; [|split].
  - unfold parse_swift_results.
    destruct (swift_json_try (Json data)) as [acc [e|]] eqn:Htry; [|done].
    pose proof (swift_json_try_unhandled _ _ _ Htry) as He.
    destruct e; done.
  - unfold parse_swift_results.
    destruct (swift_json_try (Json data)) as [acc [e|]] eqn:Htry; [|done].
    pose proof (swift_json_try_unhandled _ _ _ Htry) as He.
    destruct e; done.
  - intros top -> Htests. unfold parse_swift_results, swift_json_try. simpl.
    rewrite dict_get_lookup, Htests. reflexivity.
Qed.

Lemma swift_json_hides_text_witness :
  parse_swift_results (Some (Json (PDict [])))
    (Some (Text "'t' measured average: 1"))
  = (Ok ∅, []).
Proof.
  apply (proj2 (proj2 (swift_json_hides_text (PDict [])
                         (Some (Text "'t' measured average: 1")) None)) []);
    reflexivity.
Defined.

(** ** The records of the parsers *)

Lemma rust_loop_invariant (P : string -> BenchmarkResult.t -> Prop) items acc :
  (forall k x u raw, P k (BenchmarkResult.mk k x u raw)) ->
  (forall k r, acc !! k = Some r -> P k r) ->
  forall k r, (rust_loop items acc).1 !! k = Some r -> P k r.
Proof.
  intros HP. revert acc.
  induction items as [|[n info] items IH]; intros acc Hacc; simpl; [done|].
  destruct info as [| | | | | |kvs]; try (by apply IH).
  destruct (py_float _) as [x|e]; [|done].
  apply IH. intros k r. destruct (decide (k = n)) as [->|Hne].
  - rewrite lookup_insert_eq. intros [= <-]. apply HP.
  - rewrite lookup_insert_ne by done. apply Hacc.
Qed.

Lemma swift_json_loop_invariant (P : string -> BenchmarkResult.t -> Prop)
    items acc :
  (forall k x, P k (BenchmarkResult.mk k x (PStr "ms") PNone)) ->
  (forall k r, acc !! k = Some r -> P k r) ->
  forall k r, (swift_json_loop items acc).1 !! k = Some r -> P k r.
Proof.
  intros HP. revert acc.
  induction items as [|[n info] items IH]; intros acc Hacc; simpl; [done|].
  destruct info as [| | | | | |kvs]; try (by apply IH).
  destruct (py_float _) as [x|e]; [|done].
  apply IH. intros k r. destruct (decide (k = n)) as [->|Hne].
  - rewrite lookup_insert_eq. intros [= <-]. apply HP.
  - rewrite lookup_insert_ne by done. apply Hacc.
Qed.

Lemma scan_line_invariant (P : string -> BenchmarkResult.t -> Prop)
    line cur acc cur' acc' :
  (forall k x, P k (BenchmarkResult.mk k x (PStr "ms") PNone)) ->
  (forall k r, acc !! k = Some r -> P k r) ->
  scan_line line (cur, acc) = Ok (cur', acc') ->
  forall k r, acc' !! k = Some r -> P k r.
Proof.
  intros HP Hacc. unfold scan_line.
  destruct (search_measure line) as [g|]; [|by intros [= _ <-]].
  destruct (match search_test line with Some _ => _ | None => _ end) as [t|];
    [|by intros [= _ <-]].
  destruct (truthy _); [|by intros [= _ <-]].
  destruct (float_of_str _) as [x|]; [|done].
  intros [= _ <-] k r. destruct (decide (k = t)) as [->|Hne].
  - rewrite lookup_insert_eq. intros [= <-]. apply HP.
  - rewrite lookup_insert_ne by done. apply Hacc.
Qed.

Lemma scan_lines_invariant (P : string -> BenchmarkResult.t -> Prop)
    lines st st' :
  (forall k x, P k (BenchmarkResult.mk k x (PStr "ms") PNone)) ->
  (forall k r, st.2 !! k = Some r -> P k r) ->
  scan_lines lines st = Ok st' ->
  forall k r, st'.2 !! k = Some r -> P k r.
Proof.
  intros HP. revert st.
  induction lines as [|line lines IH]; intros st Hst; simpl.
  - by intros [= <-].
  - destruct (scan_line line st) as [[cur1 acc1]|e] eqn:Hl; simpl; [|done].
    apply IH. destruct st as [cur acc].
    by apply (scan_line_invariant P line cur acc cur1 acc1).
Qed.

Lemma swift_text_invariant (P : string -> BenchmarkResult.t -> Prop)
    (text : option text_file) acc res out :
  (forall k x, P k (BenchmarkResult.mk k x (PStr "ms") PNone)) ->
  (forall k r, acc !! k = Some r -> P k r) ->
  (match text with
   | None => (Ok acc, [])
   | Some NoSuchText => (Ok acc, [WarnSwift FileNotFoundError])
   | Some (UnreadableText r) => (Raise (read_error r), [])
   | Some (Text content) =>
       match parse_swift_text content acc with
       | Ok r => (Ok r, [])
       | Raise e => (Raise e, [])
       end
   end : io results) = (Ok res, out) ->
  forall k r, res !! k = Some r -> P k r.
Proof.
  intros HP Hacc. destruct text as [[|r|content]|].
  - by intros [= <- _].
  - done.
  - unfold parse_swift_text.
    destruct (scan_lines _ _) as [st|e] eqn:Hs; simpl; [|done].
    intros [= <- _].
    by apply (scan_lines_invariant P _ (None, acc) st HP Hacc Hs).
  - by intros [= <- _].
Qed.

(** X3. Every measurement that a parser returns is stored under its own
    name; those of [parse_swift_results] are in the unit "ms" and have no
    raw value, whether they come from the JSON file or from the text. *)
Theorem parsed_records_named :
  (forall f res out k r,
     parse_rust_results f = (Ok res, out) -> res !! k = Some r ->
     BenchmarkResult.name r = k)
  ∧ (forall j text res out k r,
       parse_swift_results j text = (Ok res, out) -> res !! k = Some r ->
       BenchmarkResult.name r = k
       ∧ BenchmarkResult.unit r = PStr "ms"
       ∧ BenchmarkResult.raw_value r = PNone).
Proof.
  split.
  - intros f res out k r Hp.
    assert (res = (rust_try f).1) as ->.
    { unfold parse_rust_results in Hp.
      destruct (rust_try f) as [acc [e|]]; [|by injection Hp as <- _].
      destruct e; try done; by injection Hp as <- _. }
    unfold rust_try.
    destruct (load f) as [data|]; simpl; [|by rewrite lookup_empty].
    destruct (py_get _ _ _) as [b|]; simpl; [|by rewrite lookup_empty].
    destruct (py_items b) as [items|]; simpl; [|by rewrite lookup_empty].
    apply (rust_loop_invariant (fun k r => BenchmarkResult.name r = k));
      [done|]. intros k' r'. by rewrite lookup_empty.
  - intros j text res out k r Hp.
    set (P := fun (k : string) (r : BenchmarkResult.t) =>
                BenchmarkResult.name r = k
                ∧ BenchmarkResult.unit r = PStr "ms"
                ∧ BenchmarkResult.raw_value r = PNone).
    assert (forall k x, P k (BenchmarkResult.mk k x (PStr "ms") PNone)) as HP
      by done.
    assert (forall k r, (∅ : results) !! k = Some r -> P k r) as Hempty.
    { intros k' r'. by rewrite lookup_empty. }
    unfold parse_swift_results in Hp. destruct j as [f|].
    + assert (forall k r, (swift_json_try f).1 !! k = Some r -> P k r) as Hj.
      { unfold swift_json_try.
        destruct (load f) as [data|]; simpl; [|done].
        destruct (py_get _ _ _) as [b|]; simpl; [|done].
        destruct (py_items b) as [items|]; simpl; [|done].
        by apply swift_json_loop_invariant. }
      destruct (swift_json_try f) as [acc [e|]]; simpl in Hj.
      * destruct e; try done;
          apply (swift_text_invariant P text acc res out HP Hj Hp).
      * injection Hp as <- _. apply Hj.
    + apply (swift_text_invariant P text ∅ res out HP Hempty Hp).
Qed.

Lemma parsed_records_named_witness :
  BenchmarkResult.name
    (BenchmarkResult.mk "x" (Float.of_Z 250) (PStr "ns") PNone) = "x".
Proof.
  apply (proj1 parsed_records_named (Json (PDict example_document))
           {[ "x" := BenchmarkResult.mk "x" (Float.of_Z 250) (PStr "ns")
                       PNone ]} []).
  - vm_compute. reflexivity.
  - vm_compute. reflexivity.
Defined.

(** ** When the Rust parser returns *)

Lemma rust_loop_returns_iff items acc :
  (rust_loop items acc).2 = None
  <-> forall name kvs, (name, PDict kvs) ∈ items ->
        returns (py_float (selected_value kvs)).
Proof.
  revert acc. induction items as [|[n info] items IH]; intros acc; simpl.
  - split; [|done]. intros _ name kvs Hin. by apply elem_of_nil in Hin.
  - assert ((forall name kvs, (name, PDict kvs) ∈ (n, info) :: items ->
               returns (py_float (selected_value kvs)))
            <-> (match info with
                 | PDict kvs => returns (py_float (selected_value kvs))
                 | _ => True
                 end
                 ∧ forall name kvs, (name, PDict kvs) ∈ items ->
                     returns (py_float (selected_value kvs)))) as ->.
    { split.
      - intros H. split.
        + destruct info as [| | | | | |kvs]; try done.
          apply (H n). apply list_elem_of_here.
        + intros name kvs Hin. apply (H name). by apply list_elem_of_further.
      - intros [H1 H2] name kvs Hin.
        apply elem_of_cons in Hin as [[= ? ?]|Hin]; [subst; exact H1|].
        by apply (H2 name). }
    destruct info as [| | | | | |kvs]; try (rewrite IH; tauto).
    rewrite selected_value_get.
    destruct (py_float (selected_value kvs)) as [x|e] eqn:Hx.
    + rewrite IH. split; [|tauto]. intros H. split; [by exists x|done].
    + simpl. split; [done|]. intros [[x Hx'] _]. done.
Qed.

(** X4. For a document whose "benchmarks" is a dict, [parse_rust_results]
    returns exactly when the selected field of every entry that is a dict
    converts; one entry that does not convert makes the call raise, with an
    exception that is neither of the two that the parser handles, and
    nothing is printed. *)
Theorem parse_rust_results_returns_iff (top items : list (string * pyval)) :
  dict_lookup top "benchmarks" = Some (PDict items) ->
  (returns (parse_rust_results (Json (PDict top))).1
   <-> forall name kvs, (name, PDict kvs) ∈ items ->
         returns (py_float (selected_value kvs)))
  ∧ (parse_rust_results (Json (PDict top))).2 = [].
Proof.
  intros Htop. rewrite <- (rust_loop_returns_iff items ∅).
  unfold parse_rust_results, rust_try. simpl.
  rewrite dict_get_lookup, Htop. simpl.
  destruct (rust_loop items ∅) as [acc [e|]] eqn:Hloop; simpl.
  - pose proof (rust_loop_unhandled _ _ _ _ Hloop) as He.
    destruct e; try done; simpl; (split; [|done]);
      (split; [intros [a Ha]; done|done]).
  - split; [|done]. split; [done|]. intros _. by eexists.
Qed.

Lemma parse_rust_results_returns_iff_witness :
  returns (parse_rust_results (Json (PDict example_document))).1.
Proof.
  apply (proj1 (parse_rust_results_returns_iff example_document
                  [("x", PDict [("mean_ns", PInt 250); ("unit", PStr "ns")])]
                  eq_refl)).
  intros name kvs Hin. apply list_elem_of_singleton in Hin as [= -> ->].
  eexists. reflexivity.
Defined.
(** ** The two patterns of the text scan *)

Lemma take_drop_while {A} (p : A -> bool) (l : list A) :
  take_while p l ++ drop_while p l = l.
Proof.
  induction l as [|x l IH]; simpl; [done|].
  destruct (p x); simpl; [by rewrite IH|done].
Qed.

Lemma take_while_Forall {A} (p : A -> bool) (l : list A) :
  Forall (fun x => p x = true) (take_while p l).
Proof.
  induction l as [|x l IH]; simpl; [constructor|].
  destruct (p x) eqn:Hx; [by constructor|constructor].
Qed.

Lemma drop_while_head {A} (p : A -> bool) (l : list A) :
  match drop_while p l with
  | [] => True
  | x :: _ => p x = false
  end.
Proof.
  induction l as [|x l IH]; simpl; [done|].
  destruct (p x) eqn:Hx; [exact IH|exact Hx].
Qed.

Lemma take_while_app_stop {A} (p : A -> bool) (g rest : list A) :
  Forall (fun x => p x = true) g ->
  match rest with [] => True | x :: _ => p x = false end ->
  take_while p (g ++ rest) = g ∧ drop_while p (g ++ rest) = rest.
Proof.
  intros Hall Hrest. induction Hall as [|c g Hc _ IH]; simpl.
  - destruct rest as [|c rest]; [done|]. simpl. by rewrite Hrest.
  - rewrite Hc. destruct IH as [-> ->]. done.
Qed.

Lemma is_quote_eq (c : ascii) : is_quote c = true <-> c = "'"%char.
Proof. unfold is_quote. apply Ascii.eqb_eq. Qed.

Lemma quoted_at_nil line pre g : line = [] -> ¬ quoted_at line pre g.
Proof.
  intros -> (_ & _ & post & Heq). by destruct pre.
Qed.

Lemma quoted_at_cons c line pre g :
  quoted_at (c :: line) (c :: pre) g <-> quoted_at line pre g.
Proof.
  unfold quoted_at. split; intros (Hne & Hall & post & Heq);
    (split; [done|]); (split; [done|]); exists post.
  - simpl in Heq. by injection Heq.
  - simpl. by rewrite Heq.
Qed.

Lemma quoted_at_head c line pre g :
  quoted_at (c :: line) pre g ->
  (pre = [] ∧ c = "'"%char
   ∧ take_while (fun x => negb (is_quote x)) line = g
   ∧ exists post, drop_while (fun x => negb (is_quote x)) line
                  = "'"%char :: post)
  ∨ exists pre', pre = c :: pre' ∧ quoted_at line pre' g.
Proof.
  intros Hq. destruct pre as [|c' pre'].
  - left. destruct Hq as (Hne & Hall & post & Heq). simpl in Heq.
    injection Heq as -> ->. split; [done|]. split; [done|].
    destruct (take_while_app_stop (fun x => negb (is_quote x)) g
                ("'"%char :: post)) as [Ht Hd].
    + eapply Forall_impl; [exact Hall|]. intros x Hx. simpl. by rewrite Hx.
    + reflexivity.
    + split; [exact Ht|]. by exists post.
  - right. exists pre'.
    assert (c' = c) as ->.
    { destruct Hq as (_ & _ & post & Heq). simpl in Heq. by injection Heq. }
    split; [done|]. exact (proj1 (quoted_at_cons _ _ _ _) Hq).
Qed.

(** X5. [search_test] finds the name of a line as the pattern ['([^']+)']
    does: the group is a non-empty text without an apostrophe that stands
    between two apostrophes of the line, at the leftmost place where there
    is one; it finds nothing exactly when the line has no such text. *)
Theorem search_test_spec (line : list ascii) :
  match search_test line with
  | Some g =>
      exists pre,
        quoted_at line pre g
        ∧ forall pre' g', quoted_at line pre' g' ->
            (length pre < length pre')%nat ∨ (pre' = pre ∧ g' = g)
  | None => forall pre g, ¬ quoted_at line pre g
  end.
Proof.
  induction line as [|c line IH].
  - simpl. intros pre g. by apply quoted_at_nil.
  - assert ((forall pre g, quoted_at (c :: line) pre g -> pre ≠ []) ->
            match search_test line with
            | Some g =>
                exists pre,
                  quoted_at (c :: line) pre g
                  ∧ forall pre' g', quoted_at (c :: line) pre' g' ->
                      (length pre < length pre')%nat ∨ (pre' = pre ∧ g' = g)
            | None => forall pre g, ¬ quoted_at (c :: line) pre g
            end) as Hshift.
    { intros Hno. destruct (search_test line) as [g|].
      - destruct IH as (pre & Hq & Hleft). exists (c :: pre).
        split; [by apply (proj2 (quoted_at_cons _ _ _ _))|].
        intros pre' g' Hq'. pose proof (Hno _ _ Hq') as Hpre'.
        destruct (quoted_at_head _ _ _ _ Hq') as [(-> & _)|(p & -> & Hp)];
          [done|].
        destruct (Hleft p g' Hp) as [Hlt|[-> ->]]; [left; simpl; lia|].
        by right.
      - intros pre g Hq. pose proof (Hno _ _ Hq) as Hpre.
        destruct (quoted_at_head _ _ _ _ Hq) as [(-> & _)|(p & -> & Hp)];
          [done|].
        by apply (IH p g). }
    simpl. destruct (is_quote c) eqn:Hc.
    + destruct (take_while (fun x => negb (is_quote x)) line) as [|b body]
        eqn:Ht.
      { apply Hshift. intros pre g Hq ->.
        destruct (quoted_at_head _ _ _ _ Hq) as [(_ & _ & Hg & _)|(p & ? & _)];
          [|done].
        rewrite Ht in Hg. subst g. by destruct Hq as (Hne & _). }
      destruct (drop_while (fun x => negb (is_quote x)) line) as [|q post]
        eqn:Hd.
      { apply Hshift. intros pre g Hq ->.
        destruct (quoted_at_head _ _ _ _ Hq)
          as [(_ & _ & _ & post & Hpost)|(p & ? & _)]; [|done].
        rewrite Hd in Hpost. done. }
      exists []. split.
      * split; [done|]. split.
        -- pose proof (take_while_Forall (fun x => negb (is_quote x)) line)
             as Hall.
           rewrite Ht in Hall. eapply Forall_impl; [exact Hall|].
           intros x Hx. simpl in Hx. by apply negb_true_iff in Hx.
        -- exists post. apply is_quote_eq in Hc as ->.
           pose proof (drop_while_head (fun x => negb (is_quote x)) line)
             as Hq.
           rewrite Hd in Hq. apply negb_false_iff, is_quote_eq in Hq.
           subst q. rewrite <- Ht, <- Hd, take_drop_while. reflexivity.
      * intros pre' g' Hq'.
        destruct (quoted_at_head _ _ _ _ Hq') as [(-> & _ & Hg & _)|(p & -> & _)].
        -- right. split; [done|]. by rewrite <- Hg, Ht.
        -- left. simpl. lia.
    + apply Hshift. intros pre g Hq ->.
      destruct (quoted_at_head _ _ _ _ Hq) as [(_ & -> & _)|(p & ? & _)];
        done.
Qed.

Lemma starts_with_spec (p l rest : list ascii) :
  starts_with p l = Some rest <-> l = p ++ rest.
Proof.
  revert l. induction p as [|a p IH]; intros l; simpl.
  - split; [by intros [= ->]|by intros ->].
  - destruct l as [|b l]; [done|].
    destruct (Ascii.eqb_spec a b) as [->|Hne].
    + rewrite IH. split; [by intros ->|by intros [= ->]].
    + split; [done|]. intros [= ? _]. done.
Qed.

Lemma number_not_space (c : ascii) :
  re_number_char c = true -> re_space c = false.
Proof.
  destruct c as [[] [] [] [] [] [] [] []]; vm_compute; intros H;
    try discriminate H; reflexivity.
Qed.

Lemma number_at_match (l g : list ascii) :
  number_at l g -> match_number l = Some g.
Proof.
  intros (ws & post & -> & Hws & Hspace & Hg & Hnum & Hpost).
  unfold match_number.
  destruct (take_while_app_stop re_space ws (g ++ post) Hspace) as [-> ->].
  { destruct g as [|c g]; [done|]. simpl. apply number_not_space.
    by inversion Hnum. }
  destruct ws as [|w ws]; [done|].
  destruct (take_while_app_stop re_number_char g post Hnum Hpost) as [-> _].
  by destruct g.
Qed.

Lemma match_number_at (l g : list ascii) :
  match_number l = Some g -> number_at l g.
Proof.
  unfold match_number.
  destruct (take_while re_space l) as [|w ws] eqn:Hws; [done|].
  destruct (take_while re_number_char (drop_while re_space l)) as [|c g']
    eqn:Hg; [done|].
  intros [= <-].
  exists (w :: ws), (drop_while re_number_char (drop_while re_space l)).
  split; [|split; [done|split; [|split; [done|split]]]].
  - rewrite <- Hws, <- Hg, take_drop_while. symmetry. apply take_drop_while.
  - rewrite <- Hws. apply take_while_Forall.
  - rewrite <- Hg. apply take_while_Forall.
  - apply drop_while_head.
Qed.

Lemma average_at_match (l g : list ascii) :
  average_at l g <-> match_average l = Some g.
Proof.
  unfold average_at, match_average. split.
  - intros (rest & Hl & Hn). apply starts_with_spec in Hl. rewrite Hl.
    by apply number_at_match.
  - destruct (starts_with _ l) as [rest|] eqn:Hs; [|done].
    intros Hm. exists rest. split; [by apply starts_with_spec|].
    by apply match_number_at.
Qed.

Lemma rest_at_head c l mid g :
  rest_at (c :: l) mid g ->
  (mid = [] ∧ average_at (c :: l) g)
  ∨ exists mid', mid = c :: mid' ∧ is_newline c = false ∧ rest_at l mid' g.
Proof.
  intros (Hall & tail & Heq & Havg). destruct mid as [|m mid'].
  - left. simpl in Heq. by subst tail.
  - right. simpl in Heq. injection Heq as <- ->. exists mid'.
    apply Forall_cons in Hall as [Hm Hall].
    split; [done|]. split; [done|]. split; [done|]. by exists tail.
Qed.

Lemma match_rest_spec (l : list ascii) :
  match match_rest l with
  | Some g =>
      exists mid,
        rest_at l mid g
        ∧ forall mid' g', rest_at l mid' g' ->
            (length mid' < length mid)%nat ∨ (mid' = mid ∧ g' = g)
  | None => forall mid g, ¬ rest_at l mid g
  end.
Proof.
  induction l as [|c l IH].
  - simpl. intros mid g (_ & tail & Heq & rest & Htail & _).
    symmetry in Heq. apply app_eq_nil in Heq as [_ ->]. done.
  - simpl.
    destruct (if is_newline c then None else match_rest l) as [g|] eqn:Hin.
    + destruct (is_newline c) eqn:Hc; [done|]. rewrite Hin in IH.
      destruct IH as (mid & Hmid & Hlong). exists (c :: mid). split.
      * destruct Hmid as (Hall & tail & -> & Havg).
        split; [by constructor|]. by exists tail.
      * intros mid' g' Hr.
        destruct (rest_at_head _ _ _ _ Hr) as [(-> & _)|(m & -> & _ & Hm)];
          [left; simpl; lia|].
        destruct (Hlong m g' Hm) as [Hlt|[-> ->]]; [left; simpl; lia|].
        by right.
    + assert (forall mid g, rest_at (c :: l) mid g ->
                mid = [] ∧ average_at (c :: l) g) as Hfront.
      { intros mid g Hr.
        destruct (rest_at_head _ _ _ _ Hr) as [?|(m & -> & Hc & Hm)]; [done|].
        rewrite Hc in Hin. rewrite Hin in IH. by apply IH in Hm. }
      destruct (match_average (c :: l)) as [g|] eqn:Havg.
      * exists []. split.
        -- split; [constructor|]. exists (c :: l). split; [done|].
           by apply average_at_match.
        -- intros mid' g' Hr. destruct (Hfront _ _ Hr) as [-> Ha].
           right. split; [done|]. apply average_at_match in Ha.
           congruence.
      * intros mid g Hr. destruct (Hfront _ _ Hr) as [_ Ha].
        apply average_at_match in Ha. congruence.
Qed.

Lemma measured_at_cons c line pre mid g :
  measured_at (c :: line) (c :: pre) mid g <-> measured_at line pre mid g.
Proof.
  unfold measured_at. split; intros (tail & Heq & Hr); exists tail;
    (split; [|done]).
  - simpl in Heq. by injection Heq.
  - simpl. by rewrite Heq.
Qed.

Lemma measured_at_head c line pre mid g :
  measured_at (c :: line) pre mid g ->
  (pre = [] ∧ exists tail,
     starts_with (list_ascii_of_string "measured") (c :: line) = Some tail
     ∧ rest_at tail mid g)
  ∨ exists pre', pre = c :: pre' ∧ measured_at line pre' mid g.
Proof.
  intros Hm. destruct pre as [|c' pre'].
  - left. split; [done|]. destruct Hm as (tail & Heq & Hr). exists tail.
    split; [|done]. by apply starts_with_spec.
  - right. exists pre'.
    assert (c' = c) as ->.
    { destruct Hm as (tail & Heq & _). simpl in Heq. by injection Heq. }
    split; [done|]. exact (proj1 (measured_at_cons _ _ _ _ _) Hm).
Qed.

Lemma search_measure_cons c line :
  search_measure (c :: line)
  = match
      match starts_with (list_ascii_of_string "measured") (c :: line) with
      | Some tail => match_rest tail
      | None => None
      end
    with
    | Some g => Some g
    | None => search_measure line
    end.
Proof. reflexivity. Qed.

(** X6. [search_measure] finds the number of a line as the pattern
    [measured.*average:\s+([0-9.]+)] does: the group is a run of digits and
    points, as long as can be, that follows "average:" and at least one
    white space, after "measured" on the same line; the match is the
    leftmost one and, at that place, the one in which "average:" is the
    last that can be taken. It finds nothing exactly when the line has no
    such match. *)
Theorem search_measure_spec (line : list ascii) :
  match search_measure line with
  | Some g =>
      exists pre mid,
        measured_at line pre mid g
        ∧ forall pre' mid' g', measured_at line pre' mid' g' ->
            (length pre < length pre')%nat
            ∨ (pre' = pre
               ∧ ((length mid' < length mid)%nat ∨ (mid' = mid ∧ g' = g)))
  | None => forall pre mid g, ¬ measured_at line pre mid g
  end.
Proof.
  induction line as [|c line IH].
  - simpl. intros pre mid g (tail & Heq & _). by destruct pre.
  - rewrite search_measure_cons.
    destruct (match starts_with (list_ascii_of_string "measured") (c :: line)
              with
              | Some tail => match_rest tail
              | None => None
              end) as [g|] eqn:Hin; cbv beta iota.
    + destruct (starts_with _ (c :: line)) as [tail|] eqn:Hs; [|done].
      pose proof (match_rest_spec tail) as Hrest. rewrite Hin in Hrest.
      destruct Hrest as (mid & Hmid & Hlong). exists [], mid. split.
      * exists tail. split; [|done].
        exact (proj1 (starts_with_spec _ _ _) Hs).
      * intros pre' mid' g' Hm.
        destruct (measured_at_head _ _ _ _ _ Hm)
          as [(-> & tail' & Hs' & Hr)|(p & -> & _)]; [|left; simpl; lia].
        right. split; [done|]. rewrite Hs in Hs'. injection Hs' as <-.
        by apply Hlong.
    + assert (forall pre mid g, measured_at (c :: line) pre mid g ->
                exists p, pre = c :: p ∧ measured_at line p mid g) as Hback.
      { intros pre mid g Hm.
        destruct (measured_at_head _ _ _ _ _ Hm)
          as [(-> & tail & Hs & Hr)|?]; [|done].
        rewrite Hs in Hin. pose proof (match_rest_spec tail) as Hrest.
        rewrite Hin in Hrest. by apply Hrest in Hr. }
      destruct (search_measure line) as [g|].
      * destruct IH as (pre & mid & Hm & Hleft). exists (c :: pre), mid.
        split; [by apply (proj2 (measured_at_cons _ _ _ _ _))|].
        intros pre' mid' g' Hm'.
        destruct (Hback _ _ _ Hm') as (p & -> & Hp).
        destruct (Hleft p mid' g' Hp) as [Hlt|[-> Hrest]];
          [left; simpl; lia|by right].
      * intros pre mid g Hm. destruct (Hback _ _ _ Hm) as (p & -> & Hp).
        by apply (IH p mid g).
Qed.
(** ** The numbers that the text scan converts *)

Lemma number_facts (c : ascii) :
  re_number_char c = true ->
  plain c = true
  /\ Ascii.eqb c "i" = false /\ Ascii.eqb c "n" = false
  /\ (is_digit c = false -> c = "."%char)
  /\ (is_digit c = true -> is_point c = false)
  /\ Ascii.eqb (lower c) "e" = false
  /\ forall l, split_sign (c :: l) = (false, c :: l).
Proof.
  destruct c as [[] [] [] [] [] [] [] []]; vm_compute; intros H;
    try discriminate H; repeat split; try done.
Qed.

Lemma number_chars_float (g : list ascii) :
  g ≠ [] -> Forall (fun c => re_number_char c = true) g ->
  float_of_str (string_of_list_ascii g) = parse_number false g.
Proof.
  intros Hne Hall. destruct g as [|c g]; [done|].
  assert (re_number_char c = true) as Hc by (by inversion Hall).
  destruct (number_facts c Hc) as (_ & Hi & Hn & _ & _ & _ & Hsign).
  assert (Forall (fun c => plain c = true) (c :: g)) as Hplain.
  { eapply Forall_impl; [exact Hall|]. intros x Hx.
    by destruct (number_facts x Hx). }
  unfold float_of_str. rewrite list_ascii_of_string_of_list_ascii.
  rewrite strip_underscores_plain by done. simpl mbind.
  rewrite strip_plain by done. rewrite Hsign.
  rewrite map_lower_plain by done. simpl string_of_list_ascii.
  assert (forall t, String.eqb (String c t) "inf" = false) as Hinf.
  { intros t. simpl. by rewrite Hi. }
  assert (forall t, String.eqb (String c t) "infinity" = false) as Hinfinity.
  { intros t. simpl. by rewrite Hi. }
  assert (forall t, String.eqb (String c t) "nan" = false) as Hnan.
  { intros t. simpl. by rewrite Hn. }
  rewrite Hinf, Hinfinity, Hnan. reflexivity.
Qed.

Lemma points_app (a b : list ascii) : points (a ++ b) = (points a + points b)%nat.
Proof. unfold points. by rewrite List.filter_app, length_app. Qed.

Lemma points_digits (ds : list ascii) :
  Forall (fun c => is_digit c = true) ds ->
  points ds = 0%nat ∧ (has_digit ds = true <-> ds ≠ []).
Proof.
  induction 1 as [|c ds Hc _ [IH1 IH2]]; [done|].
  unfold points, has_digit in *. simpl. rewrite Hc.
  assert (is_point c = false) as ->.
  { destruct (digit_facts c Hc) as (_ & Hdot & _). exact Hdot. }
  split; [exact IH1|]. done.
Qed.

Lemma has_digit_app (a b : list ascii) :
  has_digit (a ++ b) = has_digit a || has_digit b.
Proof. apply existsb_app. Qed.

Lemma number_stop (l : list ascii) :
  Forall (fun c => re_number_char c = true) l ->
  drop_while is_digit l = []
  ∨ exists r, drop_while is_digit l = "."%char :: r
              ∧ Forall (fun c => re_number_char c = true) r.
Proof.
  intros Hall. pose proof (drop_while_head is_digit l) as Hhead.
  assert (Forall (fun c => re_number_char c = true) (drop_while is_digit l))
    as Hdrop.
  { rewrite <- (take_drop_while is_digit l) in Hall.
    by apply Forall_app in Hall as [_ ?]. }
  destruct (drop_while is_digit l) as [|c r]; [by left|]. right.
  apply Forall_cons in Hdrop as [Hc Hr].
  destruct (number_facts c Hc) as (_ & _ & _ & Hdot & _).
  rewrite (Hdot Hhead). by exists r.
Qed.

Lemma parse_number_chars (g : list ascii) :
  Forall (fun c => re_number_char c = true) g ->
  is_Some (parse_number false g)
  <-> (points g <= 1)%nat ∧ has_digit g = true.
Proof.
  intros Hall. unfold parse_number.
  pose proof (take_while_Forall is_digit g) as Hip.
  pose proof (take_drop_while is_digit g) as Hg.
  pose proof (number_stop g Hall) as Hstop.
  set (ip := take_while is_digit g) in *.
  set (r1 := drop_while is_digit g) in *.
  clearbody ip r1. subst g.
  destruct (points_digits _ Hip) as [Hp1 Hd1].
  assert (points ["."%char] = 1%nat) as Hone by reflexivity.
  assert (has_digit ["."%char] = false) as Hnone by reflexivity.
  destruct Hstop as [->|(r & -> & Hr)].
  - rewrite !app_nil_r, Hp1, Hd1. destruct ip as [|a ip]; simpl.
    + split; [by intros [? ?]|by intros [_ ?]].
    + split; [intros _; split; [lia|done]|intros _; by eexists].
  - pose proof (take_while_Forall is_digit r) as Hfp.
    pose proof (take_drop_while is_digit r) as Hrr.
    pose proof (number_stop r Hr) as Hstop.
    set (fp := take_while is_digit r) in *.
    set (r2 := drop_while is_digit r) in *.
    clearbody fp r2. subst r.
    destruct (points_digits _ Hfp) as [Hp2 Hd2].
    change ("."%char :: fp ++ r2) with (["."%char] ++ fp ++ r2).
    rewrite !points_app, !has_digit_app, Hone, Hnone, Hp1, Hp2.
    rewrite orb_false_l.
    destruct Hstop as [->|(r' & -> & _)].
    + unfold points at 1, has_digit at 3. simpl length. simpl existsb.
      rewrite orb_false_r.
      assert (has_digit ip || has_digit fp = true <-> ip ++ fp ≠ []) as ->.
      { rewrite orb_true_iff, Hd1, Hd2. split.
        - intros [H|H] Heq; apply app_eq_nil in Heq as [? ?]; done.
        - intros H. destruct ip; [right; exact H|left; done]. }
      destruct (ip ++ fp) as [|a ds]; simpl.
      * split; [by intros [? ?]|by intros [_ ?]].
      * split; [|intros _; by eexists]. intros _. split; [lia|done].
    + change ("."%char :: r') with (["."%char] ++ r').
      rewrite points_app, Hone.
      split; [|intros [? _]; lia].
      destruct (ip ++ fp); by intros [? ?].
Qed.

Lemma search_measure_chars (line g : list ascii) :
  search_measure line = Some g ->
  g ≠ [] ∧ Forall (fun c => re_number_char c = true) g.
Proof.
  induction line as [|c line IH]; [done|].
  rewrite search_measure_cons.
  destruct (starts_with _ (c :: line)) as [tail|]; [|exact IH].
  pose proof (match_rest_spec tail) as Hrest.
  destruct (match_rest tail) as [g'|]; [|exact IH].
  intros [= <-].
  destruct Hrest as (mid & (_ & t & _ & rest & _ & Hnum) & _).
  destruct Hnum as (ws & post & _ & _ & _ & Hne & Hall & _). done.
Qed.

(** X7. The number that the text scan takes from a line is accepted by
    [float] exactly when it has at most one point and at least one digit:
    "1.2.3", "." and ".." are taken by the pattern and rejected by the
    conversion, and a turn of the loop raises only for such a number. *)
Theorem measured_number_converts (line g : list ascii) :
  search_measure line = Some g ->
  (is_Some (float_of_str (string_of_list_ascii g))
   <-> (points g <= 1)%nat ∧ has_digit g = true)
  ∧ forall st e, scan_line line st = Raise e ->
      e = ValueError ∧ ¬ ((points g <= 1)%nat ∧ has_digit g = true).
Proof.
  intros Hm. destruct (search_measure_chars line g Hm) as [Hne Hall].
  assert (is_Some (float_of_str (string_of_list_ascii g))
          <-> (points g <= 1)%nat ∧ has_digit g = true) as Hiff.
  { rewrite number_chars_float by done. by apply parse_number_chars. }
  split; [exact Hiff|].
  intros [cur acc] e. unfold scan_line. rewrite Hm.
  destruct (match search_test line with Some _ => _ | None => _ end); [|done].
  destruct (truthy _); [|done].
  destruct (float_of_str _) eqn:Hf; [done|].
  intros [= <-]. split; [done|]. intros Hok. apply Hiff in Hok as [x Hx].
  done.
Qed.

Lemma measured_number_converts_witness :
  float_of_str "1.5.2" = None.
Proof.
  pose proof (proj1 (measured_number_converts
                       (list_ascii_of_string "measured average: 1.5.2")
                       (list_ascii_of_string "1.5.2") eq_refl)) as Hiff.
  destruct (float_of_str "1.5.2") as [x|] eqn:Hx; [|reflexivity].
  exfalso. destruct (proj1 Hiff) as [Hp _]; [by eexists|].
  vm_compute in Hp. lia.
Defined.
(** * Further properties of the comparator *)

Lemma hundred_finite : exists m e, hundred = S754_finite false m e.
Proof. vm_compute. by eexists _, _. Qed.

Lemma sub_self_finite s m e :
  Float.sub (S754_finite s m e) (S754_finite s m e) = S754_zero false.
Proof.
  unfold Float.sub, SFsub. rewrite Z.sub_diag. reflexivity.
Qed.

Lemma change_of_self (r : BenchmarkResult.t) : zero_or_nan (change_of r r).
Proof.
  unfold change_of. destruct hundred_finite as (mh & eh & Hh).
  destruct (BenchmarkResult.value r) as [s|s| |s m e].
  - destruct s; done.
  - destruct s; simpl; done.
  - done.
  - assert (Float.eqb (S754_finite s m e) Float.zero = false) as ->
      by (by destruct s).
    rewrite sub_self_finite, Hh. done.
Qed.

Lemma zero_or_nan_unchanged (x T : float) :
  zero_or_nan x -> Float.leb Float.zero T = true ->
  Float.gtb x T = false ∧ Float.ltb x (Float.neg T) = false.
Proof.
  intros Hx HT.
  destruct x as [sx|sx| |sx mx ex]; try done;
    destruct T as [sT|sT| |sT mT eT]; try done;
    destruct sT; try done.
Qed.

(** X8. Comparing a mapping with itself, at a threshold that is not below
    zero, gives a record for every name and flags none of them: the change
    is a zero or, for a value that is infinite or not a number, not a
    number. *)
Theorem compare_self_unchanged (m : results) (T : float) :
  Float.leb Float.zero T = true ->
  exists recs,
    compare_results m m T = Ok recs
    ∧ (forall n, n ∈ dom m <-> n ∈ ComparisonResult.name <$> recs)
    ∧ forall c, c ∈ recs ->
        zero_or_nan (ComparisonResult.change_percent c)
        ∧ ComparisonResult.is_regression c = false
        ∧ ComparisonResult.is_improvement c = false.
Proof.
  intros HT. eexists. split; [apply compare_results_ok|]. split.
  - intros n. rewrite list_elem_of_fmap. split.
    + intros Hn. apply elem_of_dom in Hn as [r Hr].
      exists (record_of T n r r). split; [done|].
      apply elem_of_records. by exists n, r, r.
    + intros (c & -> & Hc).
      apply elem_of_records in Hc as (n & base & curr & Hb & _ & ->).
      apply elem_of_dom. by exists base.
  - intros c Hc.
    apply elem_of_records in Hc as (n & base & curr & Hb & Hl & ->).
    assert (curr = base) as -> by congruence.
    pose proof (change_of_self base) as Hz. simpl. split; [done|].
    by apply zero_or_nan_unchanged.
Qed.

Lemma compare_self_unchanged_witness :
  exists recs,
    compare_results (single "a" 100) (single "a" 100) (Float.of_Z 5) = Ok recs
    ∧ forall c, c ∈ recs -> ComparisonResult.is_regression c = false.
Proof.
  destruct (compare_self_unchanged (single "a" 100) (Float.of_Z 5) eq_refl)
    as (recs & Hrecs & _ & Hflags).
  exists recs. split; [exact Hrecs|]. intros c Hc.
  by destruct (Hflags c Hc) as (_ & ? & _).
Defined.

Lemma shared_values (baseline latest latest' : results) T n :
  BenchmarkResult.value <$> latest !! n
  = BenchmarkResult.value <$> latest' !! n ->
  shared baseline latest T n = shared baseline latest' T n.
Proof.
  unfold shared. destruct (baseline !! n) as [base|]; [|done].
  destruct (latest !! n) as [c|], (latest' !! n) as [c'|]; try done.
  simpl. intros [= Hv]. unfold record_of, change_of. by rewrite Hv.
Qed.

(** X9. Every record holds the two values and the unit as the mappings
    have them: the values of the baseline and of the latest measurement of
    its name, and the unit of the baseline. Of the latest mapping only the
    values are read: two latest mappings with the same values give the same
    records, whatever their units, names and raw values. *)
Theorem compare_results_fields (baseline latest : results) (T : float) :
  (exists recs,
     compare_results baseline latest T = Ok recs
     ∧ forall c, c ∈ recs ->
         exists base curr,
           baseline !! ComparisonResult.name c = Some base
           ∧ latest !! ComparisonResult.name c = Some curr
           ∧ ComparisonResult.baseline_value c = BenchmarkResult.value base
           ∧ ComparisonResult.latest_value c = BenchmarkResult.value curr
           ∧ ComparisonResult.unit c = BenchmarkResult.unit base)
  ∧ forall latest' : results,
      (forall n, BenchmarkResult.value <$> latest !! n
                 = BenchmarkResult.value <$> latest' !! n) ->
      compare_results baseline latest' T = compare_results baseline latest T.
Proof.
  split.
  - eexists. split; [apply compare_results_ok|]. intros c Hc.
    apply elem_of_records in Hc as (n & base & curr & Hb & Hl & ->).
    by exists base, curr.
  - intros latest' Hsame. rewrite !compare_results_ok. f_equal.
    assert (dom latest' = dom latest) as ->.
    { apply set_eq. intros n. rewrite !elem_of_dom.
      rewrite <- (fmap_is_Some BenchmarkResult.value (latest !! n)).
      rewrite <- (fmap_is_Some BenchmarkResult.value (latest' !! n)).
      by rewrite Hsame. }
    apply list_omap_ext, Forall2_same_length_lookup_2; [done|].
    intros i n n' Hn Hn'. assert (n' = n) as -> by congruence.
    symmetry. by apply shared_values.
Qed.

Lemma compare_results_fields_witness :
  compare_results (single "a" 100)
    {[ "a" := BenchmarkResult.mk "b" (Float.of_Z 106) (PStr "ms") (PInt 1) ]}
    (Float.of_Z 5)
  = compare_results (single "a" 100) (single "a" 106) (Float.of_Z 5).
Proof.
  apply (proj2 (compare_results_fields (single "a" 100) (single "a" 106)
                  (Float.of_Z 5))).
  intros n. unfold single. destruct (decide (n = "a")) as [->|Hne].
  - by rewrite !lookup_singleton_eq.
  - by rewrite !lookup_singleton_ne.
Defined.
(** * Further properties of the structured report *)

Lemma entry_status_cases c :
  entry_status (report_entry c)
  = PStr (if ComparisonResult.is_regression c then "regression"
          else if ComparisonResult.is_improvement c then "improvement"
          else "unchanged").
Proof. reflexivity. Qed.

Lemma entry_status_improvement c :
  entry_status (report_entry c) = PStr "improvement"
  <-> improvement_only c = true.
Proof.
  rewrite entry_status_cases. unfold improvement_only.
  destruct (ComparisonResult.is_regression c),
    (ComparisonResult.is_improvement c); split; intros H; done.
Qed.

Lemma improvement_entries cs :
  length (filter (fun e => entry_status e = PStr "improvement")
            (map report_entry cs))
  = length (filter (fun c => improvement_only c = true) cs).
Proof.
  induction cs as [|c cs IH]; [done|].
  simpl map. rewrite !filter_cons.
  pose proof (entry_status_improvement c) as Hc.
  destruct (decide (entry_status (report_entry c) = PStr "improvement")),
    (decide (improvement_only c = true));
    simpl; try (by rewrite IH); tauto.
Qed.

Lemma improvement_split cs :
  length (filter (fun c => ComparisonResult.is_improvement c = true) cs)
  = (length (filter (fun c => improvement_only c = true) cs)
     + length (filter (fun c => both_flags c = true) cs))%nat.
Proof.
  induction cs as [|c cs IH]; [done|].
  rewrite !filter_cons.
  destruct (decide (ComparisonResult.is_improvement c = true)) as [Hi|Hi],
    (decide (improvement_only c = true)) as [Ho|Ho],
    (decide (both_flags c = true)) as [Hb|Hb]; simpl; try lia; exfalso;
    unfold improvement_only, both_flags in *;
    destruct (ComparisonResult.is_regression c),
      (ComparisonResult.is_improvement c); simpl in *; done.
Qed.

(** X10. In the report of [generate_json_report] every record has one of
    the three statuses "regression", "improvement" and "unchanged", the
    first taking precedence: the records whose status is "improvement" are
    those flagged as an improvement and not as a regression, so that the
    count "improvements" of the summary exceeds their number by the number
    of records that have both flags. *)
Theorem report_statuses (now : string)
    (rust_comparisons swift_comparisons : list ComparisonResult.t)
    (metadata : pyval) :
  let report :=
    generate_json_report now rust_comparisons swift_comparisons metadata in
  let records := rust_comparisons ++ swift_comparisons in
  Forall (fun e => entry_status e = PStr "regression"
                   ∨ entry_status e = PStr "improvement"
                   ∨ entry_status e = PStr "unchanged")
    (report_entries report)
  ∧ length (filter (fun e => entry_status e = PStr "improvement")
              (report_entries report))
    = length (filter (fun c => improvement_only c = true) records)
  ∧ exists summary,
      py_get report "summary" PNone = Ok (PDict summary)
      ∧ dict_get summary "improvements" PNone
        = PInt (Z.of_nat
                  (length (filter (fun e => entry_status e = PStr "improvement")
                             (report_entries report))
                   + length (filter (fun c => both_flags c = true) records))).
Proof.
  intros report records.
  assert (report_entries report = map report_entry records) as Hentries.
  { unfold report, records, report_entries, generate_json_report.
    simpl dict_get. cbv iota. by rewrite map_app. }
  rewrite Hentries. split; [|split].
  - apply Forall_forall. intros e He. apply list_elem_of_fmap in He as (c & -> & _).
    rewrite entry_status_cases.
    destruct (ComparisonResult.is_regression c),
      (ComparisonResult.is_improvement c); auto.
  - apply improvement_entries.
  - eexists. split; [reflexivity|]. simpl dict_get.
    rewrite sum_ones_count, improvement_entries. fold records.
    by rewrite improvement_split.
Qed.

(** * Further properties of the exit status *)

Lemma py_float_no_exit v e : py_float v = Raise e -> is_exit e = false.
Proof.
  destruct v as [| |n| |s| |]; simpl; try (intros [= <-]; done).
  - destruct (Float.of_Z n); intros [= <-]; done.
  - destruct (float_of_str s); intros [= <-]; done.
Qed.

Lemma rust_loop_no_exit items acc res e :
  rust_loop items acc = (res, Some e) -> is_exit e = false.
Proof.
  revert acc. induction items as [|[n info] items IH]; intros acc; simpl.
  - intros H. discriminate H.
  - destruct info as [| | | | | |kvs]; try apply IH.
    destruct (py_float _) as [x|e'] eqn:Hx; [apply IH|].
    intros [= _ <-]. by eapply py_float_no_exit.
Qed.

Lemma swift_json_loop_no_exit items acc res e :
  swift_json_loop items acc = (res, Some e) -> is_exit e = false.
Proof.
  revert acc. induction items as [|[n info] items IH]; intros acc; simpl.
  - intros H. discriminate H.
  - destruct info as [| | | | | |kvs]; try apply IH.
    destruct (py_float _) as [x|e'] eqn:Hx; [apply IH|].
    intros [= _ <-]. by eapply py_float_no_exit.
Qed.

Lemma load_no_exit f e : load f = Raise e -> is_exit e = false.
Proof. destruct f as [|[]| |[]|data]; simpl; intros [= <-]; done. Qed.

Lemma parse_rust_results_no_exit f e :
  (parse_rust_results f).1 = Raise e -> is_exit e = false.
Proof.
  unfold parse_rust_results.
  destruct (rust_try f) as [acc [e'|]] eqn:Htry; [|done].
  assert (is_exit e' = false) as He'.
  { unfold rust_try in Htry.
    destruct (load f) as [data|] eqn:Hload.
    - destruct (py_get data "benchmarks" (PDict [])) as [b|] eqn:Hget.
      + destruct (py_items b) as [items|] eqn:Hitems.
        * by eapply rust_loop_no_exit.
        * destruct b; simpl in Hitems; try done;
            injection Hitems as <-; by injection Htry as _ <-.
      + destruct data; simpl in Hget; try done;
          injection Hget as <-; by injection Htry as _ <-.
    - injection Htry as _ <-. by eapply load_no_exit. }
  destruct e'; try done; simpl; intros [= <-]; done.
Qed.

Lemma parse_swift_results_no_exit j text e :
  (parse_swift_results j text).1 = Raise e -> is_exit e = false.
Proof.
  assert (forall acc,
            (match text with
             | None => (Ok acc, [])
             | Some NoSuchText => (Ok acc, [WarnSwift FileNotFoundError])
             | Some (UnreadableText r) => (Raise (read_error r), [])
             | Some (Text content) =>
                 match parse_swift_text content acc with
                 | Ok r => (Ok r, [])
                 | Raise e => (Raise e, [])
                 end
             end : io results).1 = Raise e -> is_exit e = false) as Htext.
  { intros acc. destruct text as [[|r|content]|]; simpl; try done.
    - intros [= <-]. by destruct r.
    - destruct (parse_swift_text content acc) eqn:Hp; simpl; [done|].
      intros [= <-]. by rewrite (parse_swift_text_raises _ _ _ Hp). }
  unfold parse_swift_results. destruct j as [f|]; [|apply Htext].
  destruct (swift_json_try f) as [acc [e'|]] eqn:Htry; [|done].
  assert (is_exit e' = false) as He'.
  { unfold swift_json_try in Htry.
    destruct (load f) as [data|] eqn:Hload.
    - destruct (py_get data "tests" (PDict [])) as [b|] eqn:Hget.
      + destruct (py_items b) as [items|] eqn:Hitems.
        * by eapply swift_json_loop_no_exit.
        * destruct b; simpl in Hitems; try done;
            injection Hitems as <-; by injection Htry as _ <-.
      + destruct data; simpl in Hget; try done;
          injection Hget as <-; by injection Htry as _ <-.
    - injection Htry as _ <-. by eapply load_no_exit. }
  destruct e'; try done; try apply Htext; simpl; intros [= <-]; done.
Qed.

Lemma parse_rust_at_no_exit f e :
  (parse_rust_at f).1 = Raise e -> is_exit e = false.
Proof.
  destruct f as [f|]; [apply parse_rust_results_no_exit|done].
Qed.

Lemma parse_swift_at_no_exit f e :
  (parse_swift_at f).1 = Raise e -> is_exit e = false.
Proof.
  destruct f as [[j [t|]]|]; [apply parse_swift_results_no_exit|done|done].
Qed.

Lemma exit_status_raise e out :
  is_exit e = false -> exit_status (Raise e, out) = 1.
Proof. by destruct e. Qed.

Lemma main_after_parsing (w : world) rl rb sl sb o1 o2 o3 o4 :
  dir_exists w = true ->
  parse_rust_at (rust_latest_file w) = (Ok rl, o1) ->
  parse_rust_at (rust_baseline_file w) = (Ok rb, o2) ->
  parse_swift_at (swift_latest_files w) = (Ok sl, o3) ->
  parse_swift_at (swift_baseline_files w) = (Ok sb, o4) ->
  main w
  = ((after_parsing w rl rb sl sb).1,
     ((if verbose w then [VerbosePaths] else []) ++ o1 ++ o2 ++ o3 ++ o4)
     ++ (after_parsing w rl rb sl sb).2).
Proof.
  intros Hdir H1 H2 H3 H4. unfold main, after_parsing.
  rewrite Hdir, H1, H2, H3, H4. simpl negb. cbv iota.
  destruct (verbose w); simpl;
    destruct (is_empty rl && is_empty sl); simpl;
    rewrite ?compare_results_ok; simpl;
    destruct (report_failure w); simpl;
    try destruct (0 <? sum_ones _ _); simpl;
    rewrite ?app_nil_r, <- ?app_assoc; reflexivity.
Qed.

(** X11. When the step that writes the report does not itself leave the
    program, [main] ends with the status 0 or 1, and the status 0 means
    that [main] returned after the report was written and that no
    regression was announced. Without the results directory only the error
    is printed. *)
Theorem exit_zero_means_report (w : world) :
  (forall e, report_failure w = Some e -> is_exit e = false) ->
  (exit_status (main w) = 0 ∨ exit_status (main w) = 1)
  ∧ (exit_status (main w) = 0 ->
     (main w).1 = Ok tt
     ∧ ReportGenerated ∈ (main w).2
     ∧ forall n, WarnRegressions n ∉ (main w).2)
  ∧ (dir_exists w = false -> (main w).2 = [ErrorNoDirectory]).
Proof.
  intros Hrep.
  destruct (dir_exists w) eqn:Hdir.
  2:{ unfold main. rewrite Hdir. simpl.
      split; [by right|]. split; [|done]. intros H. discriminate H. }
  assert (forall X Y Z : Prop, X ∧ Y -> Z -> X ∧ Y ∧ Z) as Hsplit by tauto.
  apply Hsplit; [|done].
  assert (forall e out,
            is_exit e = false ->
            main w = (Raise e, out) ->
            (exit_status (main w) = 0 ∨ exit_status (main w) = 1)
            ∧ (exit_status (main w) = 0 ->
               (main w).1 = Ok tt
               ∧ ReportGenerated ∈ (main w).2
               ∧ forall n, WarnRegressions n ∉ (main w).2)) as Hraise.
  { intros e out He ->. rewrite (exit_status_raise e out He).
    split; [by right|]. intros H. discriminate H. }
  set (v := if verbose w then [VerbosePaths] else []).
  destruct (parse_rust_at (rust_latest_file w)) as [[rl|e1] o1] eqn:H1.
  2:{ apply (Hraise e1 (v ++ o1)).
      - apply (parse_rust_at_no_exit (rust_latest_file w)). by rewrite H1.
      - unfold main, v. rewrite Hdir, H1. by destruct (verbose w). }
  destruct (parse_rust_at (rust_baseline_file w)) as [[rb|e2] o2] eqn:H2.
  2:{ apply (Hraise e2 (v ++ o1 ++ o2)).
      - apply (parse_rust_at_no_exit (rust_baseline_file w)). by rewrite H2.
      - unfold main, v. rewrite Hdir, H1, H2. by destruct (verbose w). }
  destruct (parse_swift_at (swift_latest_files w)) as [[sl|e3] o3] eqn:H3.
  2:{ apply (Hraise e3 (v ++ o1 ++ o2 ++ o3)).
      - apply (parse_swift_at_no_exit (swift_latest_files w)). by rewrite H3.
      - unfold main, v. rewrite Hdir, H1, H2, H3. by destruct (verbose w). }
  destruct (parse_swift_at (swift_baseline_files w)) as [[sb|e4] o4] eqn:H4.
  2:{ apply (Hraise e4 (v ++ o1 ++ o2 ++ o3 ++ o4)).
      - apply (parse_swift_at_no_exit (swift_baseline_files w)).
        by rewrite H4.
      - unfold main, v. rewrite Hdir, H1, H2, H3, H4.
        by destruct (verbose w). }
  assert (Forall (fun ev => ev = VerbosePaths
                            ∨ (exists e, ev = WarnRust e)
                            ∨ exists e, ev = WarnSwift e)
            (v ++ o1 ++ o2 ++ o3 ++ o4)) as Hquiet.
  { assert (forall f r o, parse_rust_at f = (r, o) ->
              Forall (fun ev => ev = VerbosePaths
                                ∨ (exists e, ev = WarnRust e)
                                ∨ exists e, ev = WarnSwift e) o) as Hr.
    { intros [f|] r o; simpl; [|by intros [= _ <-]].
      unfold parse_rust_results. destruct (rust_try f) as [acc [e|]].
      - destruct e; intros [= _ <-]; try (by constructor);
          (constructor; [right; left; by eexists|constructor]).
      - by intros [= _ <-]. }
    assert (forall f r o, parse_swift_at f = (r, o) ->
              Forall (fun ev => ev = VerbosePaths
                                ∨ (exists e, ev = WarnRust e)
                                ∨ exists e, ev = WarnSwift e) o) as Hs.
    { assert (forall (text : option text_file) acc r o,
                (match text with
                 | None => (Ok acc, [])
                 | Some NoSuchText => (Ok acc, [WarnSwift FileNotFoundError])
                 | Some (UnreadableText r) => (Raise (read_error r), [])
                 | Some (Text content) =>
                     match parse_swift_text content acc with
                     | Ok r => (Ok r, [])
                     | Raise e => (Raise e, [])
                     end
                 end : io results) = (r, o) ->
                Forall (fun ev => ev = VerbosePaths
                                  ∨ (exists e, ev = WarnRust e)
                                  ∨ exists e, ev = WarnSwift e) o) as Ht.
      { intros [[|rf|content]|] acc r o.
        - intros [= _ <-].
          constructor; [right; right; by eexists|constructor].
        - by intros [= _ <-].
        - destruct (parse_swift_text content acc); by intros [= _ <-].
        - by intros [= _ <-]. }
      intros [[j [t|]]|] r o; simpl; try (by intros [= _ <-]).
      unfold parse_swift_results. destruct j as [f|]; [|apply (Ht (Some t))].
      destruct (swift_json_try f) as [acc [e|]].
      - destruct e; try apply (Ht (Some t)); by intros [= _ <-].
      - by intros [= _ <-]. }
    repeat (apply Forall_app; split); eauto.
    unfold v. destruct (verbose w); repeat constructor. }
  rewrite (main_after_parsing w rl rb sl sb o1 o2 o3 o4 Hdir H1 H2 H3 H4).
  fold v. unfold exit_status. simpl.
  assert (forall n, WarnRegressions n ∉ v ++ o1 ++ o2 ++ o3 ++ o4) as Hnowarn.
  { intros n Hin. rewrite Forall_forall in Hquiet.
    destruct (Hquiet _ Hin) as [?|[[? ?]|[? ?]]]; done. }
  unfold after_parsing. destruct (is_empty rl && is_empty sl).
  { split; [by right|]. intros H. discriminate H. }
  rewrite !compare_results_ok. simpl.
  destruct (report_failure w) as [e|] eqn:Hf; simpl.
  { pose proof (Hrep e eq_refl) as He. destruct e; try done;
      (split; [by right|]); intros H; discriminate H. }
  destruct (0 <? sum_ones _ _); simpl.
  - split; [by right|]. intros H. discriminate H.
  - split; [by left|]. intros _. split; [done|]. split.
    + apply elem_of_app. right. apply list_elem_of_here.
    + intros n Hn. apply elem_of_app in Hn as [Hn|Hn];
        [by apply (Hnowarn n)|].
      apply list_elem_of_singleton in Hn. done.
Qed.

Lemma exit_zero_means_report_witness :
  ReportGenerated ∈ (main (world_with_one_benchmark 100 100)).2.
Proof.
  apply (proj1 (proj2 (exit_zero_means_report
                         (world_with_one_benchmark 100 100)
                         ltac:(intros e H; discriminate H)))).
  vm_compute. reflexivity.
Defined.

Lemma compare_results_no_baseline (latest : results) (T : float) :
  compare_results ∅ latest T = Ok [].
Proof.
  rewrite compare_results_ok. f_equal.
  induction (sorted (dom (∅ : results) ∪ dom latest)) as [|n l IH]; [done|].
  simpl. unfold shared at 1. by rewrite lookup_empty.
Qed.

(** X12. A first run, with no baseline file for either source: when the
    latest files give at least one measurement and the report is written,
    [main] compares nothing, announces no regression and returns, so that
    the status is 0; it prints the warnings of the parsers and the line of
    the report. *)
Theorem first_run_exits_zero (w : world) (rust_latest swift_latest : results)
    (o1 o3 : list event) :
  dir_exists w = true ->
  rust_baseline_file w = None ->
  swift_baseline_files w = None ->
  report_failure w = None ->
  parse_rust_at (rust_latest_file w) = (Ok rust_latest, o1) ->
  parse_swift_at (swift_latest_files w) = (Ok swift_latest, o3) ->
  ¬ (rust_latest = ∅ ∧ swift_latest = ∅) ->
  main w
  = (Ok tt,
     (if verbose w then [VerbosePaths] else []) ++ o1 ++ o3
     ++ [ReportGenerated])
  ∧ exit_status (main w) = 0.
Proof.
  intros Hdir Hrb Hsb Hrep H1 H3 Hne.
  assert (is_empty rust_latest && is_empty swift_latest = false) as Hemp.
  { apply andb_false_iff.
    destruct (is_empty rust_latest) eqn:E1; [|by left].
    destruct (is_empty swift_latest) eqn:E2; [|by right].
    exfalso. apply Hne. split; by apply is_empty_true. }
  assert (main w
          = (Ok tt,
             (if verbose w then [VerbosePaths] else []) ++ o1 ++ o3
             ++ [ReportGenerated])) as Hmain.
  { unfold main. rewrite Hdir, Hrb, Hsb, H1, H3. simpl negb. cbv iota.
    destruct (verbose w); simpl; rewrite Hemp, !compare_results_no_baseline,
      Hrep; simpl; by rewrite ?app_nil_r. }
  split; [exact Hmain|]. by rewrite Hmain.
Qed.

Lemma first_run_exits_zero_witness :
  main world_without_baseline = (Ok tt, [ReportGenerated]).
Proof.
  refine (proj1 (first_run_exits_zero world_without_baseline
                   {[ "x" := BenchmarkResult.mk "x" (Float.of_Z 100)
                               (PStr "ns") PNone ]} ∅ [] []
                   eq_refl eq_refl eq_refl eq_refl _ _ _)).
  - vm_compute. reflexivity.
  - reflexivity.
  - intros [H _]. apply (f_equal (fun m : results => m !! "x")) in H.
    vm_compute in H. discriminate H.
Defined.

(** * Further properties of the value formatter *)

Lemma below_zero_not_above (value : float) (k : Z) :
  (exists m e, Float.of_Z k = S754_finite false m e) ->
  Float.geb value Float.zero = false ->
  Float.geb value (Float.of_Z k) = false.
Proof.
  intros (m & e & ->).
  destruct value as [s|s| |s mv ev]; try done; destruct s; done.
Qed.

(** X13. A value that is not at least zero (a negative number, or not a
    number) never changes scale: [format_value] prints it in the unit that
    it is given in, with the decimals of that unit, however large its
    magnitude. *)
Theorem format_value_below_zero (value : float) (unit : string) :
  Float.geb value Float.zero = false ->
  format_value value unit
  = (format_fixed (decimals unit) value ++ unit)%string.
Proof.
  intros Hneg. apply format_value_unscaled. unfold unscaled.
  rewrite !below_zero_not_above; try done;
    try (vm_compute; by eexists _, _).
  by repeat destruct (String.eqb _ _).
Qed.

Lemma format_value_below_zero_witness :
  format_value (Float.of_Z (-5000000000)) "ns" = "-5000000000ns".
Proof.
  rewrite (format_value_below_zero (Float.of_Z (-5000000000)) "ns" eq_refl).
  vm_compute. reflexivity.
Defined.
(** * The search for the result files *)

Lemma list_ascii_of_string_app (a b : string) :
  list_ascii_of_string (a +:+ b)
  = list_ascii_of_string a ++ list_ascii_of_string b.
Proof. induction a as [|c a IH]; simpl; [done|]. by rewrite IH. Qed.

Lemma string_of_list_ascii_app (a b : list ascii) :
  string_of_list_ascii (a ++ b)
  = string_of_list_ascii a +:+ string_of_list_ascii b.
Proof. induction a as [|c a IH]; simpl; [done|]. by rewrite IH. Qed.

Lemma string_append_assoc (a b c : string) :
  a +:+ b +:+ c = (a +:+ b) +:+ c.
Proof.
  induction a as [|x a IH]; [done|].
  change (String x (a +:+ b +:+ c) = String x ((a +:+ b) +:+ c)).
  by rewrite IH.
Qed.

Lemma ends_with_spec (suffix l : list ascii) :
  ends_with suffix l = true <-> exists mid, l = mid ++ suffix.
Proof.
  unfold ends_with. split.
  - destruct (starts_with (rev suffix) (rev l)) as [t|] eqn:Hs; [|done].
    intros _. apply starts_with_spec in Hs. exists (rev t).
    rewrite <- (rev_involutive l), Hs, rev_app_distr. by rewrite rev_involutive.
  - intros (mid & ->).
    assert (starts_with (rev suffix) (rev (mid ++ suffix)) = Some (rev mid))
      as ->; [|done].
    apply starts_with_spec. apply rev_app_distr.
Qed.

Lemma glob_match_named (prefix suffix name : string) :
  glob_match prefix suffix name = true <-> named prefix suffix name.
Proof.
  unfold glob_match, named. split.
  - destruct (starts_with _ _) as [rest|] eqn:Hs; [|done].
    intros He. apply starts_with_spec in Hs.
    apply ends_with_spec in He as (mid & ->).
    exists (string_of_list_ascii mid).
    rewrite <- (string_of_list_ascii_of_string name), Hs.
    rewrite !string_of_list_ascii_app, !string_of_list_ascii_of_string.
    symmetry. apply string_append_assoc.
  - intros (mid & ->).
    assert (starts_with (list_ascii_of_string (prefix +:+ "-"))
              (list_ascii_of_string (prefix +:+ "-" +:+ mid +:+ suffix))
            = Some (list_ascii_of_string mid ++ list_ascii_of_string suffix))
      as ->.
    { apply starts_with_spec. rewrite !list_ascii_of_string_app.
      by rewrite <- !app_assoc. }
    apply ends_with_spec. by eexists.
Qed.

Lemma baseline_named (prefix : string) :
  named prefix ".json" (prefix +:+ "-baseline.json")
  ∧ named prefix ".txt" (prefix +:+ "-baseline.txt").
Proof. split; exists "baseline"; reflexivity. Qed.

Lemma elem_of_glob (results_dir : directory) prefix suffix e :
  e ∈ glob results_dir prefix suffix
  <-> e ∈ results_dir ∧ named prefix suffix (entry_name e).
Proof.
  unfold glob. rewrite !list_elem_of_In, List.filter_In.
  by rewrite glob_match_named.
Qed.

Lemma glob_nil (results_dir : directory) prefix suffix :
  glob results_dir prefix suffix = []
  <-> forall e, e ∈ results_dir -> ¬ named prefix suffix (entry_name e).
Proof.
  split.
  - intros Hnil e He Hn.
    assert (e ∈ glob results_dir prefix suffix) as Hin
      by (by apply elem_of_glob).
    rewrite Hnil in Hin. by apply elem_of_nil in Hin.
  - intros Hno. destruct (glob results_dir prefix suffix) as [|e l] eqn:Hg;
      [done|].
    assert (e ∈ glob results_dir prefix suffix) as Hin
      by (rewrite Hg; apply list_elem_of_here).
    apply elem_of_glob in Hin as [He Hn]. by apply Hno in Hn.
Qed.

Lemma elem_of_candidates (results_dir : directory) prefix e :
  e ∈ candidates results_dir prefix
  <-> e ∈ results_dir
      ∧ (named prefix ".json" (entry_name e)
         ∨ (named prefix ".txt" (entry_name e)
            ∧ forall e', e' ∈ results_dir ->
                ¬ named prefix ".json" (entry_name e'))).
Proof.
  unfold candidates.
  destruct (glob results_dir prefix ".json") as [|x l] eqn:Hg.
  - rewrite elem_of_glob. pose proof (proj1 (glob_nil _ _ _) Hg) as Hno.
    split.
    + intros [He Hn]. split; [done|]. right. by split.
    + intros [He [Hn|[Hn _]]]; [by apply Hno in Hn|done].
  - rewrite <- Hg, elem_of_glob. split.
    + intros [He Hn]. split; [done|]. by left.
    + intros [He [Hn|[_ Hno]]]; [done|].
      assert (x ∈ glob results_dir prefix ".json") as Hx
        by (rewrite Hg; apply list_elem_of_here).
      apply elem_of_glob in Hx as [Hx Hn]. by apply Hno in Hn.
Qed.

Lemma insert_by_mtime_perm e files : insert_by_mtime e files ≡ₚ e :: files.
Proof.
  induction files as [|x l IH]; simpl; [done|].
  destruct (st_mtime e <? st_mtime x); [|done].
  rewrite IH. apply Permutation_swap.
Qed.

Lemma sort_newest_first_perm files : sort_newest_first files ≡ₚ files.
Proof.
  induction files as [|e l IH]; simpl; [done|].
  by rewrite insert_by_mtime_perm, IH.
Qed.

Lemma insert_by_mtime_sorted e files :
  StronglySorted (fun a b => st_mtime b <= st_mtime a) files ->
  StronglySorted (fun a b => st_mtime b <= st_mtime a)
    (insert_by_mtime e files).
Proof.
  induction 1 as [|x l Hs IH Hall]; simpl; [by repeat constructor|].
  destruct (Z.ltb_spec (st_mtime e) (st_mtime x)) as [Hlt|Hge].
  - constructor; [done|].
    rewrite insert_by_mtime_perm. constructor; [lia|done].
  - constructor; [by constructor|]. constructor; [lia|].
    eapply Forall_impl; [exact Hall|]. intros y Hy. simpl in Hy. lia.
Qed.

Lemma sort_newest_first_sorted files :
  StronglySorted (fun a b => st_mtime b <= st_mtime a)
    (sort_newest_first files).
Proof.
  induction files as [|e l IH]; simpl; [constructor|].
  by apply insert_by_mtime_sorted.
Qed.

Lemma sort_newest_first_head files :
  files ≠ [] ->
  exists e rest,
    sort_newest_first files = e :: rest
    ∧ e ∈ files
    ∧ forall e', e' ∈ files -> st_mtime e' <= st_mtime e.
Proof.
  intros Hne. pose proof (sort_newest_first_perm files) as Hperm.
  pose proof (sort_newest_first_sorted files) as Hsort.
  destruct (sort_newest_first files) as [|e rest].
  - apply Permutation_nil_l in Hperm. done.
  - exists e, rest. split; [done|]. split.
    + rewrite <- Hperm. apply list_elem_of_here.
    + intros e' He'. rewrite <- Hperm in He'.
      apply StronglySorted_inv in Hsort as [_ Hall].
      apply elem_of_cons in He' as [->|He']; [lia|].
      rewrite Forall_forall in Hall. by apply Hall.
Qed.

Lemma find_latest_results_candidates (results_dir : directory) prefix :
  find_latest_results results_dir prefix
  = match candidates results_dir prefix with
    | [] => None
    | _ => entry_name <$> head (sort_newest_first
                                   (candidates results_dir prefix))
    end.
Proof. reflexivity. Qed.

(** X14. [find_latest_results] returns a newest file among those that have
    the prefix, a hyphen and the suffix ".json", or, when the directory has
    no such file, among those with the suffix ".txt": no file of that kind
    is newer than the one returned, and a ".txt" file is never preferred to
    a ".json" file, however new. It returns nothing exactly when the
    directory has no file of either kind. *)
Theorem find_latest_results_newest (results_dir : directory) (prefix : string) :
  match find_latest_results results_dir prefix with
  | Some f =>
      exists e,
        entry_name e = f
        ∧ e ∈ results_dir
        ∧ ((named prefix ".json" f
            ∧ forall e', e' ∈ results_dir ->
                named prefix ".json" (entry_name e') ->
                st_mtime e' <= st_mtime e)
           ∨ (named prefix ".txt" f
              ∧ (forall e', e' ∈ results_dir ->
                   ¬ named prefix ".json" (entry_name e'))
              ∧ forall e', e' ∈ results_dir ->
                  named prefix ".txt" (entry_name e') ->
                  st_mtime e' <= st_mtime e))
  | None =>
      forall e, e ∈ results_dir ->
        ¬ named prefix ".json" (entry_name e)
        ∧ ¬ named prefix ".txt" (entry_name e)
  end.
Proof.
  rewrite find_latest_results_candidates.
  destruct (candidates results_dir prefix) as [|x l] eqn:Hc.
  - intros e He. split; intros Hn.
    + assert (e ∈ candidates results_dir prefix) as Hin.
      { apply elem_of_candidates. split; [done|]. by left. }
      rewrite Hc in Hin. by apply elem_of_nil in Hin.
    + assert (forall e', e' ∈ results_dir ->
                ¬ named prefix ".json" (entry_name e')) as Hno.
      { intros e' He' Hn'.
        assert (e' ∈ candidates results_dir prefix) as Hin.
        { apply elem_of_candidates. split; [done|]. by left. }
        rewrite Hc in Hin. by apply elem_of_nil in Hin. }
      assert (e ∈ candidates results_dir prefix) as Hin.
      { apply elem_of_candidates. split; [done|]. right. by split. }
      rewrite Hc in Hin. by apply elem_of_nil in Hin.
  - rewrite <- Hc.
    destruct (sort_newest_first_head (candidates results_dir prefix))
      as (e & rest & -> & He & Hmax); [by rewrite Hc|].
    simpl. exists e. split; [done|].
    apply elem_of_candidates in He as [He Hkind]. split; [done|].
    destruct Hkind as [Hjson|[Htxt Hno]].
    + left. split; [done|]. intros e' He' Hn. apply Hmax.
      apply elem_of_candidates. split; [done|]. by left.
    + right. split; [done|]. split; [done|]. intros e' He' Hn. apply Hmax.
      apply elem_of_candidates. split; [done|]. right. by split.
Qed.

Lemma path_exists_spec (results_dir : directory) (name : string) :
  path_exists results_dir name = true
  <-> exists e, e ∈ results_dir ∧ entry_name e = name.
Proof.
  unfold path_exists. rewrite existsb_exists. split.
  - intros (e & He & Heq). exists e. split; [by apply list_elem_of_In|].
    by apply String.eqb_eq.
  - intros (e & He & Heq). exists e. split; [by apply list_elem_of_In|].
    by apply String.eqb_eq.
Qed.

Lemma candidates_NoDup (results_dir : directory) prefix :
  NoDup (entry_name <$> results_dir) ->
  NoDup (entry_name <$> candidates results_dir prefix).
Proof.
  intros Hnd.
  assert (forall suffix, NoDup (entry_name <$> glob results_dir prefix suffix))
    as Hglob.
  { intros suffix. unfold glob.
    induction results_dir as [|x l IH]; simpl; [constructor|].
    apply NoDup_cons in Hnd as [Hx Hnd].
    destruct (glob_match prefix suffix (entry_name x)); [|by apply IH].
    simpl. apply NoDup_cons. split; [|by apply IH].
    intros Hin. apply Hx. apply list_elem_of_fmap in Hin as (y & Hy & Hin).
    apply list_elem_of_fmap. exists y. split; [done|].
    apply list_elem_of_In, List.filter_In in Hin as [Hin _].
    by apply list_elem_of_In. }
  unfold candidates. destruct (glob results_dir prefix ".json") eqn:Hg.
  - apply Hglob.
  - rewrite <- Hg. apply Hglob.
Qed.

Lemma find_baseline_results_candidates (results_dir : directory) prefix :
  path_exists results_dir (prefix +:+ "-baseline.json") = false ->
  path_exists results_dir (prefix +:+ "-baseline.txt") = false ->
  find_baseline_results results_dir prefix
  = if (length (candidates results_dir prefix) <? 2)%nat then None
    else entry_name
           <$> sort_newest_first (candidates results_dir prefix) !! 1%nat.
Proof.
  intros H1 H2. unfold find_baseline_results. by rewrite H1, H2.
Qed.

(** X15. [find_baseline_results] returns the file "<prefix>-baseline.json"
    when the directory has it, otherwise "<prefix>-baseline.txt" when the
    directory has it. Otherwise it chooses among the same files as
    [find_latest_results]: with fewer than two of them it returns nothing;
    with two or more it returns a file other than the latest one, not
    newer than it, and such that no third file lies between them in
    time. (The names of a directory are distinct.) *)
Theorem find_baseline_results_second (results_dir : directory)
    (prefix : string) :
  NoDup (entry_name <$> results_dir) ->
  (path_exists results_dir (prefix +:+ "-baseline.json") = true ->
   find_baseline_results results_dir prefix
   = Some (prefix +:+ "-baseline.json"))
  ∧ (path_exists results_dir (prefix +:+ "-baseline.json") = false ->
     path_exists results_dir (prefix +:+ "-baseline.txt") = true ->
     find_baseline_results results_dir prefix
     = Some (prefix +:+ "-baseline.txt"))
  ∧ (path_exists results_dir (prefix +:+ "-baseline.json") = false ->
     path_exists results_dir (prefix +:+ "-baseline.txt") = false ->
     match find_baseline_results results_dir prefix with
     | Some b =>
         exists latest second,
           find_latest_results results_dir prefix = Some (entry_name latest)
           ∧ entry_name second = b
           ∧ latest ∈ candidates results_dir prefix
           ∧ second ∈ candidates results_dir prefix
           ∧ entry_name second ≠ entry_name latest
           ∧ st_mtime second <= st_mtime latest
           ∧ forall e, e ∈ candidates results_dir prefix ->
               entry_name e ≠ entry_name latest ->
               st_mtime e <= st_mtime second
     | None => (length (candidates results_dir prefix) < 2)%nat
     end).
Proof.
  intros Hnd. split; [|split].
  - intros H1. unfold find_baseline_results. by rewrite H1.
  - intros H1 H2. unfold find_baseline_results. by rewrite H1, H2.
  - intros H1 H2. rewrite find_baseline_results_candidates by done.
    rewrite find_latest_results_candidates.
    pose proof (candidates_NoDup results_dir prefix Hnd) as Hcnd.
    pose proof (sort_newest_first_perm (candidates results_dir prefix))
      as Hperm.
    pose proof (sort_newest_first_sorted (candidates results_dir prefix))
      as Hsort.
    destruct (Nat.ltb_spec (length (candidates results_dir prefix)) 2)
      as [Hlt|Hge]; [done|].
    rewrite <- Hperm in Hcnd.
    assert (length (sort_newest_first (candidates results_dir prefix))
            = length (candidates results_dir prefix)) as Hlen
      by (by rewrite Hperm).
    destruct (candidates results_dir prefix) as [|c0 cs] eqn:Hc;
      [simpl in Hge; lia|]. rewrite <- Hc in *.
    destruct (sort_newest_first (candidates results_dir prefix))
      as [|latest [|second rest]]; [simpl in Hlen; lia..|].
    simpl. exists latest, second. split; [done|]. split; [done|].
    apply StronglySorted_inv in Hsort as [Hsort Hall1].
    apply StronglySorted_inv in Hsort as [_ Hall2].
    apply Forall_cons in Hall1 as [H21 Hall1].
    simpl in Hcnd. apply NoDup_cons in Hcnd as [Hfresh Hcnd].
    split; [rewrite <- Hperm; apply list_elem_of_here|].
    split; [rewrite <- Hperm; apply list_elem_of_further, list_elem_of_here|].
    split. { intros Heq. apply Hfresh. rewrite <- Heq. apply list_elem_of_here. }
    split; [done|].
    intros e He Hne. rewrite <- Hperm in He.
    apply elem_of_cons in He as [->|He]; [done|].
    apply elem_of_cons in He as [->|He]; [lia|].
    rewrite Forall_forall in Hall2. by apply Hall2.
Qed.

Lemma find_baseline_results_second_witness :
  exists latest second,
    find_latest_results directory_of_runs "rust" = Some (entry_name latest)
    ∧ find_baseline_results directory_of_runs "rust"
      = Some (entry_name second)
    ∧ entry_name second ≠ entry_name latest
    ∧ st_mtime second <= st_mtime latest.
Proof.
  assert (NoDup (entry_name <$> directory_of_runs)) as Hnd.
  { simpl. repeat (apply NoDup_cons; split;
                   [rewrite ?elem_of_cons, ?elem_of_nil; intros H;
                    repeat destruct H as [H|H]; discriminate || done|]).
    constructor. }
  pose proof (proj2 (proj2 (find_baseline_results_second directory_of_runs
                              "rust" Hnd)) eq_refl eq_refl) as H.
  change (find_baseline_results directory_of_runs "rust")
    with (Some "rust-2.json") in H.
  destruct H as (latest & second & Hl & Hs & _ & _ & Hne & Hle & _).
  exists latest, second. split; [exact Hl|]. split; [by rewrite Hs|].
  split; [exact Hne|exact Hle].
Defined.

(** X16. When the file "<prefix>-baseline.json" is in the directory and is
    newer than every other file with the prefix and the suffix ".json",
    both searches return it: the latest results are then the baseline
    itself. *)
Theorem latest_is_baseline_when_newest (results_dir : directory)
    (prefix : string) (baseline : dir_entry) :
  baseline ∈ results_dir ->
  entry_name baseline = prefix +:+ "-baseline.json" ->
  (forall e, e ∈ results_dir ->
     named prefix ".json" (entry_name e) ->
     entry_name e ≠ entry_name baseline ->
     st_mtime e < st_mtime baseline) ->
  find_latest_results results_dir prefix = Some (entry_name baseline)
  ∧ find_baseline_results results_dir prefix = Some (entry_name baseline).
Proof.
  intros Hin Hname Hnewer. split.
  - pose proof (find_latest_results_candidates results_dir prefix) as Heq.
    assert (baseline ∈ candidates results_dir prefix) as Hcand.
    { apply elem_of_candidates. split; [done|]. left. rewrite Hname.
      apply baseline_named. }
    destruct (sort_newest_first_head (candidates results_dir prefix))
      as (e & rest & Hsort & He & Hmax).
    { intros Hnil. rewrite Hnil in Hcand. by apply elem_of_nil in Hcand. }
    rewrite Heq, Hsort.
    destruct (candidates results_dir prefix) as [|c0 cs] eqn:Hc;
      [by apply elem_of_nil in Hcand|]. rewrite <- Hc in *. simpl. f_equal.
    destruct (decide (entry_name e = entry_name baseline)) as [|Hne];
      [done|].
    exfalso. pose proof (Hmax baseline Hcand) as Hle.
    apply elem_of_candidates in He as [He [Hn|[_ Hno]]].
    + pose proof (Hnewer e He Hn Hne). lia.
    + apply (Hno baseline Hin). rewrite Hname. apply baseline_named.
  - unfold find_baseline_results.
    assert (path_exists results_dir (prefix +:+ "-baseline.json") = true)
      as ->; [|by rewrite Hname].
    apply path_exists_spec. by exists baseline.
Qed.

Lemma latest_is_baseline_when_newest_witness :
  find_latest_results directory_with_new_baseline "rust"
  = Some "rust-baseline.json"
  ∧ find_baseline_results directory_with_new_baseline "rust"
    = Some "rust-baseline.json".
Proof.
  apply (latest_is_baseline_when_newest directory_with_new_baseline "rust"
           {| entry_name := "rust-baseline.json"; st_mtime := 2 |}).
  - apply list_elem_of_further, list_elem_of_here.
  - reflexivity.
  - intros e He _ Hne. apply elem_of_cons in He as [->|He]; [simpl; lia|].
    apply list_elem_of_singleton in He as ->. done.
Defined.
(** * The Markdown report *)

Lemma current_field_spec (py_str : pyval -> string) (metadata : pyval)
    (key : string) :
  match current_field py_str metadata key with
  | Ok _ => is_dict metadata = true
  | Raise e => e = AttributeError ∧ is_dict metadata = false
  end.
Proof. by destruct metadata. Qed.

Lemma baseline_field_spec (py_str : pyval -> string)
    (baseline_metadata : pyval) (key : string) :
  match baseline_field py_str baseline_metadata key with
  | Ok _ => py_truthy baseline_metadata = true -> is_dict baseline_metadata = true
  | Raise e =>
      e = AttributeError
      ∧ py_truthy baseline_metadata = true ∧ is_dict baseline_metadata = false
  end.
Proof.
  unfold baseline_field.
  destruct (py_truthy baseline_metadata) eqn:Ht; [|done].
  by destruct baseline_metadata.
Qed.

Lemma markdown_lines_outcome (py_str : pyval -> string) now rust swift
    metadata baseline_metadata :
  match markdown_lines py_str now rust swift metadata baseline_metadata with
  | Ok _ =>
      is_dict metadata = true
      ∧ (py_truthy baseline_metadata = true ->
         is_dict baseline_metadata = true)
  | Raise e =>
      e = AttributeError
      ∧ ¬ (is_dict metadata = true
           ∧ (py_truthy baseline_metadata = true ->
              is_dict baseline_metadata = true))
  end.
Proof.
  unfold markdown_lines.
  pose proof (current_field_spec py_str metadata "commit_hash") as H1.
  destruct (current_field py_str metadata "commit_hash") as [c1|e1]; simpl.
  2:{ destruct H1 as [-> H1]. split; [done|]. intros [H _]. congruence. }
  pose proof (baseline_field_spec py_str baseline_metadata "commit_hash")
    as H2.
  destruct (baseline_field py_str baseline_metadata "commit_hash")
    as [c2|e2]; simpl.
  2:{ destruct H2 as (-> & Ht & Hd). split; [done|]. intros [_ H].
      specialize (H Ht). congruence. }
  pose proof (current_field_spec py_str metadata "branch") as H3.
  destruct (current_field py_str metadata "branch") as [c3|e3]; simpl.
  2:{ destruct H3 as [-> H3]. congruence. }
  pose proof (baseline_field_spec py_str baseline_metadata "branch")
    as H4.
  destruct (baseline_field py_str baseline_metadata "branch")
    as [c4|e4]; simpl.
  2:{ destruct H4 as (-> & Ht & Hd). specialize (H2 Ht). congruence. }
  pose proof (current_field_spec py_str metadata "commit_date") as H5.
  destruct (current_field py_str metadata "commit_date") as [c5|e5]; simpl.
  2:{ destruct H5 as [-> H5]. congruence. }
  pose proof (baseline_field_spec py_str baseline_metadata "commit_date")
    as H6.
  destruct (baseline_field py_str baseline_metadata "commit_date")
    as [c6|e6]; simpl.
  2:{ destruct H6 as (-> & Ht & Hd). specialize (H2 Ht). congruence. }
  done.
Qed.

(** X17. [generate_markdown_report] returns exactly when the metadata is
    a dict and the baseline metadata is a dict or counts as false ([None],
    an empty dict, an empty list, an empty string, a zero); otherwise it
    raises [AttributeError], for a JSON document that is a list, say. *)
Theorem markdown_report_raises (py_str : pyval -> string) (now : string)
    (rust_comparisons swift_comparisons : list ComparisonResult.t)
    (metadata baseline_metadata : pyval) :
  (returns (generate_markdown_report py_str now rust_comparisons
              swift_comparisons metadata baseline_metadata)
   <-> is_dict metadata = true
       ∧ (py_truthy baseline_metadata = true ->
          is_dict baseline_metadata = true))
  ∧ forall e,
      generate_markdown_report py_str now rust_comparisons swift_comparisons
        metadata baseline_metadata = Raise e ->
      e = AttributeError.
Proof.
  unfold generate_markdown_report.
  pose proof (markdown_lines_outcome py_str now rust_comparisons
                swift_comparisons metadata baseline_metadata) as H.
  destruct (markdown_lines _ _ _ _ _ _) as [lines|e]; simpl.
  - split; [|done]. split; [done|]. intros _. by eexists.
  - destruct H as [-> H]. split; [|by intros e' [= <-]].
    split; [by intros [? ?]|done].
Qed.


Lemma filter_map_none {A} (p : string -> bool) (f : A -> string) (l : list A) :
  (forall a, p (f a) = false) -> List.filter p (map f l) = [].
Proof.
  intros Hp. induction l as [|a l IH]; simpl; [done|]. by rewrite Hp.
Qed.

Lemma filter_flat_map_none {A} (p : string -> bool) (f : A -> list string)
    (l : list A) :
  (forall a, List.filter p (f a) = []) -> List.filter p (flat_map f l) = [].
Proof.
  intros Hp. induction l as [|a l IH]; simpl; [done|].
  by rewrite List.filter_app, Hp, IH.
Qed.

Lemma filter_flat_map_one {A} (p : string -> bool) (f : A -> list string)
    (g : A -> string) (l : list A) :
  (forall a, List.filter p (f a) = [g a]) ->
  List.filter p (flat_map f l) = map g l.
Proof.
  intros Hp. induction l as [|a l IH]; simpl; [done|].
  by rewrite List.filter_app, Hp, IH.
Qed.

Lemma existsb_filter {A} (p : A -> bool) (l : list A) :
  existsb p l = match List.filter p l with [] => false | _ :: _ => true end.
Proof.
  induction l as [|a l IH]; simpl; [done|]. destruct (p a); simpl; done.
Qed.

Lemma sum_ones_filter (p : ComparisonResult.t -> bool) cs :
  sum_ones p cs = Z.of_nat (length (List.filter p cs)).
Proof.
  rewrite sum_ones_count. f_equal.
  induction cs as [|c cs IH]; [done|].
  rewrite filter_cons. cbn [List.filter].
  destruct (decide (p c = true)) as [Hp|Hp].
  - rewrite Hp. simpl. by rewrite IH.
  - apply not_true_is_false in Hp. by rewrite Hp.
Qed.

Lemma markdown_lines_inv (py_str : pyval -> string) now rust swift metadata
    baseline_metadata lines :
  markdown_lines py_str now rust swift metadata baseline_metadata = Ok lines ->
  exists commit baseline_commit branch baseline_branch date baseline_date,
    lines
    = environment_lines now commit baseline_commit branch baseline_branch date
        baseline_date
      ++ banner_lines (rust ++ swift)
      ++ count_lines rust swift
      ++ table_section py_str "## Rust Benchmarks"
           "| Benchmark | Baseline | Current | Change |"
           "|-----------|----------|---------|--------|" rust
      ++ table_section py_str "## Swift Performance Tests"
           "| Test | Baseline | Current | Change |"
           "|------|----------|---------|--------|" swift
      ++ regression_section py_str (rust ++ swift)
      ++ improvement_section py_str (rust ++ swift).
Proof.
  unfold markdown_lines.
  destruct (current_field py_str metadata "commit_hash") as [c1|]; [|done].
  destruct (baseline_field py_str baseline_metadata "commit_hash") as [c2|];
    [|done].
  destruct (current_field py_str metadata "branch") as [c3|]; [|done].
  destruct (baseline_field py_str baseline_metadata "branch") as [c4|];
    [|done].
  destruct (current_field py_str metadata "commit_date") as [c5|]; [|done].
  destruct (baseline_field py_str baseline_metadata "commit_date") as [c6|];
    [|done].
  intros [= <-]. by exists c1, c2, c3, c4, c5, c6.
Qed.

Lemma filter_table_section (py_str : pyval -> string) (p : string -> bool)
    title header rule cs :
  (forall c, p (table_row py_str c) = false) ->
  List.filter p (table_section py_str title header rule cs)
  = match cs with
    | [] => []
    | _ :: _ => List.filter p [title; ""; header; rule] ++ List.filter p [""]
    end.
Proof.
  intros Hrow. unfold table_section. destruct cs as [|c cs]; [done|].
  by rewrite !List.filter_app, filter_map_none.
Qed.

Lemma filter_regression_section (py_str : pyval -> string)
    (p : string -> bool) (found : list ComparisonResult.t -> list string)
    records :
  (forall cs, List.filter p (flat_map (regression_details py_str) cs)
              = found cs) ->
  List.filter p (regression_section py_str records)
  = match List.filter ComparisonResult.is_regression records with
    | [] => []
    | _ :: _ =>
        List.filter p ["## Regressions Requiring Investigation"; ""]
        ++ found (List.filter ComparisonResult.is_regression records)
    end.
Proof.
  intros Hd. unfold regression_section.
  destruct (List.filter ComparisonResult.is_regression records) as [|c cs];
    [done|].
  by rewrite List.filter_app, Hd.
Qed.

Lemma filter_improvement_section (py_str : pyval -> string)
    (p : string -> bool) records :
  (forall c, p (improvement_line py_str c) = false) ->
  List.filter p (improvement_section py_str records)
  = match List.filter ComparisonResult.is_improvement records with
    | [] => []
    | _ :: _ =>
        List.filter p ["## Notable Improvements"; ""] ++ List.filter p [""]
    end.
Proof.
  intros Hline. unfold improvement_section.
  destruct (List.filter ComparisonResult.is_improvement records) as [|c cs];
    [done|].
  by rewrite !List.filter_app, filter_map_none.
Qed.

Lemma filter_banner_lines (p : string -> bool) records :
  (forall s, p ("**" +:+ s) = false) -> p "" = false ->
  List.filter p (banner_lines records) = [].
Proof.
  intros Hp He. unfold banner_lines. destruct (0 <? sum_ones _ _); [|done].
  simpl. change (String "*" (String "*" ?s)) with ("**" +:+ s).
  by rewrite Hp, He.
Qed.

(** The headings among the elements of the list [lines]. *)
Lemma markdown_lines_outline (py_str : pyval -> string) (now : string)
    (rust_comparisons swift_comparisons : list ComparisonResult.t)
    (metadata baseline_metadata : pyval) (lines : list string) :
  markdown_lines py_str now rust_comparisons swift_comparisons metadata
    baseline_metadata = Ok lines ->
  List.filter (String.prefix "## ") lines
  = ["## Environment"; "## Summary"]
    ++ (match rust_comparisons with
        | [] => []
        | _ :: _ => ["## Rust Benchmarks"]
        end)
    ++ (match swift_comparisons with
        | [] => []
        | _ :: _ => ["## Swift Performance Tests"]
        end)
    ++ (if existsb ComparisonResult.is_regression
             (rust_comparisons ++ swift_comparisons)
        then ["## Regressions Requiring Investigation"] else [])
    ++ (if existsb ComparisonResult.is_improvement
             (rust_comparisons ++ swift_comparisons)
        then ["## Notable Improvements"] else [])
  ∧ List.filter (String.prefix "### ") lines
    = map (fun c => "### " +:+ ComparisonResult.name c)
        (List.filter ComparisonResult.is_regression
           (rust_comparisons ++ swift_comparisons)).
Proof.
  intros Hlines.
  destruct (markdown_lines_inv _ _ _ _ _ _ _ Hlines)
    as (c1 & c2 & c3 & c4 & c5 & c6 & ->).
  rewrite !existsb_filter. clear Hlines.
  generalize (rust_comparisons ++ swift_comparisons). intros records.
  rewrite !List.filter_app. split.
  - rewrite filter_banner_lines by reflexivity.
    rewrite !filter_table_section by reflexivity.
    rewrite (filter_regression_section py_str _ (fun _ => []))
      by (intros cs; by apply filter_flat_map_none).
    rewrite filter_improvement_section by reflexivity.
    destruct rust_comparisons, swift_comparisons,
      (List.filter ComparisonResult.is_regression records),
      (List.filter ComparisonResult.is_improvement records); reflexivity.
  - rewrite filter_banner_lines by reflexivity.
    rewrite !filter_table_section by reflexivity.
    rewrite (filter_regression_section py_str _
               (map (fun c => "### " +:+ ComparisonResult.name c))).
    2:{ intros cs. apply filter_flat_map_one. intros c. simpl.
        by destruct (ComparisonResult.name c). }
    rewrite filter_improvement_section by reflexivity.
    destruct rust_comparisons, swift_comparisons,
      (List.filter ComparisonResult.is_regression records),
      (List.filter ComparisonResult.is_improvement records);
      simpl; rewrite ?app_nil_r; reflexivity.
Qed.

Lemma prefix_empty (s : string) : String.prefix "" s = true.
Proof. by destruct s. Qed.

Lemma count_identity (records : list ComparisonResult.t) :
  Z.of_nat (length records)
  - Z.of_nat (length (List.filter ComparisonResult.is_regression records))
  - Z.of_nat (length (List.filter ComparisonResult.is_improvement records))
  = Z.of_nat (length (List.filter no_flag records))
    - Z.of_nat (length (List.filter both_flags records)).
Proof.
  induction records as [|c cs IH]; [done|].
  simpl. unfold no_flag at 1, both_flags at 1.
  destruct (ComparisonResult.is_regression c),
    (ComparisonResult.is_improvement c); simpl; lia.
Qed.

(** The counts among the elements of the list [lines]. *)
Lemma markdown_lines_summary (py_str : pyval -> string) (now : string)
    (rust_comparisons swift_comparisons : list ComparisonResult.t)
    (metadata baseline_metadata : pyval) (lines : list string) :
  markdown_lines py_str now rust_comparisons swift_comparisons metadata
    baseline_metadata = Ok lines ->
  let records := rust_comparisons ++ swift_comparisons in
  let count p := Z.of_nat (length (List.filter p records)) in
  List.filter (String.prefix "- Total benchmarks: ") lines
  = ["- Total benchmarks: " +:+ str_of_int (Z.of_nat (length records))]
  ∧ List.filter (String.prefix "- Improvements: ") lines
    = ["- Improvements: "
       +:+ str_of_int (count ComparisonResult.is_improvement)]
  ∧ List.filter (String.prefix "- Regressions: ") lines
    = ["- Regressions: "
       +:+ str_of_int (count ComparisonResult.is_regression)]
  ∧ List.filter (String.prefix "- Unchanged: ") lines
    = ["- Unchanged: " +:+ str_of_int (count no_flag - count both_flags)]
  ∧ List.filter (String.prefix "**") lines
    = if existsb ComparisonResult.is_regression records
      then ["**" +:+ str_of_int (count ComparisonResult.is_regression)
            +:+ " regression(s) detected**"]
      else [].
Proof.
  intros Hlines records count.
  destruct (markdown_lines_inv _ _ _ _ _ _ _ Hlines)
    as (c1 & c2 & c3 & c4 & c5 & c6 & ->).
  fold records. clear Hlines.
  assert (Z.of_nat (length rust_comparisons)
          + Z.of_nat (length swift_comparisons)
          = Z.of_nat (length records)) as Htotal.
  { unfold records. rewrite length_app. lia. }
  assert (count_lines rust_comparisons swift_comparisons
          = ["- Total benchmarks: " +:+ str_of_int (Z.of_nat (length records));
             "- Improvements: "
             +:+ str_of_int (count ComparisonResult.is_improvement);
             "- Regressions: "
             +:+ str_of_int (count ComparisonResult.is_regression);
             "- Unchanged: "
             +:+ str_of_int (count no_flag - count both_flags);
             ""]) as Hcounts.
  { unfold count_lines. fold records.
    rewrite !sum_ones_filter, Htotal, count_identity. reflexivity. }
  assert (banner_lines records
          = if existsb ComparisonResult.is_regression records
            then ["**" +:+ str_of_int (count ComparisonResult.is_regression)
                  +:+ " regression(s) detected**"; ""]
            else []) as Hbanner.
  { unfold banner_lines, count. rewrite sum_ones_filter, existsb_filter.
    destruct (List.filter ComparisonResult.is_regression records); [done|].
    assert ((0 <? Z.of_nat (length (t :: l))) = true) as ->
      by (apply Z.ltb_lt; simpl; lia).
    reflexivity. }
  rewrite Hcounts. clear Hcounts Htotal.
  generalize dependent count. intros count Hbanner.
  clearbody records.
  assert (forall p, (forall c, p (table_row py_str c) = false) ->
            (forall c, p (improvement_line py_str c) = false) ->
            (forall cs, List.filter p (flat_map (regression_details py_str) cs)
                        = []) ->
            p "" = false -> p "## Rust Benchmarks" = false ->
            p "| Benchmark | Baseline | Current | Change |" = false ->
            p "|-----------|----------|---------|--------|" = false ->
            p "## Swift Performance Tests" = false ->
            p "| Test | Baseline | Current | Change |" = false ->
            p "|------|----------|---------|--------|" = false ->
            p "## Regressions Requiring Investigation" = false ->
            p "## Notable Improvements" = false ->
            List.filter p
              (table_section py_str "## Rust Benchmarks"
                 "| Benchmark | Baseline | Current | Change |"
                 "|-----------|----------|---------|--------|"
                 rust_comparisons)
            ++ List.filter p
                 (table_section py_str "## Swift Performance Tests"
                    "| Test | Baseline | Current | Change |"
                    "|------|----------|---------|--------|" swift_comparisons)
            ++ List.filter p (regression_section py_str records)
            ++ List.filter p (improvement_section py_str records) = [])
    as Hrest.
  { intros p Hrow Himp Hdet He H1 H2 H3 H4 H5 H6 H7 H8.
    rewrite !filter_table_section by done.
    rewrite (filter_regression_section py_str _ (fun _ => [])) by done.
    rewrite filter_improvement_section by done.
    destruct rust_comparisons, swift_comparisons,
      (List.filter ComparisonResult.is_regression _),
      (List.filter ComparisonResult.is_improvement _); simpl;
      rewrite ?He, ?H1, ?H2, ?H3, ?H4, ?H5, ?H6, ?H7, ?H8; reflexivity. }
  repeat split.
  - rewrite !List.filter_app.
    assert (List.filter (String.prefix "- Total benchmarks: ")
              (environment_lines now c1 c2 c3 c4 c5 c6) = []) as ->
      by reflexivity.
    rewrite filter_banner_lines by reflexivity.
    rewrite Hrest
      by (try reflexivity; intros cs; by apply filter_flat_map_none).
    simpl. by rewrite prefix_empty.
  - rewrite !List.filter_app.
    assert (List.filter (String.prefix "- Improvements: ")
              (environment_lines now c1 c2 c3 c4 c5 c6) = []) as ->
      by reflexivity.
    rewrite filter_banner_lines by reflexivity.
    rewrite Hrest
      by (try reflexivity; intros cs; by apply filter_flat_map_none).
    simpl. by rewrite prefix_empty.
  - rewrite !List.filter_app.
    assert (List.filter (String.prefix "- Regressions: ")
              (environment_lines now c1 c2 c3 c4 c5 c6) = []) as ->
      by reflexivity.
    rewrite filter_banner_lines by reflexivity.
    rewrite Hrest
      by (try reflexivity; intros cs; by apply filter_flat_map_none).
    simpl. by rewrite prefix_empty.
  - rewrite !List.filter_app.
    assert (List.filter (String.prefix "- Unchanged: ")
              (environment_lines now c1 c2 c3 c4 c5 c6) = []) as ->
      by reflexivity.
    rewrite filter_banner_lines by reflexivity.
    rewrite Hrest
      by (try reflexivity; intros cs; by apply filter_flat_map_none).
    simpl. by rewrite prefix_empty.
  - rewrite !List.filter_app.
    assert (List.filter (String.prefix "**")
              (environment_lines now c1 c2 c3 c4 c5 c6) = []) as ->
      by reflexivity.
    rewrite Hrest
      by (try reflexivity; intros cs; by apply filter_flat_map_none).
    rewrite Hbanner.
    destruct (existsb ComparisonResult.is_regression records); [|done].
    simpl. by rewrite prefix_empty.
Qed.

Lemma format_fixed_abs (d : nat) (x : float) :
  format_fixed d x
  = (if sign_bit x then "-" else "") +:+ format_fixed d (SFabs x).
Proof.
  destruct x as [[]|[]| |[] m e]; try reflexivity.
  unfold format_fixed, SFabs, sign_bit.
  by destruct (scale2 (Z.pos m * 10 ^ Z.of_nat d) 1 (- e)).
Qed.

Lemma format_fixed_signed_abs (d : nat) (x : float) :
  format_fixed_signed d x
  = (if sign_bit x then "-" else "+") +:+ format_fixed d (SFabs x).
Proof.
  destruct x as [[]|[]| |[] m e]; try reflexivity.
  unfold format_fixed_signed. rewrite format_fixed_abs. reflexivity.
Qed.

Lemma above_threshold_positive (x T : float) :
  Float.leb Float.zero T = true -> Float.gtb x T = true ->
  sign_bit x = false.
Proof.
  destruct x as [[]|[]| |[] mx ex], T as [[]|[]| |[] mT eT]; done.
Qed.

Lemma below_threshold_negative (x T : float) :
  Float.leb Float.zero T = true -> Float.ltb x (Float.neg T) = true ->
  sign_bit x = true.
Proof.
  destruct x as [[]|[]| |[] mx ex], T as [[]|[]| |[] mT eT]; done.
Qed.

(** X20. In the records that [compare_results] gives at a threshold that
    is not below zero, the change that the Markdown tables show has exactly
    one sign in front of its magnitude, "-" for a change with the sign bit
    set and "+" otherwise, whatever the status: the three ways in which the
    column is formatted agree. (At a threshold below zero a regression with
    a negative change reads "+-".) *)
Theorem change_str_signed (baseline latest : results) (T : float) :
  Float.leb Float.zero T = true ->
  exists recs,
    compare_results baseline latest T = Ok recs
    ∧ forall c, c ∈ recs ->
        change_str c
        = (if sign_bit (ComparisonResult.change_percent c) then "-" else "+")
          +:+ format_fixed 2 (SFabs (ComparisonResult.change_percent c))
          +:+ "%".
Proof.
  intros HT. eexists. split; [apply compare_results_ok|].
  intros c Hc.
  apply elem_of_records in Hc as (n & base & curr & _ & _ & ->).
  unfold change_str, record_of. simpl.
  set (x := change_of base curr).
  destruct (Float.gtb x T) eqn:Hup.
  - rewrite (above_threshold_positive x T HT Hup).
    rewrite (format_fixed_abs 2 x), (above_threshold_positive x T HT Hup).
    reflexivity.
  - destruct (Float.ltb x (Float.neg T)) eqn:Hdown.
    + rewrite (format_fixed_abs 2 x), (below_threshold_negative x T HT Hdown).
      reflexivity.
    + rewrite format_fixed_signed_abs. by destruct (sign_bit x).
Qed.

Lemma change_str_signed_witness :
  exists recs,
    compare_results (single "a" 100) (single "a" 106) (Float.of_Z 5) = Ok recs
    ∧ forall c, c ∈ recs -> change_str c = "+6.00%".
Proof.
  destruct (change_str_signed (single "a" 100) (single "a" 106) (Float.of_Z 5)
              eq_refl) as (recs & Hrecs & Hsign).
  exists recs. split; [exact Hrecs|]. intros c Hc. rewrite (Hsign c Hc).
  assert (recs = [ComparisonResult.mk "a" (Float.of_Z 100) (Float.of_Z 106)
                    (PStr "ns") (Float.of_Z 6) true false]) as ->.
  { assert (Ok recs
            = Ok [ComparisonResult.mk "a" (Float.of_Z 100) (Float.of_Z 106)
                    (PStr "ns") (Float.of_Z 6) true false]) as Heq.
    { rewrite <- Hrecs. vm_compute. reflexivity. }
    by injection Heq. }
  apply list_elem_of_singleton in Hc as ->. vm_compute. reflexivity.
Defined.

(** At the threshold -5.0 a change of -3% is a regression, and its row
    shows both signs. *)
Example change_str_two_signs :
  exists c,
    compare_results (single "a" 100) (single "a" 97) (Float.of_Z (-5))
    = Ok [c]
    ∧ ComparisonResult.is_regression c = true
    ∧ change_str c = "+-3.00%".
Proof. eexists. split; [vm_compute; reflexivity|]. split; reflexivity. Qed.

(** ** The lines of the report that is returned *)

Lemma single_line_append (a b : string) :
  single_line (a +:+ b) = single_line a && single_line b.
Proof.
  induction a as [|c a IH]; simpl; [done|]. by rewrite IH, andb_assoc.
Qed.

Lemma lines_of_single (s : string) : single_line s = true -> lines_of s = [s].
Proof.
  induction s as [|c s IH]; simpl; [done|].
  intros [Hc Hs]%andb_prop. apply negb_true_iff in Hc.
  by rewrite Hc, IH.
Qed.

Lemma lines_of_append (a rest : string) :
  single_line a = true ->
  lines_of (a +:+ String "010" rest) = a :: lines_of rest.
Proof.
  induction a as [|c a IH]; simpl; [done|].
  intros [Hc Hs]%andb_prop. apply negb_true_iff in Hc.
  by rewrite Hc, IH.
Qed.

(** The lines of the joined text are the elements of the list, when no
    element has a newline. *)
Lemma lines_of_concat (lines : list string) :
  lines ≠ [] -> Forall (fun l => single_line l = true) lines ->
  lines_of (String.concat newline lines) = lines.
Proof.
  intros Hne Hall. induction Hall as [|l rest Hl Hrest IH]; [done|].
  destruct rest as [|l2 rest]; [by apply lines_of_single|].
  change (String.concat newline (l :: l2 :: rest))
    with (l +:+ String "010" (String.concat newline (l2 :: rest))).
  rewrite lines_of_append by done. by rewrite IH.
Qed.

Lemma single_line_chars (l : list ascii) :
  Forall (fun c => c ≠ "010"%char) l ->
  single_line (string_of_list_ascii l) = true.
Proof.
  induction 1 as [|c l Hc _ IH]; simpl; [done|].
  rewrite IH, andb_true_r. by apply negb_true_iff, Ascii.eqb_neq.
Qed.

Lemma digits_not_newline (l : list ascii) :
  Forall (fun c => is_digit c = true) l -> Forall (fun c => c ≠ "010"%char) l.
Proof.
  intros H. eapply Forall_impl; [exact H|]. intros c Hc ->. discriminate Hc.
Qed.

Lemma fixed_digits_not_newline (d : nat) (n : Z) :
  0 <= n -> Forall (fun c => c ≠ "010"%char) (fixed_digits d n).
Proof.
  intros Hn.
  destruct (fixed_digits_spec d n Hn) as (ip & fp & -> & Hip & Hfp & _).
  apply Forall_app. split; [by apply digits_not_newline|].
  destruct d; [done|]. constructor; [done|by apply digits_not_newline].
Qed.

Lemma single_line_format_fixed (d : nat) (x : float) :
  single_line (format_fixed d x) = true.
Proof.
  destruct x as [s|s| |s m e].
  - unfold format_fixed. apply single_line_chars, Forall_app.
    split; [destruct s; repeat constructor; done|].
    by apply fixed_digits_not_newline.
  - by destruct s.
  - done.
  - rewrite format_fixed_finite. apply single_line_chars, Forall_app.
    split; [destruct s; repeat constructor; done|].
    apply fixed_digits_not_newline, fixed_count_nonneg.
Qed.

Lemma single_line_format_fixed_signed (d : nat) (x : float) :
  single_line (format_fixed_signed d x) = true.
Proof.
  rewrite format_fixed_signed_abs, single_line_append,
    single_line_format_fixed.
  by destruct (sign_bit x).
Qed.

Lemma single_line_str_of_int (n : Z) : single_line (str_of_int n) = true.
Proof.
  unfold str_of_int. apply single_line_chars, Forall_app.
  split; [destruct (n <? 0); repeat constructor; done|].
  apply digits_not_newline. apply digits_of_spec. lia.
Qed.

Lemma single_line_format_value (value : float) (u : string) :
  single_line u = true -> single_line (format_value value u) = true.
Proof.
  intros Hu. rewrite format_value_rendered. unfold rendered.
  repeat (match goal with
          | |- context [if ?b then _ else _] => destruct b
          end);
    simpl fst; simpl snd;
    change (?a ++ ?b)%string with (a +:+ b);
    rewrite single_line_append, single_line_format_fixed; done.
Qed.

Lemma single_line_format_value_of (py_str : pyval -> string) (value : float)
    (unit : pyval) :
  single_line (format_str py_str unit) = true ->
  single_line (format_value_of py_str value unit) = true.
Proof.
  unfold format_value_of, format_str.
  destruct unit; intros Hu;
    try (by rewrite single_line_append, single_line_format_fixed, Hu).
  by apply single_line_format_value.
Qed.

Lemma single_line_change_str (c : ComparisonResult.t) :
  single_line (change_str c) = true.
Proof.
  unfold change_str.
  destruct (ComparisonResult.is_regression c),
    (ComparisonResult.is_improvement c);
    by rewrite !single_line_append, ?single_line_format_fixed,
         ?single_line_format_fixed_signed.
Qed.

Lemma single_line_status (c : ComparisonResult.t) :
  single_line (status c) = true.
Proof.
  unfold status.
  by destruct (ComparisonResult.is_regression c),
       (ComparisonResult.is_improvement c).
Qed.

Lemma single_line_record_lines (py_str : pyval -> string)
    (c : ComparisonResult.t) :
  single_line_record py_str c = true ->
  single_line (table_row py_str c) = true
  ∧ Forall (fun l => single_line l = true) (regression_details py_str c)
  ∧ single_line (improvement_line py_str c) = true.
Proof.
  intros [Hname Hunit]%andb_prop.
  pose proof (single_line_format_value_of py_str
                (ComparisonResult.baseline_value c) _ Hunit) as Hb.
  pose proof (single_line_format_value_of py_str
                (ComparisonResult.latest_value c) _ Hunit) as Hl.
  split; [|split].
  - unfold table_row.
    by rewrite !single_line_append, Hname, Hb, Hl, single_line_change_str,
         single_line_status.
  - unfold regression_details.
    repeat constructor;
      by rewrite ?single_line_append, ?Hname, ?Hb, ?Hl,
           ?single_line_format_fixed.
  - unfold improvement_line.
    by rewrite !single_line_append, Hname, Hb, Hl, single_line_format_fixed.
Qed.

Lemma single_line_dict_get (py_str : pyval -> string) kvs key d :
  forallb (fun kv => single_line (format_str py_str (snd kv))) kvs = true ->
  single_line (format_str py_str d) = true ->
  single_line (format_str py_str (dict_get kvs key d)) = true.
Proof.
  induction kvs as [|[k v] kvs IH]; simpl; [done|].
  intros [Hv Hrest]%andb_prop Hd.
  destruct (String.eqb k key); [done|by apply IH].
Qed.

Lemma single_line_current_field (py_str : pyval -> string) metadata key s :
  single_line_fields py_str metadata = true ->
  current_field py_str metadata key = Ok s -> single_line s = true.
Proof.
  destruct metadata; try done. simpl. intros H [= <-].
  by apply single_line_dict_get.
Qed.

Lemma single_line_baseline_field (py_str : pyval -> string)
    baseline_metadata key s :
  single_line_fields py_str baseline_metadata = true ->
  baseline_field py_str baseline_metadata key = Ok s -> single_line s = true.
Proof.
  unfold baseline_field. intros H.
  destruct (py_truthy baseline_metadata); [|by intros [= <-]].
  destruct baseline_metadata; try done. simpl in *. intros [= <-].
  by apply single_line_dict_get.
Qed.

Lemma markdown_lines_fields (py_str : pyval -> string) now rust swift metadata
    baseline_metadata lines :
  markdown_lines py_str now rust swift metadata baseline_metadata = Ok lines ->
  exists commit baseline_commit branch baseline_branch date baseline_date,
    current_field py_str metadata "commit_hash" = Ok commit
    ∧ baseline_field py_str baseline_metadata "commit_hash"
      = Ok baseline_commit
    ∧ current_field py_str metadata "branch" = Ok branch
    ∧ baseline_field py_str baseline_metadata "branch" = Ok baseline_branch
    ∧ current_field py_str metadata "commit_date" = Ok date
    ∧ baseline_field py_str baseline_metadata "commit_date"
      = Ok baseline_date
    ∧ lines
      = environment_lines now commit baseline_commit branch baseline_branch
          date baseline_date
        ++ banner_lines (rust ++ swift)
        ++ count_lines rust swift
        ++ table_section py_str "## Rust Benchmarks"
             "| Benchmark | Baseline | Current | Change |"
             "|-----------|----------|---------|--------|" rust
        ++ table_section py_str "## Swift Performance Tests"
             "| Test | Baseline | Current | Change |"
             "|------|----------|---------|--------|" swift
        ++ regression_section py_str (rust ++ swift)
        ++ improvement_section py_str (rust ++ swift).
Proof.
  unfold markdown_lines.
  destruct (current_field py_str metadata "commit_hash") as [c1|]; [|done].
  destruct (baseline_field py_str baseline_metadata "commit_hash") as [c2|];
    [|done].
  destruct (current_field py_str metadata "branch") as [c3|]; [|done].
  destruct (baseline_field py_str baseline_metadata "branch") as [c4|];
    [|done].
  destruct (current_field py_str metadata "commit_date") as [c5|]; [|done].
  destruct (baseline_field py_str baseline_metadata "commit_date") as [c6|];
    [|done].
  intros [= <-]. by exists c1, c2, c3, c4, c5, c6.
Qed.

Lemma single_line_table_section (py_str : pyval -> string) title header rule
    cs :
  single_line title = true -> single_line header = true ->
  single_line rule = true ->
  Forall (fun c => single_line_record py_str c = true) cs ->
  Forall (fun l => single_line l = true)
    (table_section py_str title header rule cs).
Proof.
  intros Ht Hh Hr Hcs. unfold table_section. destruct cs as [|c cs]; [done|].
  apply Forall_app. split; [by repeat constructor|].
  apply Forall_app. split; [|by repeat constructor].
  apply List.Forall_map. eapply Forall_impl; [exact Hcs|].
  intros c' Hc'. by apply single_line_record_lines.
Qed.

Lemma Forall_list_filter {A} (P : A -> Prop) (p : A -> bool) (l : list A) :
  Forall P l -> Forall P (List.filter p l).
Proof.
  induction 1 as [|a l Ha _ IH]; simpl; [done|].
  destruct (p a); [by constructor|done].
Qed.

Lemma single_line_regression_section (py_str : pyval -> string) records :
  Forall (fun c => single_line_record py_str c = true) records ->
  Forall (fun l => single_line l = true) (regression_section py_str records).
Proof.
  intros Hrec. unfold regression_section.
  pose proof (Forall_list_filter _ ComparisonResult.is_regression _ Hrec)
    as Hf.
  destruct (List.filter ComparisonResult.is_regression records) as [|c cs];
    [done|].
  apply Forall_app. split; [by repeat constructor|].
  apply List.Forall_flat_map. eapply Forall_impl; [exact Hf|].
  intros c' Hc'. by apply single_line_record_lines.
Qed.

Lemma single_line_improvement_section (py_str : pyval -> string) records :
  Forall (fun c => single_line_record py_str c = true) records ->
  Forall (fun l => single_line l = true) (improvement_section py_str records).
Proof.
  intros Hrec. unfold improvement_section.
  pose proof (Forall_list_filter _ ComparisonResult.is_improvement _ Hrec)
    as Hf.
  destruct (List.filter ComparisonResult.is_improvement records) as [|c cs];
    [done|].
  apply Forall_app. split; [by repeat constructor|].
  apply Forall_app. split; [|by repeat constructor].
  apply List.Forall_map. eapply Forall_impl; [exact Hf|].
  intros c' Hc'. by apply single_line_record_lines.
Qed.

(** The report that is returned has the elements of the list [lines] as
    its lines, when nothing that goes into it has a newline. *)
Lemma lines_of_report (py_str : pyval -> string) now rust swift metadata
    baseline_metadata report :
  single_line now = true ->
  forallb (single_line_record py_str) (rust ++ swift) = true ->
  single_line_fields py_str metadata = true ->
  single_line_fields py_str baseline_metadata = true ->
  generate_markdown_report py_str now rust swift metadata baseline_metadata
  = Ok report ->
  markdown_lines py_str now rust swift metadata baseline_metadata
  = Ok (lines_of report).
Proof.
  intros Hnow Hrec Hm Hb. unfold generate_markdown_report.
  destruct (markdown_lines py_str now rust swift metadata baseline_metadata)
    as [lines|e] eqn:Hlines; [|done].
  simpl. intros [= <-]. f_equal. symmetry.
  destruct (markdown_lines_fields _ _ _ _ _ _ _ Hlines)
    as (c1 & c2 & c3 & c4 & c5 & c6 & H1 & H2 & H3 & H4 & H5 & H6 & ->).
  apply (single_line_current_field _ _ _ _ Hm) in H1, H3, H5.
  apply (single_line_baseline_field _ _ _ _ Hb) in H2, H4, H6.
  assert (Forall (fun c => single_line_record py_str c = true)
            (rust ++ swift)) as Hall.
  { apply List.Forall_forall. by apply forallb_forall. }
  pose proof Hall as [Hrust Hswift]%Forall_app.
  apply lines_of_concat; [done|].
  repeat (apply Forall_app; split).
  - unfold environment_lines.
    repeat constructor;
      by rewrite ?single_line_append, ?Hnow, ?H1, ?H2, ?H3, ?H4, ?H5, ?H6.
  - unfold banner_lines. destruct (0 <? _); [|done].
    repeat constructor; by rewrite ?single_line_append, ?single_line_str_of_int.
  - unfold count_lines.
    repeat constructor; by rewrite ?single_line_append, ?single_line_str_of_int.
  - by apply single_line_table_section.
  - by apply single_line_table_section.
  - by apply single_line_regression_section.
  - by apply single_line_improvement_section.
Qed.

(** X18. The outline of the report that [generate_markdown_report]
    returns, when neither the time stamp, nor the name or the unit of a
    record, nor a field of the metadata has a newline. The lines of the
    report that start with "## " are "## Environment" and "## Summary",
    then "## Rust Benchmarks" and "## Swift Performance Tests" when the
    source has a record, then "## Regressions Requiring Investigation" when
    a record is a regression and "## Notable Improvements" when a record is
    an improvement, in this order and nothing else; the lines that start
    with "### " are the names of the regressions, Rust first, in the order
    of the records. *)
Theorem markdown_outline (py_str : pyval -> string) (now : string)
    (rust_comparisons swift_comparisons : list ComparisonResult.t)
    (metadata baseline_metadata : pyval) (report : string) :
  single_line now = true ->
  forallb (single_line_record py_str) (rust_comparisons ++ swift_comparisons)
  = true ->
  single_line_fields py_str metadata = true ->
  single_line_fields py_str baseline_metadata = true ->
  generate_markdown_report py_str now rust_comparisons swift_comparisons
    metadata baseline_metadata = Ok report ->
  List.filter (String.prefix "## ") (lines_of report)
  = ["## Environment"; "## Summary"]
    ++ (match rust_comparisons with
        | [] => []
        | _ :: _ => ["## Rust Benchmarks"]
        end)
    ++ (match swift_comparisons with
        | [] => []
        | _ :: _ => ["## Swift Performance Tests"]
        end)
    ++ (if existsb ComparisonResult.is_regression
             (rust_comparisons ++ swift_comparisons)
        then ["## Regressions Requiring Investigation"] else [])
    ++ (if existsb ComparisonResult.is_improvement
             (rust_comparisons ++ swift_comparisons)
        then ["## Notable Improvements"] else [])
  ∧ List.filter (String.prefix "### ") (lines_of report)
    = map (fun c => "### " +:+ ComparisonResult.name c)
        (List.filter ComparisonResult.is_regression
           (rust_comparisons ++ swift_comparisons)).
Proof.
  intros Hnow Hrec Hm Hb Hreport.
  apply (markdown_lines_outline py_str now _ _ metadata baseline_metadata).
  by apply lines_of_report.
Qed.

Lemma markdown_outline_witness :
  exists report,
    generate_markdown_report no_str "now" [flagged_twice] [] (PDict []) PNone
    = Ok report
    ∧ List.filter (String.prefix "### ") (lines_of report) = ["### x"].
Proof.
  eexists. split; [reflexivity|].
  apply (proj2 (markdown_outline no_str "now" [flagged_twice] [] (PDict [])
                  PNone _ eq_refl eq_refl eq_refl eq_refl eq_refl)).
Defined.

(** X19. The counts of the summary in the report that
    [generate_markdown_report] returns, when neither the time stamp, nor
    the name or the unit of a record, nor a field of the metadata has a
    newline. The report has one line for each of the four counts: the
    number of records, the number of records flagged as improvements, the
    number flagged as regressions, and, as "Unchanged", the number of
    records with no flag less the number of records with both flags (which
    a threshold below zero produces). The line in bold type that announces
    the regressions is there exactly when a record is a regression. *)
Theorem markdown_summary (py_str : pyval -> string) (now : string)
    (rust_comparisons swift_comparisons : list ComparisonResult.t)
    (metadata baseline_metadata : pyval) (report : string) :
  single_line now = true ->
  forallb (single_line_record py_str) (rust_comparisons ++ swift_comparisons)
  = true ->
  single_line_fields py_str metadata = true ->
  single_line_fields py_str baseline_metadata = true ->
  generate_markdown_report py_str now rust_comparisons swift_comparisons
    metadata baseline_metadata = Ok report ->
  let records := rust_comparisons ++ swift_comparisons in
  let count p := Z.of_nat (length (List.filter p records)) in
  List.filter (String.prefix "- Total benchmarks: ") (lines_of report)
  = ["- Total benchmarks: " +:+ str_of_int (Z.of_nat (length records))]
  ∧ List.filter (String.prefix "- Improvements: ") (lines_of report)
    = ["- Improvements: "
       +:+ str_of_int (count ComparisonResult.is_improvement)]
  ∧ List.filter (String.prefix "- Regressions: ") (lines_of report)
    = ["- Regressions: "
       +:+ str_of_int (count ComparisonResult.is_regression)]
  ∧ List.filter (String.prefix "- Unchanged: ") (lines_of report)
    = ["- Unchanged: " +:+ str_of_int (count no_flag - count both_flags)]
  ∧ List.filter (String.prefix "**") (lines_of report)
    = if existsb ComparisonResult.is_regression records
      then ["**" +:+ str_of_int (count ComparisonResult.is_regression)
            +:+ " regression(s) detected**"]
      else [].
Proof.
  intros Hnow Hrec Hm Hb Hreport.
  apply (markdown_lines_summary py_str now _ _ metadata baseline_metadata).
  by apply lines_of_report.
Qed.

Lemma markdown_summary_witness :
  exists report,
    generate_markdown_report no_str "now" [flagged_twice] [] (PDict []) PNone
    = Ok report
    ∧ List.filter (String.prefix "- Unchanged: ") (lines_of report)
      = ["- Unchanged: -1"].
Proof.
  eexists. split; [reflexivity|].
  apply (proj1 (proj2 (proj2 (proj2
           (markdown_summary no_str "now" [flagged_twice] [] (PDict []) PNone
              _ eq_refl eq_refl eq_refl eq_refl eq_refl))))).
Defined.

(** A name with a newline spreads over two lines of the report: the
    report then has lines that start with "## " and are not among its
    headings, and the heading of the regression has the first line of the
    name only. *)
Example markdown_name_on_two_lines :
  exists report,
    generate_markdown_report no_str "now" [named_on_two_lines] [] (PDict [])
      PNone = Ok report
    ∧ List.filter (String.prefix "## ") (lines_of report)
      = ["## Environment"; "## Summary"; "## Rust Benchmarks";
         "## b | 100ns | 100ns | +0.00% (regression) |";
         "## Regressions Requiring Investigation"; "## b"]
    ∧ List.filter (String.prefix "### ") (lines_of report) = ["### a"].
Proof. eexists. split; [reflexivity|]. split; vm_compute; reflexivity. Qed.
(** * The metadata *)

Lemma sort_newest_first_nil files :
  head (sort_newest_first files) = None -> files = [].
Proof.
  intros Hh. destruct files as [|e l]; [done|].
  destruct (sort_newest_first_head (e :: l)) as (x & rest & Hs & _); [done|].
  by rewrite Hs in Hh.
Qed.

Lemma metadata_named (id : string) :
  named "metadata" ".json" ("metadata-" +:+ id +:+ ".json").
Proof. by exists id. Qed.

(** The [try] of [load_metadata]. *)
Lemma metadata_of_load (f : json_file) :
  match load f with
  | Ok data => Ok data
  | Raise JSONDecodeError => Ok (PDict [])
  | Raise e => Raise e
  end = metadata_of f.
Proof. by destruct f as [|[]| |[]|data]. Qed.

Lemma load_metadata_newest (results_dir : directory)
    (read : string -> json_file) (identifier : option string) :
  truthy identifier = false ->
  load_metadata results_dir read identifier
  = match head (sort_newest_first (glob results_dir "metadata" ".json")) with
    | Some e => metadata_of (read (entry_name e))
    | None => Ok (PDict [])
    end.
Proof.
  intros Ht. unfold load_metadata.
  assert (match identifier with
          | Some id =>
              if truthy identifier then Some ("metadata-" +:+ id +:+ ".json")
              else entry_name
                     <$> head (sort_newest_first
                                 (glob results_dir "metadata" ".json"))
          | None =>
              entry_name
                <$> head (sort_newest_first
                            (glob results_dir "metadata" ".json"))
          end
          = entry_name
              <$> head (sort_newest_first
                          (glob results_dir "metadata" ".json"))) as ->.
  { destruct identifier; [by rewrite Ht|done]. }
  destruct (glob results_dir "metadata" ".json") as [|x l] eqn:Hg; [done|].
  destruct (sort_newest_first_head (x :: l)) as (n & rest & Hs & Hn & _);
    [done|].
  rewrite Hs. simpl. rewrite <- Hg in Hn.
  apply elem_of_glob in Hn as [Hn _].
  assert (path_exists results_dir (entry_name n) = true) as ->.
  { apply path_exists_spec. by exists n. }
  apply metadata_of_load.
Qed.

(** X21. [load_metadata] opens one file at most. With an identifier that
    is a string other than the empty one, the file is
    "metadata-<identifier>.json"; with no identifier, or the empty one, it
    is a newest file among those named "metadata-*.json", whichever result
    files are compared. When the directory has no such file the result is
    the empty dict. Otherwise the result is what the file gives: the
    document that it decodes to, whatever its type; the empty dict when the
    text is not a JSON document; and every other exception of [open] and
    [json.load] comes out of [load_metadata]: [FileNotFoundError] when the
    file is gone after the test, [OSError], [UnicodeDecodeError] for bytes
    that are not text, [RecursionError], [ValueError]. *)
Theorem load_metadata_outcome (results_dir : directory)
    (read : string -> json_file) (identifier : option string) :
  (forall id, identifier = Some id -> id ≠ "" ->
     ((exists e, e ∈ results_dir
                 ∧ entry_name e = "metadata-" +:+ id +:+ ".json") ->
      load_metadata results_dir read identifier
      = match read ("metadata-" +:+ id +:+ ".json") with
        | Json data => Ok data
        | NotJson => Ok (PDict [])
        | NoSuchFile => Raise FileNotFoundError
        | Unreadable NoAccess => Raise OSError
        | Unreadable NotText => Raise UnicodeDecodeError
        | Undecoded TooDeep => Raise RecursionError
        | Undecoded TooLong => Raise ValueError
        end)
     ∧ ((forall e, e ∈ results_dir ->
           entry_name e ≠ "metadata-" +:+ id +:+ ".json") ->
        load_metadata results_dir read identifier = Ok (PDict [])))
  ∧ (identifier = None ∨ identifier = Some "" ->
     ((forall e, e ∈ results_dir ->
         ¬ named "metadata" ".json" (entry_name e)) ->
      load_metadata results_dir read identifier = Ok (PDict []))
     ∧ ((exists e, e ∈ results_dir
                   ∧ named "metadata" ".json" (entry_name e)) ->
        exists e,
          e ∈ results_dir
          ∧ named "metadata" ".json" (entry_name e)
          ∧ (forall e', e' ∈ results_dir ->
               named "metadata" ".json" (entry_name e') ->
               st_mtime e' <= st_mtime e)
          ∧ load_metadata results_dir read identifier
            = match read (entry_name e) with
              | Json data => Ok data
              | NotJson => Ok (PDict [])
              | NoSuchFile => Raise FileNotFoundError
              | Unreadable NoAccess => Raise OSError
              | Unreadable NotText => Raise UnicodeDecodeError
              | Undecoded TooDeep => Raise RecursionError
              | Undecoded TooLong => Raise ValueError
              end)).
Proof.
  split.
  - intros id -> Hid.
    assert (truthy (Some id) = true) as Ht.
    { simpl. by destruct (String.eqb_spec id ""). }
    unfold load_metadata. rewrite Ht. split.
    + intros Hex. apply path_exists_spec in Hex. rewrite Hex.
      apply metadata_of_load.
    + intros Hno.
      destruct (path_exists results_dir ("metadata-" +:+ id +:+ ".json"))
        eqn:Hex; [|done].
      apply path_exists_spec in Hex as (e & He & Hname).
      by destruct (Hno e He).
  - intros Hid.
    assert (truthy identifier = false) as Ht by (by destruct Hid as [->| ->]).
    rewrite (load_metadata_newest _ _ _ Ht). split.
    + intros Hno. apply glob_nil in Hno. by rewrite Hno.
    + intros (e0 & He0 & Hn0).
      assert (glob results_dir "metadata" ".json" ≠ []) as Hne.
      { intros Hnil. by apply (proj1 (glob_nil _ _ _) Hnil e0). }
      destruct (sort_newest_first_head _ Hne) as (n & rest & Hs & Hn & Hmax).
      rewrite Hs. simpl. apply elem_of_glob in Hn as [Hn Hnamed].
      exists n. split; [done|]. split; [done|]. split; [|done].
      intros e' He' Hn'. apply Hmax. by apply elem_of_glob.
Qed.

Lemma load_metadata_outcome_witness :
  exists e,
    e ∈ directory_of_metadata
    ∧ (forall e', e' ∈ directory_of_metadata -> st_mtime e' <= st_mtime e)
    ∧ load_metadata directory_of_metadata read_metadata None
      = metadata_of (read_metadata (entry_name e)).
Proof.
  destruct (proj2 (proj2 (load_metadata_outcome directory_of_metadata
                            read_metadata None) (or_introl eq_refl)))
    as (e & He & _ & Hmax & Hload).
  - exists {| entry_name := "metadata-1.json"; st_mtime := 1 |}.
    split; [apply list_elem_of_here|by exists "1"].
  - exists e. split; [exact He|]. split; [|exact Hload].
    intros e' He'. apply Hmax; [exact He'|].
    apply elem_of_cons in He' as [->|He']; [by exists "1"|].
    apply list_elem_of_singleton in He' as ->. by exists "2".
Defined.

(** A metadata file that holds a list goes through [load_metadata] and
    makes the Markdown report raise. *)
Example metadata_list_raises :
  (metadata ← load_metadata directory_of_metadata read_metadata None;
   generate_markdown_report no_str "now" [] [] metadata PNone)
  = Raise AttributeError.
Proof. reflexivity. Qed.

(** A metadata file whose bytes are not text makes [load_metadata]
    raise, with an identifier and without. *)
Example metadata_binary_raises :
  load_metadata directory_of_metadata read_binary None
  = Raise UnicodeDecodeError
  ∧ load_metadata directory_of_metadata read_binary (Some "1")
    = Raise UnicodeDecodeError.
Proof. split; reflexivity. Qed.
